(** * Order placement: the [POST /api/orders] handler of [src/routes/orders.js]

    A shallow embedding of the order-creation route and of the store
    operations it calls, followed by the properties of the order-processing
    specification.

    The handler is JavaScript over a Prisma client.  The embedding keeps

    - the request body as JavaScript values: [items] is an array of
      objects or is not an array at all, and an item's [variant_id] and
      [quantity], like the body's [payment_method], are whatever JSON
      scalar the client sent ([undefined] when absent), with the language's
      truthiness, [ToNumber], [<] and [===];
    - numbers as the rationals they denote, with the two arithmetic
      operations the handler performs ([*] and [+=]) rounded to binary64,
      and with the decimal digits under which a number travels to a
      [Decimal] column;
    - the tables of [prisma/schema.prisma] as lists of typed rows, the
      Prisma calls as operations of a state-and-exception monad that also
      records each access to the store, and [prisma.$transaction] as the
      operation that restores the tables when its callback throws;
    - the branch in which the handler ends as one value, named after the
      error taxonomy of the specification; what of it is sent to the
      caller ([response_of]) and what is handed to the logger ([logged])
      are told apart.

    What the code leaves to its surroundings is a parameter of every
    definition (the [environment]): the conversion of strings to numbers,
    the failures of the store, and the order id the store assigns. *)

From Stdlib Require Import ZArith QArith Qround Qabs List String Ascii Bool Lia.
From Stdlib Require Import DecimalString.
From Stdlib Require PrimFloat FloatOps SpecFloat Uint63.
Import ListNotations.

Local Open Scope string_scope.
Local Open Scope list_scope.
Local Open Scope Z_scope.

(** ** JavaScript numbers *)

(** A number is the rational it denotes, an infinity, or NaN.  Every finite
    double is such a rational; the sign of zero is not observed by the
    handler. *)
Inductive number : Type :=
| Finite (q : Q)
| PosInf
| NegInf
| NaN.

(** [floor_log2 a], for [0 < a], is the [e] with [2^e <= a < 2^(e+1)]. *)
Definition floor_log2 (a : Q) : Z :=
  let e0 := Z.log2 (Qnum a) - Z.log2 (Zpos (Qden a)) in
  if Qle_bool (2 ^ e0) a then e0 else e0 - 1.

(** Nearest integer, ties to the even one. *)
Definition round_ties_even (x : Q) : Z :=
  let f := Qfloor x in
  match Qcompare (x - inject_Z f) (1 # 2) with
  | Lt => f
  | Gt => f + 1
  | Eq => if Z.even f then f else f + 1
  end.

(** Rounding of an exact result to binary64 (53-bit significand, least
    exponent -1074, round to nearest, ties to even, overflow to infinity). *)
Definition round_binary64 (x : Q) : number :=
  if Qeq_bool x 0 then Finite 0
  else
    let a := Qabs x in
    let e := Z.max (floor_log2 a - 52) (-1074) in
    let m := round_ties_even (a / 2 ^ e) in
    let v := (inject_Z m * 2 ^ e)%Q in
    if Qle_bool (2 ^ 1024) v
    then (if Qle_bool 0 x then PosInf else NegInf)
    else Finite (Qred (if Qle_bool 0 x then v else - v)).

(** The rounding reads the fraction in lowest terms, so that equal
    rationals round to the same number. *)
Definition binary64 (x : Q) : number := round_binary64 (Qred x).

(** The number a hardware double denotes: the kernel's own binary64
    arithmetic is the reference [binary64] is checked against below. *)
Definition of_float (f : PrimFloat.float) : number :=
  match FloatOps.Prim2SF f with
  | SpecFloat.S754_zero _ => Finite 0
  | SpecFloat.S754_infinity s => if s then NegInf else PosInf
  | SpecFloat.S754_nan => NaN
  | SpecFloat.S754_finite s m e =>
      Finite (Qred ((if s then - 1 else 1) * inject_Z (Zpos m) * 2 ^ e))
  end.

Definition is_zero (q : Q) : bool := Qeq_bool q 0.
Definition is_neg (q : Q) : bool := negb (Qle_bool 0 q).

(** [a * b] on numbers. *)
Definition num_mul (a b : number) : number :=
  match a, b with
  | NaN, _ | _, NaN => NaN
  | Finite x, Finite y => binary64 (x * y)
  | Finite x, PosInf | PosInf, Finite x =>
      if is_zero x then NaN else if is_neg x then NegInf else PosInf
  | Finite x, NegInf | NegInf, Finite x =>
      if is_zero x then NaN else if is_neg x then PosInf else NegInf
  | PosInf, PosInf | NegInf, NegInf => PosInf
  | PosInf, NegInf | NegInf, PosInf => NegInf
  end.

(** [a + b] on numbers. *)
Definition num_add (a b : number) : number :=
  match a, b with
  | NaN, _ | _, NaN => NaN
  | Finite x, Finite y => binary64 (x + y)
  | PosInf, NegInf | NegInf, PosInf => NaN
  | PosInf, _ | _, PosInf => PosInf
  | NegInf, _ | _, NegInf => NegInf
  end.

(** [a < b] on numbers: false as soon as one side is NaN. *)
Definition num_lt (a b : number) : bool :=
  match a, b with
  | NaN, _ | _, NaN => false
  | Finite x, Finite y => negb (Qle_bool y x)
  | NegInf, NegInf | PosInf, _ | _, NegInf => false
  | NegInf, _ | _, PosInf => true
  end.

Definition of_int (z : Z) : number := Finite (inject_Z z).

(** ** Numbers as decimals

    A number that goes to a [Decimal] column travels as its decimal
    digits, [Number::toString]: the decimal with the fewest significant
    digits that reads back as the same double, and the closest one among
    those. *)

(** [floor_log10 a], for [0 < a], is the [e] with [10^e <= a < 10^(e+1)]:
    an estimate from the binary exponent, corrected by one. *)
Definition floor_log10 (a : Q) : Z :=
  let e0 := (floor_log2 a * 30103) / 100000 in
  if Qle_bool (10 ^ (e0 + 1)) a then e0 + 1
  else if Qle_bool (10 ^ e0) a then e0
  else e0 - 1.

(** The two decimals of [k] significant digits around [a]. *)
Definition decimal_candidates (a : Q) (k : Z) : Q * Q :=
  let scale := (10 ^ (floor_log10 a + 1 - k))%Q in
  let s := Qfloor (a / scale) in
  ((inject_Z s * scale)%Q, (inject_Z (s + 1) * scale)%Q).

(** The decimal [d] reads back as the double [a]. *)
Definition reads_back (a d : Q) : bool :=
  match binary64 d with
  | Finite y => Qeq_bool y a
  | _ => false
  end.

(** The search, from [k] digits on; seventeen digits always do for a
    double. *)
Fixpoint shortest_from (a : Q) (k : Z) (fuel : nat) : Q :=
  match fuel with
  | O => a
  | S n =>
      let (lo, hi) := decimal_candidates a k in
      match reads_back a lo, reads_back a hi with
      | true, true => if Qle_bool (a - lo) (hi - a) then lo else hi
      | true, false => lo
      | false, true => hi
      | false, false => shortest_from a (k + 1) n
      end
  end.

Definition shortest_decimal (x : Q) : Q :=
  if Qeq_bool x 0 then 0
  else if Qle_bool 0 x then shortest_from x 1 17
  else - shortest_from (- x) 1 17.

(** What the store makes of a number given for a [Decimal(10, 2)] column,
    in hundredths: the decimal digits of the number are rounded to two
    places, halves away from zero; an amount of more than ten digits, an
    infinity and NaN are refused. *)
Definition decimal_10_2 (n : number) : option Z :=
  match n with
  | Finite q =>
      let r := Qfloor (Qabs (shortest_decimal q) * 100 + (1 # 2)) in
      if r <? 10 ^ 10 then Some (if Qle_bool 0 q then r else - r) else None
  | _ => None
  end.

(** ** JavaScript values of the request body *)

(** The JSON scalars, and [undefined] for a property that is absent. *)
Inductive value : Type :=
| JUndefined
| JNull
| JBool (b : bool)
| JNum (n : number)
| JStr (s : string).

(** [!v] is [negb (truthy v)]. *)
Definition truthy (v : value) : bool :=
  match v with
  | JUndefined | JNull => false
  | JBool b => b
  | JNum (Finite q) => negb (is_zero q)
  | JNum NaN => false
  | JNum _ => true
  | JStr s => negb (s =? EmptyString)%string
  end.

(** [a || b]. *)
Definition js_or (a b : value) : value := if truthy a then a else b.

(** ** The handler's surroundings *)

(** The accesses the handler makes to the store, in the order of the
    source: the [findMany] on [product_variants], and inside the
    transaction the [orders.create], the [n]-th [product_variants.update],
    the [cart_items.deleteMany], the [activity_logs.create] and the commit. *)
Inductive store_op : Type :=
| FindVariants
| CreateOrder
| UpdateStock (n : nat)
| ClearCart
| LogActivity
| Commit.

(** What the code does not decide:
    - [StringToNumber]: the language's conversion of a string that meets a
      numeric operator;
    - [store_fails]: whether the store rejects an access (lost connection,
      foreign key, column length or range violation);
    - [next_order_id]: the value the [orders.id] sequence hands out. *)
Record environment : Type := {
  StringToNumber : string -> number;
  store_fails : store_op -> bool;
  next_order_id : Z
}.

(** [ToNumber v]. *)
Definition ToNumber (env : environment) (v : value) : number :=
  match v with
  | JUndefined => NaN
  | JNull => of_int 0
  | JBool b => of_int (if b then 1 else 0)
  | JNum n => n
  | JStr s => StringToNumber env s
  end.

(** [a < b] where [a] is a number: [b] is converted by [ToNumber]. *)
Definition js_lt (env : environment) (a : number) (b : value) : bool :=
  num_lt a (ToNumber env b).

(** The integer part of a rational: the fraction is cut off, towards
    zero. *)
Definition Qtrunc (q : Q) : Z := Z.quot (Qnum q) (Zpos (Qden q)).

(** What the Prisma client makes of a value given for an [Int] field: a
    finite number is cut to its integer part (1.5 is stored as 1), and
    that integer has to be in the 32-bit signed range of the column;
    anything else is refused. *)
Definition as_int (v : value) : option Z :=
  match v with
  | JNum (Finite q) =>
      let z := Qtrunc q in
      if (- 2 ^ 31 <=? z) && (z <? 2 ^ 31) then Some z else None
  | _ => None
  end.

(** What Prisma accepts for a [String] field. *)
Definition as_string (v : value) : option string :=
  match v with
  | JStr s => Some s
  | _ => None
  end.

Fixpoint as_ints (vs : list value) : option (list Z) :=
  match vs with
  | [] => Some []
  | v :: rest =>
      match as_int v, as_ints rest with
      | Some z, Some zs => Some (z :: zs)
      | _, _ => None
      end
  end.

(** [id === v] for an [Int] column value [id]. *)
Definition strict_eq_int (id : Z) (v : value) : bool :=
  match v with
  | JNum (Finite q) => Qeq_bool (inject_Z id) q
  | _ => false
  end.

(** ** Rows (prisma/schema.prisma)

    Money columns are [Decimal(10, 2)]: a row holds the amount in
    hundredths.  A row holds the columns the handler reads or writes;
    timestamps and the surrogate keys of [order_items], [cart_items] and
    [activity_logs] are left to the store. *)

Module Product.
Record t : Type := { id : Z; name : string }.
End Product.

(** A [product_variants] row with its [products] relation, as
    [include: { products: true }] returns it. *)
Module Variant.
Record t : Type := {
  id : Z;
  products : Product.t;
  size : option string;
  color : option string;
  edition : option string;
  price : Z;
  stock_qty : Z
}.
End Variant.

Module Order.
Record t : Type := {
  id : Z;
  user_id : Z;
  total_amount : Z;
  payment_method : string;
  is_paid : bool;
  status : string
}.
End Order.

Module OrderItem.
Record t : Type := {
  order_id : Z;
  variant_id : option Z;
  product_name : string;
  size : option string;
  color : option string;
  edition : option string;
  unit_price : Z;
  quantity : Z
}.
End OrderItem.

Module CartItem.
Record t : Type := {
  user_id : option Z;
  variant_id : option Z;
  quantity : Z
}.
End CartItem.

Module ActivityLog.
Record t : Type := {
  user_id : Z;
  action : string;
  description : string
}.
End ActivityLog.

(** The tables the handler touches. *)
Record db : Type := {
  product_variants : list Variant.t;
  orders : list Order.t;
  order_items : list OrderItem.t;
  cart_items : list CartItem.t;
  activity_logs : list ActivityLog.t
}.

(** The tables together with the accesses made so far. *)
Record world : Type := {
  store : db;
  accesses : list store_op
}.

(** ** The request *)

(** An element of [req.body.items]. *)
Record order_item : Type := {
  variant_id : value;
  quantity : value
}.

(** [req.body]: [items] is [None] when the property is missing or is not an
    array. *)
Record request_body : Type := {
  items : option (list order_item);
  payment_method : value
}.

(** ** Store accesses: state and exceptions *)

Inductive result (A : Type) : Type :=
| Ok (a : A)
| Throw.

Arguments Ok {A} a.
Arguments Throw {A}.

(** A computation that may touch the store and may throw.  The world it
    leaves is kept when it throws: what undoes writes is [transaction]. *)
Definition M (A : Type) : Type := world -> result A * world.

Definition ret {A : Type} (a : A) : M A := fun w => (Ok a, w).

Definition throw {A : Type} : M A := fun w => (Throw, w).

Definition bind {A B : Type} (m : M A) (k : A -> M B) : M B :=
  fun w =>
    match m w with
    | (Ok a, w') => k a w'
    | (Throw, w') => (Throw, w')
    end.

Declare Scope store_scope.
Delimit Scope store_scope with store.
Notation "x <- m ;; k" := (bind m (fun x => k))
  (at level 61, m at next level, right associativity) : store_scope.
Notation "m ;; k" := (bind m (fun _ => k))
  (at level 61, right associativity) : store_scope.
Local Open Scope store_scope.

Definition read : M db := fun w => (Ok (store w), w).

Definition write (d : db) : M unit :=
  fun w => (Ok tt, {| store := d; accesses := accesses w |}).

(** One access to the store: recorded, and refused when the environment
    says so. *)
Definition access (env : environment) (op : store_op) : M unit :=
  fun w =>
    let w' := {| store := store w; accesses := accesses w ++ [op] |} in
    if store_fails env op then (Throw, w') else (Ok tt, w').

(** [prisma.$transaction(callback)]: the callback's writes are kept if it
    returns and the commit goes through, and undone otherwise. *)
Definition transaction {A : Type} (env : environment) (callback : M A) : M A :=
  fun w =>
    match (a <- callback ;; access env Commit ;; ret a) w with
    | (Ok a, w') => (Ok a, w')
    | (Throw, w') => (Throw, {| store := store w; accesses := accesses w' |})
    end.

(** [try { ... } catch (error) { res.status(500) ... }]. *)
Definition try_catch {A : Type} (m : M A) (handler : A) : world -> A * world :=
  fun w =>
    match m w with
    | (Ok a, w') => (a, w')
    | (Throw, w') => (handler, w')
    end.

(** ** Prisma calls *)

Definition set_product_variants (vs : list Variant.t) (d : db) : db :=
  {| product_variants := vs; orders := orders d; order_items := order_items d;
     cart_items := cart_items d; activity_logs := activity_logs d |}.

Definition set_cart_items (cs : list CartItem.t) (d : db) : db :=
  {| product_variants := product_variants d; orders := orders d;
     order_items := order_items d; cart_items := cs;
     activity_logs := activity_logs d |}.

Definition add_order (o : Order.t) (lines : list OrderItem.t) (d : db) : db :=
  {| product_variants := product_variants d; orders := orders d ++ [o];
     order_items := order_items d ++ lines; cart_items := cart_items d;
     activity_logs := activity_logs d |}.

Definition add_activity_log (l : ActivityLog.t) (d : db) : db :=
  {| product_variants := product_variants d; orders := orders d;
     order_items := order_items d; cart_items := cart_items d;
     activity_logs := activity_logs d ++ [l] |}.

Definition id_in (ids : list Z) (v : Variant.t) : bool :=
  existsb (Z.eqb (Variant.id v)) ids.

(** [prisma.product_variants.findMany({ where: { id: { in: ids } },
    include: { products: true } })]: the client takes each [id] as an
    [Int]; the store returns each matching row once. *)
Definition product_variants_findMany (env : environment) (ids : list value)
  : M (list Variant.t) :=
  match as_ints ids with
  | None => throw
  | Some zs =>
      access env FindVariants ;;
      d <- read ;;
      ret (filter (id_in zs) (product_variants d))
  end.

(** An element of [orderItems], as the handler pushes it. *)
Module OrderItemData.
Record t : Type := {
  variant_id : Z;
  product_name : string;
  size : option string;
  color : option string;
  edition : option string;
  unit_price : Z;
  quantity : value
}.
End OrderItemData.

(** The [data] of [tx.orders.create]. *)
Module OrderData.
Record t : Type := {
  user_id : Z;
  total_amount : number;
  payment_method : value;
  is_paid : bool;
  status : string;
  order_items : list OrderItemData.t
}.
End OrderData.

(** The [order_items] row of one element of [orderItems]: [quantity] is
    taken as an [Int]. *)
Definition order_items_row (order_id : Z) (x : OrderItemData.t)
  : option OrderItem.t :=
  match as_int (OrderItemData.quantity x) with
  | None => None
  | Some q =>
      Some {| OrderItem.order_id := order_id;
              OrderItem.variant_id := Some (OrderItemData.variant_id x);
              OrderItem.product_name := OrderItemData.product_name x;
              OrderItem.size := OrderItemData.size x;
              OrderItem.color := OrderItemData.color x;
              OrderItem.edition := OrderItemData.edition x;
              OrderItem.unit_price := OrderItemData.unit_price x;
              OrderItem.quantity := q |}
  end.

Fixpoint order_items_rows (order_id : Z) (xs : list OrderItemData.t)
  : option (list OrderItem.t) :=
  match xs with
  | [] => Some []
  | x :: rest =>
      match order_items_row order_id x, order_items_rows order_id rest with
      | Some r, Some rs => Some (r :: rs)
      | _, _ => None
      end
  end.

(** [tx.orders.create({ data, include: { order_items: true } })]: the
    client refuses a [payment_method] that is not a [String] and takes
    each [quantity] as an [Int]; the store converts the total to the
    column's type; the order and its lines are appended. *)
Definition orders_create (env : environment) (data : OrderData.t)
  : M (Order.t * list OrderItem.t) :=
  match as_string (OrderData.payment_method data),
        order_items_rows (next_order_id env) (OrderData.order_items data) with
  | Some label, Some lines =>
      access env CreateOrder ;;
      match decimal_10_2 (OrderData.total_amount data) with
      | None => throw
      | Some total =>
          let newOrder :=
            {| Order.id := next_order_id env;
               Order.user_id := OrderData.user_id data;
               Order.total_amount := total;
               Order.payment_method := label;
               Order.is_paid := OrderData.is_paid data;
               Order.status := OrderData.status data |} in
          d <- read ;;
          write (add_order newOrder lines d) ;;
          ret (newOrder, lines)
      end
  | _, _ => throw
  end.

Definition decrement_stock (k : Z) (v : Variant.t) : Variant.t :=
  {| Variant.id := Variant.id v;
     Variant.products := Variant.products v;
     Variant.size := Variant.size v;
     Variant.color := Variant.color v;
     Variant.edition := Variant.edition v;
     Variant.price := Variant.price v;
     Variant.stock_qty := Variant.stock_qty v - k |}.

Definition decrement_where (id k : Z) (v : Variant.t) : Variant.t :=
  if Variant.id v =? id then decrement_stock k v else v.

(** [tx.product_variants.update({ where: { id }, data: { stock_qty:
    { decrement: amount } } })], the [n]-th of the call: the client takes
    [id] and [amount] as [Int]s; the store throws when no row has the
    [id], and subtracts otherwise. *)
Definition product_variants_update_decrement
    (env : environment) (n : nat) (id amount : value) : M unit :=
  match as_int id, as_int amount with
  | Some i, Some k =>
      access env (UpdateStock n) ;;
      d <- read ;;
      if existsb (fun v => Variant.id v =? i) (product_variants d)
      then write (set_product_variants
                    (map (decrement_where i k) (product_variants d)) d)
      else throw
  | _, _ => throw
  end.

Definition in_cart_of (userId : Z) (c : CartItem.t) : bool :=
  match CartItem.user_id c with
  | Some u => u =? userId
  | None => false
  end.

(** [tx.cart_items.deleteMany({ where: { user_id: userId } })]. *)
Definition cart_items_deleteMany (env : environment) (userId : Z) : M unit :=
  access env ClearCart ;;
  d <- read ;;
  write (set_cart_items
           (filter (fun c => negb (in_cart_of userId c)) (cart_items d)) d).

(** [tx.activity_logs.create({ data })]. *)
Definition activity_logs_create (env : environment) (data : ActivityLog.t)
  : M unit :=
  access env LogActivity ;;
  d <- read ;;
  write (add_activity_log data d).

(** ** The handler *)

(** [`${z}`] for an integer. *)
Definition show_int (z : Z) : string := NilZero.string_of_int (Z.to_int z).

(** [`${s}`] for a nullable string. *)
Definition show_nullable (s : option string) : string :=
  match s with
  | Some x => x
  | None => "null"
  end.

Definition dquote : string := String (ascii_of_nat 34) EmptyString.

(** The branch in which the handler ends, with the values the branch has
    at hand.  Each failure is named after the error of the specification's
    taxonomy it stands for.  What of these values the caller receives is
    [response_of] below, and what goes to the logger is [logged]: the item
    of an invalid-item warning, the ids of a not-found warning and the
    variant id, requested quantity and available stock of an
    insufficient-stock warning are logged and not sent.
    [PersistenceError] is the [catch] block, whatever was thrown.  A
    created order comes with its lines, and with the [totalAmount] the
    handler logs. *)
Inductive outcome : Type :=
| EmptyOrderError
| InvalidItemError (item : order_item)
| VariantNotFoundError (requestedVariants : list value) (foundVariants : list Z)
| InsufficientStockError (variantId : Z) (productName : string)
    (color size : option string) (requestedQuantity : value) (availableStock : Z)
| PersistenceError
| OrderCreated (order : Order.t) (lines : list OrderItem.t) (totalAmount : number).

(** [res.status(...)]. *)
Definition status_code (o : outcome) : Z :=
  match o with
  | OrderCreated _ _ _ => 201
  | PersistenceError => 500
  | _ => 400
  end.

(** The [message] of a failure's body; a created order is answered with
    the order itself. *)
Definition message (o : outcome) : option string :=
  match o with
  | EmptyOrderError => Some "Order must contain at least one item"
  | InvalidItemError _ =>
      Some "Each item must have a valid variant_id and quantity"
  | VariantNotFoundError _ _ =>
      Some "One or more requested product variants do not exist"
  | InsufficientStockError _ productName color size _ _ =>
      Some ("Not enough stock for " ++ dquote ++ productName ++ dquote ++ " ("
            ++ show_nullable color ++ ", " ++ show_nullable size ++ ")")%string
  | PersistenceError => Some "Failed to create order"
  | OrderCreated _ _ _ => None
  end.

Definition created (o : outcome) : bool :=
  match o with
  | OrderCreated _ _ _ => true
  | _ => false
  end.

(** What [res.status(...).json(...)] sends to the caller: the status, the
    [success] flag, and the [message] of a failure or the [data] of a
    created order.  Nothing else of a failure reaches the caller. *)
Module Response.
Record t : Type := {
  status : Z;
  success : bool;
  message : option string;
  data : option (Order.t * list OrderItem.t)
}.
End Response.

Definition response_of (o : outcome) : Response.t :=
  {| Response.status := status_code o;
     Response.success := created o;
     Response.message := message o;
     Response.data :=
       match o with
       | OrderCreated order lines _ => Some (order, lines)
       | _ => None
       end |}.

(** What the handler hands to the logger next to its answer: the record
    of [logger.warn], [logger.info] or [logger.error] (of the last one,
    the fields taken from the request). *)
Inductive log_record : Type :=
| WarnEmptyItems (userId : Z)
| WarnInvalidItem (userId : Z) (item : order_item)
| WarnMissingVariants (userId : Z) (requestedVariants : list value)
    (foundVariants : list Z)
| WarnInsufficientStock (userId : Z) (variantId : Z) (productName : string)
    (requestedQuantity : value) (availableStock : Z)
| InfoOrderCreated (userId : Z) (orderId : Z) (itemCount : nat)
    (totalAmount : number) (paymentMethod : value)
| ErrorCreatingOrder (userId : Z) (items : option (list order_item)).

Definition logged (userId : Z) (body : request_body) (o : outcome)
  : log_record :=
  match o with
  | EmptyOrderError => WarnEmptyItems userId
  | InvalidItemError item => WarnInvalidItem userId item
  | VariantNotFoundError requestedVariants foundVariants =>
      WarnMissingVariants userId requestedVariants foundVariants
  | InsufficientStockError variantId productName _ _ requestedQuantity
      availableStock =>
      WarnInsufficientStock userId variantId productName requestedQuantity
        availableStock
  | PersistenceError => ErrorCreatingOrder userId (items body)
  | OrderCreated order _ totalAmount =>
      InfoOrderCreated userId (Order.id order)
        (match items body with
         | Some its => List.length its
         | None => O
         end)
        totalAmount (js_or (payment_method body) (JStr "Credit Card"))
  end.

(** [!item.variant_id || !item.quantity || item.quantity < 1]. *)
Definition invalid_item (env : environment) (item : order_item) : bool :=
  negb (truthy (variant_id item))
  || negb (truthy (quantity item))
  || num_lt (ToNumber env (quantity item)) (of_int 1).

(** [Number(d)] for a [Decimal] of two fractional digits, given in
    hundredths: the handler multiplies the [Decimal] object by a number,
    which converts it through its decimal string. *)
Definition decimal_to_number (hundredths : Z) : number :=
  binary64 (Qmake hundredths 100).

(** [variants.find(v => v.id === item.variant_id)]. *)
Definition find_variant (variants : list Variant.t) (item : order_item)
  : option Variant.t :=
  find (fun v => strict_eq_int (Variant.id v) (variant_id item)) variants.

(** [variant.stock_qty < item.quantity]. *)
Definition under_stocked (env : environment) (variant : Variant.t)
    (item : order_item) : bool :=
  js_lt env (of_int (Variant.stock_qty variant)) (quantity item).

Definition snapshot (variant : Variant.t) (item : order_item)
  : OrderItemData.t :=
  {| OrderItemData.variant_id := Variant.id variant;
     OrderItemData.product_name := Product.name (Variant.products variant);
     OrderItemData.size := Variant.size variant;
     OrderItemData.color := Variant.color variant;
     OrderItemData.edition := Variant.edition variant;
     OrderItemData.unit_price := Variant.price variant;
     OrderItemData.quantity := quantity item |}.

(** How the loop over [items] (stock check, total, [orderItems]) ends. *)
Inductive checked : Type :=
| Insufficient (variant : Variant.t) (item : order_item)
| UndefinedVariant
| Checked (totalAmount : number) (orderItems : list OrderItemData.t).

(** The loop, from the running [totalAmount] and [orderItems].  Reading
    [variant.stock_qty] throws when [find] returned [undefined]. *)
Fixpoint check_stock (env : environment) (variants : list Variant.t)
    (its : list order_item) (totalAmount : number)
    (orderItems : list OrderItemData.t) : checked :=
  match its with
  | [] => Checked totalAmount orderItems
  | item :: rest =>
      match find_variant variants item with
      | None => UndefinedVariant
      | Some variant =>
          if under_stocked env variant item then Insufficient variant item
          else
            check_stock env variants rest
              (num_add totalAmount
                 (num_mul (decimal_to_number (Variant.price variant))
                          (ToNumber env (quantity item))))
              (orderItems ++ [snapshot variant item])
      end
  end.

(** What the part of the handler before the transaction hands over. *)
Inductive prepared : Type :=
| Rejected (o : outcome)
| Accepted (its : list order_item) (totalAmount : number)
    (orderItems : list OrderItemData.t).

(** Lines 126-192: validation of each item, the [findMany], the existence
    check and the loop. *)
Definition prepare_items (env : environment) (its : list order_item)
  : M prepared :=
  match find (invalid_item env) its with
  | Some item => ret (Rejected (InvalidItemError item))
  | None =>
      let variantIds := map variant_id its in
      variants <- product_variants_findMany env variantIds ;;
      if negb (List.length variants =? List.length variantIds)%nat
      then ret (Rejected (VariantNotFoundError variantIds
                            (map Variant.id variants)))
      else
        match check_stock env variants its (of_int 0) [] with
        | Insufficient variant item =>
            ret (Rejected (InsufficientStockError
                             (Variant.id variant)
                             (Product.name (Variant.products variant))
                             (Variant.color variant) (Variant.size variant)
                             (quantity item) (Variant.stock_qty variant)))
        | UndefinedVariant => throw
        | Checked totalAmount orderItems =>
            ret (Accepted its totalAmount orderItems)
        end
  end.

(** Lines 118-192: [!items || !Array.isArray(items) || items.length === 0],
    then the rest. *)
Definition prepare (env : environment) (body : request_body) : M prepared :=
  match items body with
  | None => ret (Rejected EmptyOrderError)
  | Some [] => ret (Rejected EmptyOrderError)
  | Some its => prepare_items env its
  end.

(** The loop of [update] calls, the [n]-th first. *)
Fixpoint update_stock (env : environment) (n : nat) (its : list order_item)
  : M unit :=
  match its with
  | [] => ret tt
  | item :: rest =>
      product_variants_update_decrement env n (variant_id item) (quantity item) ;;
      update_stock env (S n) rest
  end.

(** The callback of [prisma.$transaction]. *)
Definition order_transaction (env : environment) (userId : Z)
    (payment : value) (its : list order_item) (totalAmount : number)
    (orderItems : list OrderItemData.t) : M (Order.t * list OrderItem.t) :=
  newOrder <- orders_create env
    {| OrderData.user_id := userId;
       OrderData.total_amount := totalAmount;
       OrderData.payment_method := js_or payment (JStr "Credit Card");
       OrderData.is_paid := true;
       OrderData.status := "processing";
       OrderData.order_items := orderItems |} ;;
  update_stock env 0 its ;;
  cart_items_deleteMany env userId ;;
  activity_logs_create env
    {| ActivityLog.user_id := userId;
       ActivityLog.action := "CREATE_ORDER";
       ActivityLog.description :=
         ("Created order #" ++ show_int (Order.id (fst newOrder)) ++ " with "
            ++ show_int (Z.of_nat (List.length its)) ++ " items")%string |} ;;
  ret newOrder.

(** Lines 194-253: the transaction and the answer. *)
Definition create_order (env : environment) (userId : Z) (payment : value)
    (its : list order_item) (totalAmount : number)
    (orderItems : list OrderItemData.t) : M outcome :=
  order <- transaction env
    (order_transaction env userId payment its totalAmount orderItems) ;;
  ret (OrderCreated (fst order) (snd order) totalAmount).

Definition finish (env : environment) (userId : Z) (payment : value)
    (p : prepared) : M outcome :=
  match p with
  | Rejected o => ret o
  | Accepted its totalAmount orderItems =>
      create_order env userId payment its totalAmount orderItems
  end.

(** The handler of [POST /], for the authenticated user [userId]. *)
Definition placeOrder (env : environment) (userId : Z) (body : request_body)
  : world -> outcome * world :=
  try_catch
    (p <- prepare env body ;; finish env userId (payment_method body) p)
    PersistenceError.

(** The handler awaits twice: the [findMany] and the transaction.  Between
    the two the event loop may run another request. *)
Definition before_transaction (env : environment) (body : request_body)
  : world -> result prepared * world :=
  prepare env body.

Definition from_transaction (env : environment) (userId : Z)
    (body : request_body) (r : result prepared) : world -> outcome * world :=
  match r with
  | Throw => fun w => (PersistenceError, w)
  | Ok p => try_catch (finish env userId (payment_method body) p) PersistenceError
  end.

(** Two calls, [A] then [B], each reading the variants before either
    transaction starts. *)
Definition interleaved
    (envA : environment) (userA : Z) (bodyA : request_body)
    (envB : environment) (userB : Z) (bodyB : request_body)
    (w : world) : outcome * outcome * world :=
  let (rA, w1) := before_transaction envA bodyA w in
  let (rB, w2) := before_transaction envB bodyB w1 in
  let (oA, w3) := from_transaction envA userA bodyA rA w2 in
  let (oB, w4) := from_transaction envB userB bodyB rB w3 in
  (oA, oB, w4).

(** ** Vocabulary of the properties *)

(** The table after the decrements [(id, amount)], first to last. *)
Fixpoint decremented (ds : list (Z * Z)) (vs : list Variant.t)
  : list Variant.t :=
  match ds with
  | [] => vs
  | (i, k) :: rest => decremented rest (map (decrement_where i k) vs)
  end.

(** [id] is the primary key of [product_variants]. *)
Definition unique_variant_ids (d : db) : Prop :=
  NoDup (map Variant.id (product_variants d)).

Definition stock_nonnegative (d : db) : Prop :=
  Forall (fun v => 0 <= Variant.stock_qty v) (product_variants d).

(** The variant an item resolves to. *)
Definition resolved (d : db) (item : order_item) : option Variant.t :=
  find_variant (product_variants d) item.

(** The existence check of the handler passes: the [findMany] answers and
    returns as many rows as there are items. *)
Definition passes_existence_check (env : environment)
    (its : list order_item) (w : world) : Prop :=
  match product_variants_findMany env (map variant_id its) w with
  | (Ok variants, _) => List.length variants = List.length its
  | (Throw, _) => False
  end.

(** The total as the handler computes it, over the items of the request
    and the lines made of them: from 0, each item adds
    [Number(unit_price) * quantity] with the quantity of the request, every
    operation rounded to binary64. *)
Definition requested_total (env : environment) (its : list order_item)
    (lines : list OrderItem.t) : number :=
  fold_left
    (fun acc p =>
       num_add acc
         (num_mul (decimal_to_number (OrderItem.unit_price (snd p)))
                  (ToNumber env (quantity (fst p)))))
    (combine its lines) (of_int 0).

(** The quantity of the item is a number with an integer value. *)
Definition whole_quantity (item : order_item) : Prop :=
  exists q k, quantity item = JNum (Finite q) /\ (q == inject_Z k)%Q.



(** The total over the created lines in the handler's arithmetic: from 0,
    each line adds [Number(unit_price) * quantity], every operation rounded
    to binary64. *)
Definition double_total (lines : list OrderItem.t) : number :=
  fold_left
    (fun acc l =>
       num_add acc (num_mul (decimal_to_number (OrderItem.unit_price l))
                            (of_int (OrderItem.quantity l))))
    lines (of_int 0).

(** The total over the created lines in exact decimal arithmetic. *)
Definition decimal_total (lines : list OrderItem.t) : Q :=
  Qmake (fold_left
           (fun acc l => acc + OrderItem.unit_price l * OrderItem.quantity l)
           lines 0) 100.




(** The accesses of a transaction over [n] items that runs to its end. *)
Definition transaction_steps (n : nat) : list store_op :=
  CreateOrder :: map UpdateStock (seq 0 n) ++ [ClearCart; LogActivity; Commit].

(** The tables a committed transaction leaves. *)
Definition committed (userId : Z) (order : Order.t) (lines : list OrderItem.t)
    (decrements : list (Z * Z)) (nitems : nat) (d : db) : db :=
  {| product_variants := decremented decrements (product_variants d);
     orders := orders d ++ [order];
     order_items := order_items d ++ lines;
     cart_items := filter (fun c => negb (in_cart_of userId c)) (cart_items d);
     activity_logs :=
       activity_logs d ++
       [{| ActivityLog.user_id := userId;
           ActivityLog.action := "CREATE_ORDER";
           ActivityLog.description :=
             ("Created order #" ++ show_int (Order.id order) ++ " with "
              ++ show_int (Z.of_nat nitems) ++ " items")%string |}] |}.

(** What the handler has checked and done when it answers with a created
    order: [its] are the items, [zs] and [qs] their variant ids and
    quantities as [Int]s, [orderItems] the snapshots of the loop. *)
Record placement (env : environment) (userId : Z) (body : request_body)
    (w w' : world) (order : Order.t) (lines : list OrderItem.t)
    (totalAmount : number) (its : list order_item) (zs qs : list Z)
    (orderItems : list OrderItemData.t) : Prop := {
  placed_items : items body = Some its;
  placed_nonempty : its <> [];
  placed_valid : find (invalid_item env) its = None;
  placed_ids : as_ints (map variant_id its) = Some zs;
  placed_found :
    List.length (filter (id_in zs) (product_variants (store w)))
    = List.length its;
  placed_checked :
    check_stock env (filter (id_in zs) (product_variants (store w))) its
      (of_int 0) [] = Checked totalAmount orderItems;
  placed_label :
    as_string (js_or (payment_method body) (JStr "Credit Card"))
    = Some (Order.payment_method order);
  placed_lines : order_items_rows (next_order_id env) orderItems = Some lines;
  placed_amount : decimal_10_2 totalAmount = Some (Order.total_amount order);
  placed_id : Order.id order = next_order_id env;
  placed_user : Order.user_id order = userId;
  placed_paid : Order.is_paid order = true;
  placed_status : Order.status order = "processing";
  placed_quantities : as_ints (map quantity its) = Some qs;
  placed_read : store_fails env FindVariants = false;
  placed_steps :
    forall op, In op (transaction_steps (List.length its)) ->
               store_fails env op = false;
  placed_accesses :
    accesses w'
    = accesses w ++ FindVariants :: transaction_steps (List.length its);
  placed_store :
    store w' = committed userId order lines (combine zs qs) (List.length its)
                 (store w)
}.

(** What one snapshot adds to the running total. *)
Definition line_step (env : environment) (acc : number) (x : OrderItemData.t)
  : number :=
  num_add acc (num_mul (decimal_to_number (OrderItemData.unit_price x))
                       (ToNumber env (OrderItemData.quantity x))).

(** Two worlds with the same tables but for [cart_items], and the same
    accesses. *)
Definition agree_off_cart (w1 w2 : world) : Prop :=
  set_cart_items [] (store w1) = set_cart_items [] (store w2)
  /\ accesses w1 = accesses w2.

(** A computation that cannot tell such worlds apart. *)
Definition respects_cart {A : Type} (m : M A) : Prop :=
  forall w1 w2,
    agree_off_cart w1 w2 ->
    fst (m w1) = fst (m w2) /\ agree_off_cart (snd (m w1)) (snd (m w2)).

(** The line [l] of [order] holds what the variant of [item] was in [d]. *)
Definition snapshot_of (d : db) (order : Order.t) (item : order_item)
    (l : OrderItem.t) : Prop :=
  exists v,
    resolved d item = Some v
    /\ OrderItem.order_id l = Order.id order
    /\ OrderItem.variant_id l = Some (Variant.id v)
    /\ OrderItem.product_name l = Product.name (Variant.products v)
    /\ OrderItem.size l = Variant.size v
    /\ OrderItem.color l = Variant.color v
    /\ OrderItem.edition l = Variant.edition v
    /\ OrderItem.unit_price l = Variant.price v
    /\ as_int (quantity item) = Some (OrderItem.quantity l).

Definition cart_of (userId : Z) (d : db) : list CartItem.t :=
  filter (in_cart_of userId) (cart_items d).

Definition with_cart (cs : list CartItem.t) (w : world) : world :=
  {| store := set_cart_items cs (store w); accesses := accesses w |}.

Definition with_payment (body : request_body) (p : value) : request_body :=
  {| items := items body; payment_method := p |}.

(** ** Sample data *)

Module Sample.

Fixpoint digits_value (s : string) (acc : Z) : option Z :=
  match s with
  | EmptyString => Some acc
  | String c rest =>
      let n := Z.of_nat (nat_of_ascii c) in
      if (48 <=? n) && (n <=? 57)
      then digits_value rest (10 * acc + (n - 48))
      else None
  end.

(** A [StringToNumber] that is right on strings of decimal digits (the
    empty one included) and answers NaN elsewhere. *)
Definition digits_to_number (s : string) : number :=
  match digits_value s 0 with
  | Some z => binary64 (inject_Z z)
  | None => NaN
  end.

Definition no_failure (op : store_op) : bool := false.

(** The second [update] of the transaction is refused. *)
Definition second_update_fails (op : store_op) : bool :=
  match op with
  | UpdateStock 1 => true
  | _ => false
  end.

Definition env (orderId : Z) (fails : store_op -> bool) : environment :=
  {| StringToNumber := digits_to_number;
     store_fails := fails;
     next_order_id := orderId |}.

Definition tee : Product.t := {| Product.id := 1; Product.name := "Tee" |}.

Definition variant (id price stock : Z) : Variant.t :=
  {| Variant.id := id;
     Variant.products := tee;
     Variant.size := Some "M";
     Variant.color := Some "Black";
     Variant.edition := None;
     Variant.price := price;
     Variant.stock_qty := stock |}.

Definition cart_line (userId variantId : Z) : CartItem.t :=
  {| CartItem.user_id := Some userId;
     CartItem.variant_id := Some variantId;
     CartItem.quantity := 1 |}.

Definition world_of (vs : list Variant.t) (cs : list CartItem.t) : world :=
  {| store := {| product_variants := vs; orders := []; order_items := [];
                 cart_items := cs; activity_logs := [] |};
     accesses := [] |}.

Definition item (variantId qty : Q) : order_item :=
  {| variant_id := JNum (Finite variantId); quantity := JNum (Finite qty) |}.

Definition request (its : list order_item) : request_body :=
  {| items := Some its; payment_method := JUndefined |}.

(** Two units of variant 1, and the order and line this creates in [shop]
    under order id 7. *)
Definition two_tees : request_body := request [item 1 2].

Definition tee_order : Order.t :=
  {| Order.id := 7;
     Order.user_id := 42;
     Order.total_amount := 2000;
     Order.payment_method := "Credit Card";
     Order.is_paid := true;
     Order.status := "processing" |}.

Definition tee_lines : list OrderItem.t :=
  [{| OrderItem.order_id := 7;
      OrderItem.variant_id := Some 1;
      OrderItem.product_name := "Tee";
      OrderItem.size := Some "M";
      OrderItem.color := Some "Black";
      OrderItem.edition := None;
      OrderItem.unit_price := 1000;
      OrderItem.quantity := 2 |}].

(** Two variants at 10.00 and 5.00, five of each in stock; user 42 has a
    cart line. *)
Definition shop : world :=
  world_of [variant 1 1000 5; variant 2 500 5] [cart_line 42 1; cart_line 43 2].

End Sample.

(** * The other routes

    The read routes of [src/routes/orders.js], the middleware of
    [middleware/auth.js] that every one of them goes through, the cart
    routes of [routes/cart.js], whose table the order handler clears, and
    the catalog routes of [src/routes/admin.js], which write the rows the
    order handler reads. *)

From Stdlib Require Import Permutation Qpower Lqa.

(** ** Their surroundings *)

(** The Prisma calls of these routes, and the calls of the catalog routes
    to the image storage. *)
Inductive query : Type :=
| UsersFindUnique
| OrdersFindMany
| OrdersFindFirst
| VariantsFindUnique
| CartFindMany
| CartFindFirst
| CartUpdate
| CartCreate
| CartDelete
| ActivityLogsCreate
| ImageUpload
| ImageDelete
| ProductsCreate
| ProductsFindUnique
| ProductsDelete
| VariantsDeleteMany.

(** A [cart_items] row with its id. *)
Module CartLine.
Record t : Type := {
  id : Z;
  item : CartItem.t
}.
End CartLine.

(** What these routes leave to their surroundings:
    - [parseInt] and [NumberToString]: the language's [parseInt(s)] and
      [`${n}`];
    - [jwt_verify]: [jwt.verify(token, process.env.JWT_SECRET)], [None]
      when it throws and otherwise the [userId] of the decoded payload
      ([undefined] when the payload has none);
    - [query_fails]: whether the store refuses a call;
    - [by_created_at_desc], [by_added_at_desc]: the order in which the
      store returns rows under [orderBy: { created_at: 'desc' }] and
      [orderBy: { added_at: 'desc' }];
    - [next_cart_item_id]: the value the [cart_items.id] sequence hands
      out. *)
Record runtime : Type := {
  parseInt : string -> number;
  NumberToString : number -> string;
  jwt_verify : string -> option value;
  query_fails : query -> bool;
  by_created_at_desc : list Order.t -> list Order.t;
  by_added_at_desc : list CartLine.t -> list CartLine.t;
  next_cart_item_id : Z
}.

(** [`${v}`]. *)
Definition to_string (rt : runtime) (v : value) : string :=
  match v with
  | JUndefined => "undefined"
  | JNull => "null"
  | JBool true => "true"
  | JBool false => "false"
  | JNum n => NumberToString rt n
  | JStr s => s
  end.

(** A computation over a state [S] that may throw; the state it leaves is
    kept when it throws (these routes open no transaction). *)
Definition St (S A : Type) : Type := S -> result A * S.

Definition st_ret {S A : Type} (a : A) : St S A := fun s => (Ok a, s).

Definition st_throw {S A : Type} : St S A := fun s => (Throw, s).

Definition st_bind {S A B : Type} (m : St S A) (k : A -> St S B) : St S B :=
  fun s =>
    match m s with
    | (Ok a, s') => k a s'
    | (Throw, s') => (Throw, s')
    end.

Notation "'let*' x ':=' m 'in' k" := (st_bind m (fun x => k))
  (at level 10, x name, m at level 100, k at level 200).

(** A call to the store: it throws when the surroundings say so. *)
Definition call {S : Type} (rt : runtime) (q : query) : St S unit :=
  fun s => if query_fails rt q then (Throw, s) else (Ok tt, s).

Definition st_catch {S A : Type} (m : St S A) (handler : A) : S -> A * S :=
  fun s =>
    match m s with
    | (Ok a, s') => (a, s')
    | (Throw, s') => (handler, s')
    end.

(** ** Authentication (middleware/auth.js) *)

Inductive UserRole : Type :=
| client
| admin.

Module User.
Record t : Type := {
  id : Z;
  email : string;
  role : UserRole
}.
End User.

(** [s.replace(pattern, replacement)] for a string pattern: the first
    occurrence only. *)
Fixpoint replace_first (pattern replacement s : string) : string :=
  if prefix pattern s
  then (replacement
        ++ substring (String.length pattern)
             (String.length s - String.length pattern) s)%string
  else
    match s with
    | EmptyString => EmptyString
    | String c rest => String c (replace_first pattern replacement rest)
    end.

(** [req.header('Authorization')?.replace('Bearer ', '')]. *)
Definition bearer_token (authorization : option string) : option string :=
  match authorization with
  | None => None
  | Some h => Some (replace_first "Bearer " EmptyString h)
  end.

(** What a middleware does with a request: it calls [next()], here with
    the [req.user] it leaves, or it answers itself. *)
Inductive gate : Type :=
| Next (user : User.t)
| Answer (status : Z) (message : string).

(** [prisma.users.findUnique({ where: { id } })].  [None] when it throws.
    The client takes [id] as an [Int]: a [userId] of 42.5 finds user
    42. *)
Definition users_findUnique (rt : runtime) (users : list User.t) (id : value)
  : option (option User.t) :=
  match as_int id with
  | None => None
  | Some i =>
      if query_fails rt UsersFindUnique then None
      else Some (find (fun u => User.id u =? i) users)
  end.

(** [authenticate]. *)
Definition authenticate (rt : runtime) (users : list User.t)
    (authorization : option string) : gate :=
  match bearer_token authorization with
  | None => Answer 401 "No token, authorization denied"
  | Some token =>
      if (token =? EmptyString)%string
      then Answer 401 "No token, authorization denied"
      else
        match jwt_verify rt token with
        | None => Answer 401 "Token is not valid"
        | Some userId =>
            match users_findUnique rt users userId with
            | None => Answer 401 "Token is not valid"
            | Some None => Answer 401 "User not found"
            | Some (Some user) => Next user
            end
        end
  end.

Definition role_eqb (a b : UserRole) : bool :=
  match a, b with
  | client, client | admin, admin => true
  | _, _ => false
  end.

(** [authorizeAdmin], after a middleware that left [req.user]. *)
Definition authorizeAdmin (user : User.t) : gate :=
  if negb (role_eqb (User.role user) admin)
  then Answer 403 "Access denied. Admin privileges required."
  else Next user.

(** [authorizeClient]. *)
Definition authorizeClient (user : User.t) : gate :=
  if negb (role_eqb (User.role user) client)
  then Answer 403 "Access denied. Client privileges required."
  else Next user.

(** [router.use(authenticate); router.use(authorizeAdmin)] of
    routes/admin.js: what comes before every admin route. *)
Definition admin_gate (rt : runtime) (users : list User.t)
    (authorization : option string) : gate :=
  match authenticate rt users authorization with
  | Next user => authorizeAdmin user
  | Answer status message => Answer status message
  end.

(** [optionalAuth]: it always calls [next()]; the result is the
    [req.user] it leaves, [None] for [null]. *)
Definition optionalAuth (rt : runtime) (users : list User.t)
    (authorization : option string) : option User.t :=
  match bearer_token authorization with
  | None => None
  | Some token =>
      if (token =? EmptyString)%string then None
      else
        match jwt_verify rt token with
        | None => None
        | Some userId =>
            match users_findUnique rt users userId with
            | None => None
            | Some user => user
            end
        end
  end.

(** ** Reading orders (routes/orders.js, [GET /] and [GET /:id]) *)

(** An order as the read routes return it: with its lines, and each line
    with the variant it points to, if that still exists. *)
Module OrderView.
Record t : Type := {
  order : Order.t;
  order_items : list (OrderItem.t * option Variant.t)
}.
End OrderView.

Definition line_variant (d : db) (l : OrderItem.t) : option Variant.t :=
  match OrderItem.variant_id l with
  | None => None
  | Some i => find (fun v => Variant.id v =? i) (product_variants d)
  end.

Definition lines_of (d : db) (o : Order.t) : list OrderItem.t :=
  filter (fun l => OrderItem.order_id l =? Order.id o) (order_items d).

(** [include: { order_items: { include: { product_variants: { include:
    { products: true } } } } }]. *)
Definition include_order_items (d : db) (o : Order.t) : OrderView.t :=
  {| OrderView.order := o;
     OrderView.order_items := map (fun l => (l, line_variant d l)) (lines_of d o) |}.

Inductive orders_answer : Type :=
| OrdersListed (count : nat) (data : list OrderView.t)
| OrdersServerError.

(** [GET /]: the orders of the caller, newest first. *)
Definition get_orders (rt : runtime) (userId : Z) (d : db) : orders_answer :=
  if query_fails rt OrdersFindMany then OrdersServerError
  else
    let found := by_created_at_desc rt
                   (filter (fun o => Order.user_id o =? userId) (orders d)) in
    OrdersListed (List.length found) (map (include_order_items d) found).

Inductive order_answer : Type :=
| OrderFound (data : OrderView.t)
| OrderNotFound
| OrderServerError.

(** [GET /:id]: [findFirst] on the id and the caller; the client refuses
    an id that is no [Int] (NaN, when the parameter is no number, or an
    integer beyond 32 bits). *)
Definition get_order (rt : runtime) (userId : Z) (id : string) (d : db)
  : order_answer :=
  let orderId := parseInt rt id in
  match as_int (JNum orderId) with
  | None => OrderServerError
  | Some i =>
      if query_fails rt OrdersFindFirst then OrderServerError
      else
        match find (fun o => (Order.id o =? i) && (Order.user_id o =? userId))
                (orders d) with
        | None => OrderNotFound
        | Some o => OrderFound (include_order_items d o)
        end
  end.

(** ** The cart (routes/cart.js) *)

(** The tables the cart routes touch. *)
Record cart_db : Type := {
  cart_variants : list Variant.t;
  cart_lines : list CartLine.t;
  cart_logs : list ActivityLog.t
}.

Definition set_cart_lines (ls : list CartLine.t) (d : cart_db) : cart_db :=
  {| cart_variants := cart_variants d; cart_lines := ls;
     cart_logs := cart_logs d |}.

Definition owned_by (userId : Z) (l : CartLine.t) : bool :=
  in_cart_of userId (CartLine.item l).

Definition holds_variant (variantId : Z) (l : CartLine.t) : bool :=
  match CartItem.variant_id (CartLine.item l) with
  | Some v => v =? variantId
  | None => false
  end.

Definition set_quantity (q : Z) (l : CartLine.t) : CartLine.t :=
  {| CartLine.id := CartLine.id l;
     CartLine.item :=
       {| CartItem.user_id := CartItem.user_id (CartLine.item l);
          CartItem.variant_id := CartItem.variant_id (CartLine.item l);
          CartItem.quantity := q |} |}.

(** The [product_variants] relation of a line, [null] for a line without
    variant. *)
Definition cart_line_variant (d : cart_db) (l : CartLine.t)
  : option Variant.t :=
  match CartItem.variant_id (CartLine.item l) with
  | None => None
  | Some i => find (fun v => Variant.id v =? i) (cart_variants d)
  end.

(** [cart.reduce((sum, item) => sum + (item.quantity *
    item.product_variants.price), 0)]: reading the price throws on a line
    whose [product_variants] is [null]. *)
Definition cart_total (cart : list (CartLine.t * option Variant.t))
  : option number :=
  fold_left
    (fun sum row =>
       match sum, snd row with
       | Some s, Some v =>
           Some (num_add s
                   (num_mul (of_int (CartItem.quantity (CartLine.item (fst row))))
                            (decimal_to_number (Variant.price v))))
       | _, _ => None
       end)
    cart (Some (of_int 0)).

Inductive cart_listing : Type :=
| CartListed (count : nat) (total : number)
    (data : list (CartLine.t * option Variant.t))
| CartServerError.

(** [GET /]: the lines of the caller with their variants, and their
    total. *)
Definition cart_get (rt : runtime) (userId : Z) (d : cart_db) : cart_listing :=
  if query_fails rt CartFindMany then CartServerError
  else
    let cart :=
      map (fun l => (l, cart_line_variant d l))
          (by_added_at_desc rt (filter (owned_by userId) (cart_lines d))) in
    match cart_total cart with
    | Some total => CartListed (List.length cart) total cart
    | None => CartServerError
    end.

(** [prisma.product_variants.findUnique({ where: { id } })]. *)
Definition variants_findUnique (rt : runtime) (id : value)
  : St cart_db (option Variant.t) :=
  match as_int id with
  | None => st_throw
  | Some i =>
      let* _ := call rt VariantsFindUnique in
      fun d => (Ok (find (fun v => Variant.id v =? i) (cart_variants d)), d)
  end.

(** [prisma.cart_items.findFirst({ where })], on a predicate. *)
Definition cart_findFirst (rt : runtime) (p : CartLine.t -> bool)
  : St cart_db (option CartLine.t) :=
  let* _ := call rt CartFindFirst in
  fun d => (Ok (find p (cart_lines d)), d).

(** [prisma.cart_items.update({ where: { id }, data: { quantity } })]: an
    [undefined] quantity changes nothing, another one is taken as an
    [Int]; the store throws when no row has the id.  It returns the
    row. *)
Definition cart_update (rt : runtime) (id : Z) (quantity : value)
  : St cart_db CartLine.t :=
  match quantity with
  | JUndefined =>
      let* _ := call rt CartUpdate in
      fun d =>
        match find (fun l => CartLine.id l =? id) (cart_lines d) with
        | Some l => (Ok l, d)
        | None => (Throw, d)
        end
  | _ =>
      match as_int quantity with
      | None => st_throw
      | Some q =>
          let* _ := call rt CartUpdate in
          fun d =>
            match find (fun l => CartLine.id l =? id) (cart_lines d) with
            | Some l =>
                (Ok (set_quantity q l),
                 set_cart_lines
                   (map (fun x => if CartLine.id x =? id
                                  then set_quantity q x else x)
                        (cart_lines d)) d)
            | None => (Throw, d)
            end
      end
  end.

(** [prisma.cart_items.create({ data: { user_id, variant_id, quantity } })]. *)
Definition cart_create (rt : runtime) (userId variantId : Z) (quantity : value)
  : St cart_db CartLine.t :=
  match as_int quantity with
  | None => st_throw
  | Some q =>
      let* _ := call rt CartCreate in
      fun d =>
        let l := {| CartLine.id := next_cart_item_id rt;
                    CartLine.item :=
                      {| CartItem.user_id := Some userId;
                         CartItem.variant_id := Some variantId;
                         CartItem.quantity := q |} |} in
        (Ok l, set_cart_lines (cart_lines d ++ [l]) d)
  end.

(** [prisma.cart_items.delete({ where: { id } })]. *)
Definition cart_delete (rt : runtime) (id : Z) : St cart_db unit :=
  let* _ := call rt CartDelete in
  fun d =>
    if existsb (fun l => CartLine.id l =? id) (cart_lines d)
    then (Ok tt,
          set_cart_lines
            (filter (fun l => negb (CartLine.id l =? id)) (cart_lines d)) d)
    else (Throw, d).

(** [prisma.activity_logs.create({ data })], outside any transaction. *)
Definition log_activity (rt : runtime) (data : ActivityLog.t)
  : St cart_db unit :=
  let* _ := call rt ActivityLogsCreate in
  fun d =>
    (Ok tt,
     {| cart_variants := cart_variants d; cart_lines := cart_lines d;
        cart_logs := cart_logs d ++ [data] |}).

(** [existingItem.quantity + quantity]: a string is appended to the
    digits of the number; anything else is added as a number. *)
Definition js_plus (env : environment) (n : Z) (v : value) : value :=
  match v with
  | JStr s => JStr (show_int n ++ s)%string
  | _ => JNum (num_add (of_int n) (ToNumber env v))
  end.

(** What a cart route answers: the saved line (201 for [POST], 200 for
    [PUT]), the removal, or a failure with its message. *)
Inductive cart_answer : Type :=
| LineSaved (status : Z) (line : CartLine.t)
| LineRemoved
| CartFailure (status : Z) (message : string).

(** [const { variant_id, quantity = 1 } = req.body]. *)
Definition default_quantity (quantity : value) : value :=
  match quantity with
  | JUndefined => JNum (of_int 1)
  | v => v
  end.

(** [POST /]: add to the cart. *)
Definition cart_add (env : environment) (rt : runtime) (userId : Z)
    (variant_id quantity0 : value) : cart_db -> cart_answer * cart_db :=
  let quantity := default_quantity quantity0 in
  st_catch
    (let* variant := variants_findUnique rt variant_id in
     match variant with
     | None => st_ret (CartFailure 404 "Product variant not found")
     | Some v =>
         if js_lt env (of_int (Variant.stock_qty v)) quantity
         then st_ret (CartFailure 400 "Not enough stock available")
         else
           let* existingItem :=
             cart_findFirst rt
               (fun l => owned_by userId l && holds_variant (Variant.id v) l) in
           let* cartItem :=
             match existingItem with
             | Some e =>
                 cart_update rt (CartLine.id e)
                   (js_plus env (CartItem.quantity (CartLine.item e)) quantity)
             | None => cart_create rt userId (Variant.id v) quantity
             end in
           let* _ :=
             log_activity rt
               {| ActivityLog.user_id := userId;
                  ActivityLog.action := "ADD_TO_CART";
                  ActivityLog.description :=
                    ("Added " ++ to_string rt quantity
                     ++ " of product variant " ++ to_string rt variant_id
                     ++ " to cart")%string |} in
           st_ret (LineSaved 201 cartItem)
     end)
    (CartFailure 500 "Server error").

(** [findFirst({ where: { id: cartItemId, user_id: userId } })], common to
    [PUT /:id] and [DELETE /:id]. *)
Definition own_line (rt : runtime) (userId : Z) (cartItemId : number)
  : St cart_db (option CartLine.t) :=
  match as_int (JNum cartItemId) with
  | None => st_throw
  | Some i =>
      cart_findFirst rt (fun l => (CartLine.id l =? i) && owned_by userId l)
  end.

(** The [product_variants] of a line found with [include:
    { product_variants: true }]: reading its stock throws when the line
    has no variant. *)
Definition included_variant (l : CartLine.t) : St cart_db Variant.t :=
  fun d =>
    match CartItem.variant_id (CartLine.item l) with
    | None => (Throw, d)
    | Some i =>
        match find (fun v => Variant.id v =? i) (cart_variants d) with
        | None => (Throw, d)
        | Some v => (Ok v, d)
        end
    end.

(** [PUT /:id]: set the quantity of a line. *)
Definition cart_set (env : environment) (rt : runtime) (userId : Z)
    (id : string) (quantity : value) : cart_db -> cart_answer * cart_db :=
  let cartItemId := parseInt rt id in
  st_catch
    (let* cartItem := own_line rt userId cartItemId in
     match cartItem with
     | None => st_ret (CartFailure 404 "Cart item not found")
     | Some l =>
         let* v := included_variant l in
         if js_lt env (of_int (Variant.stock_qty v)) quantity
         then st_ret (CartFailure 400 "Not enough stock available")
         else
           let* updatedItem := cart_update rt (CartLine.id l) quantity in
           let* _ :=
             log_activity rt
               {| ActivityLog.user_id := userId;
                  ActivityLog.action := "UPDATE_CART";
                  ActivityLog.description :=
                    ("Updated quantity of cart item "
                     ++ NumberToString rt cartItemId ++ " to "
                     ++ to_string rt quantity)%string |} in
           st_ret (LineSaved 200 updatedItem)
     end)
    (CartFailure 500 "Server error").

(** [DELETE /:id]: remove a line. *)
Definition cart_remove (rt : runtime) (userId : Z) (id : string)
  : cart_db -> cart_answer * cart_db :=
  let cartItemId := parseInt rt id in
  st_catch
    (let* cartItem := own_line rt userId cartItemId in
     match cartItem with
     | None => st_ret (CartFailure 404 "Cart item not found")
     | Some l =>
         let* _ := cart_delete rt (CartLine.id l) in
         let* _ :=
           log_activity rt
             {| ActivityLog.user_id := userId;
                ActivityLog.action := "REMOVE_FROM_CART";
                ActivityLog.description :=
                  ("Removed cart item " ++ NumberToString rt cartItemId)%string |} in
         st_ret LineRemoved
     end)
    (CartFailure 500 "Server error").

(** A request to the cart routes, and the route it goes to. *)
Inductive cart_request : Type :=
| PostCart (variant_id quantity : value)
| PutCart (id : string) (quantity : value)
| DeleteCart (id : string).

Definition cart_route (env : environment) (rt : runtime) (userId : Z)
    (r : cart_request) : cart_db -> cart_answer * cart_db :=
  match r with
  | PostCart variant_id quantity => cart_add env rt userId variant_id quantity
  | PutCart id quantity => cart_set env rt userId id quantity
  | DeleteCart id => cart_remove rt userId id
  end.

(** [POST /] awaits the store between looking for the caller's line for
    the variant ([findFirst]) and writing it ([update] or [create]);
    between the two the event loop may run another request.  What the
    first part hands to the second: the answer, when the call ends there,
    or the variant and the line it found. *)
Inductive cart_lookup : Type :=
| CartAnswered (a : cart_answer)
| CartLooked (v : Variant.t) (existingItem : option CartLine.t).

Definition cart_add_lookup (env : environment) (rt : runtime) (userId : Z)
    (variant_id quantity0 : value) : St cart_db cart_lookup :=
  let quantity := default_quantity quantity0 in
  let* variant := variants_findUnique rt variant_id in
  match variant with
  | None => st_ret (CartAnswered (CartFailure 404 "Product variant not found"))
  | Some v =>
      if js_lt env (of_int (Variant.stock_qty v)) quantity
      then st_ret (CartAnswered (CartFailure 400 "Not enough stock available"))
      else
        let* existingItem :=
          cart_findFirst rt
            (fun l => owned_by userId l && holds_variant (Variant.id v) l) in
        st_ret (CartLooked v existingItem)
  end.

Definition cart_add_write (env : environment) (rt : runtime) (userId : Z)
    (variant_id quantity0 : value) (looked : result cart_lookup)
  : cart_db -> cart_answer * cart_db :=
  let quantity := default_quantity quantity0 in
  match looked with
  | Throw => fun d => (CartFailure 500 "Server error", d)
  | Ok (CartAnswered a) => fun d => (a, d)
  | Ok (CartLooked v existingItem) =>
      st_catch
        (let* cartItem :=
           match existingItem with
           | Some e =>
               cart_update rt (CartLine.id e)
                 (js_plus env (CartItem.quantity (CartLine.item e)) quantity)
           | None => cart_create rt userId (Variant.id v) quantity
           end in
         let* _ :=
           log_activity rt
             {| ActivityLog.user_id := userId;
                ActivityLog.action := "ADD_TO_CART";
                ActivityLog.description :=
                  ("Added " ++ to_string rt quantity
                   ++ " of product variant " ++ to_string rt variant_id
                   ++ " to cart")%string |} in
         st_ret (LineSaved 201 cartItem))
        (CartFailure 500 "Server error")
  end.

(** Two calls of [POST /], [A] then [B], each looking for its line before
    either writes. *)
Definition interleaved_cart_adds (env : environment)
    (rtA : runtime) (userA : Z) (variantA quantityA : value)
    (rtB : runtime) (userB : Z) (variantB quantityB : value)
    (d : cart_db) : cart_answer * cart_answer * cart_db :=
  let (lA, d1) := cart_add_lookup env rtA userA variantA quantityA d in
  let (lB, d2) := cart_add_lookup env rtB userB variantB quantityB d1 in
  let (aA, d3) := cart_add_write env rtA userA variantA quantityA lA d2 in
  let (aB, d4) := cart_add_write env rtB userB variantB quantityB lB d3 in
  (aA, aB, d4).

(** ** Catalog management (routes/admin.js)

    The routes that write the rows the order handler reads:
    [POST /products], [PUT /products/:id] and [DELETE /products/:id].  They
    run behind [authenticate] and [authorizeAdmin]; [userId] is the id of
    the admin.  They open no transaction: what a call has written stays
    when a later step of it throws.  The tables keep with each variant its
    product, as [include: { products: true }] returns it; the [products]
    table itself, the categories and the stored images are left to the
    surroundings.  No other route writes these rows: the category routes
    ([routes/categories.js]) write [categories] and the activity log, and
    [PUT /orders/:id/status] the status of an order. *)

(** The fields of the form of [POST /products]. *)
Record product_form : Type := {
  form_name : value;
  form_description : value;
  form_base_price : value;
  form_category_ids : value;
  form_variants : value
}.

(** What [PUT /products/:id] reads of its body before it calls the store:
    [name], [main_image_base64], and [category_ids], [None] when that is
    no array. *)
Record product_update : Type := {
  update_name : value;
  update_main_image_base64 : value;
  update_category_ids : option (list value)
}.

(** The surroundings of the catalog routes: those of the other routes, and
    [product_rows], what [prisma.products.create] makes of a form: the id
    of the new product and the rows of its variants, each with its new id
    and the new product.  [None] when the handler throws before the call
    ([JSON.parse] of [category_ids] or [variants], a request without main
    image, a [name] that is no string) or the store client refuses the
    data. *)
Record admin_runtime : Type := {
  admin_rt : runtime;
  product_rows : product_form -> option (Z * list Variant.t)
}.

Definition db_write (f : db -> db) : St db unit := fun d => (Ok tt, f d).

(** [prisma.activity_logs.create({ data })] of a catalog route. *)
Definition admin_log (rt : runtime) (data : ActivityLog.t) : St db unit :=
  let* _ := call rt ActivityLogsCreate in
  db_write (add_activity_log data).

(** [POST /products]: the images are uploaded, the product is created
    with its variants, and the activity is logged. *)
Definition create_product (art : admin_runtime) (userId : Z)
    (form : product_form) : db -> Z * db :=
  st_catch
    (match product_rows art form with
     | None => st_throw
     | Some (productId, rows) =>
         let* _ := call (admin_rt art) ImageUpload in
         let* _ := call (admin_rt art) ProductsCreate in
         let* _ :=
           db_write (fun d =>
                       set_product_variants (product_variants d ++ rows) d) in
         let* _ :=
           admin_log (admin_rt art)
             {| ActivityLog.user_id := userId;
                ActivityLog.action := "CREATE_PRODUCT";
                ActivityLog.description :=
                  ("Created product " ++ show_int productId)%string |} in
         st_ret 201
     end)
    500.

(** [prisma.products.update] as [PUT /products/:id] calls it.  The store
    client refuses the call whatever the body holds, and the call never
    returns: its [data] sets [categories: { set: [...] }], and
    [categories] is a to-one relation of [products] (prisma/schema.prisma,
    [categories categories? @relation(fields: [category_id], ...)]), which
    has no [set]; it also passes [price], which is no field of
    [products]. *)
Definition products_update : St db Empty_set := st_throw.

(** [PUT /products/:id].  A new main image is uploaded under a name made
    of [name.toLowerCase()]; [category_ids.map] throws when [category_ids]
    is no array; then the store is called.  As that call never returns,
    the loop over [variants] and the activity log behind it never run:
    the route answers 500 and writes nothing. *)
Definition update_product (rt : runtime) (userId : Z) (id : string)
    (body : product_update) : db -> Z * db :=
  st_catch
    (let* _ :=
       if truthy (update_main_image_base64 body)
       then match update_name body with
            | JStr _ => call rt ImageUpload
            | _ => st_throw
            end
       else st_ret tt in
     match update_category_ids body with
     | None => st_throw
     | Some _ =>
         let* product := products_update in
         match product return St db Z with end
     end)
    500.

(** [ON DELETE SET NULL] of [order_items.variant_id]
    (prisma/migrations, [order_items_variant_id_fkey]): the line of a
    deleted variant stays, without its variant. *)
Definition unlinked (l : OrderItem.t) : OrderItem.t :=
  {| OrderItem.order_id := OrderItem.order_id l;
     OrderItem.variant_id := None;
     OrderItem.product_name := OrderItem.product_name l;
     OrderItem.size := OrderItem.size l;
     OrderItem.color := OrderItem.color l;
     OrderItem.edition := OrderItem.edition l;
     OrderItem.unit_price := OrderItem.unit_price l;
     OrderItem.quantity := OrderItem.quantity l |}.

Definition unlink (gone : Z -> bool) (l : OrderItem.t) : OrderItem.t :=
  match OrderItem.variant_id l with
  | Some i => if gone i then unlinked l else l
  | None => l
  end.

(** [prisma.product_variants.deleteMany({ where: { product_id } })]: the
    variants of the product go, and with them the cart lines that name
    them ([ON DELETE CASCADE] of [cart_items.variant_id]); the order lines
    that name them lose their [variant_id]. *)
Definition variants_deleteMany (rt : runtime) (productId : Z) : St db unit :=
  let* _ := call rt VariantsDeleteMany in
  db_write
    (fun d =>
       let of_product v := Product.id (Variant.products v) =? productId in
       let gone i :=
         existsb (fun v => (Variant.id v =? i) && of_product v)
                 (product_variants d) in
       {| product_variants :=
            filter (fun v => negb (of_product v)) (product_variants d);
          orders := orders d;
          order_items := map (unlink gone) (order_items d);
          cart_items :=
            filter (fun c => match CartItem.variant_id c with
                             | Some i => negb (gone i)
                             | None => true
                             end) (cart_items d);
          activity_logs := activity_logs d |}).

(** [DELETE /products/:id].  [parseInt(req.params.id)] has to be an [Int]
    for [findUnique]; the image of the product, when it has one, is
    deleted ([ImageDelete] throws when that fails); the variants are
    deleted, then the product ([ProductsDelete] throws when there is no
    such product), and the activity is logged. *)
Definition delete_product (rt : runtime) (userId : Z) (id : string)
  : db -> Z * db :=
  st_catch
    (match as_int (JNum (parseInt rt id)) with
     | None => st_throw
     | Some productId =>
         let* _ := call rt ProductsFindUnique in
         let* _ := call rt ImageDelete in
         let* _ := variants_deleteMany rt productId in
         let* _ := call rt ProductsDelete in
         let* _ :=
           admin_log rt
             {| ActivityLog.user_id := userId;
                ActivityLog.action := "DELETE_PRODUCT";
                ActivityLog.description :=
                  ("Deleted product " ++ show_int productId)%string |} in
         st_ret 200
     end)
    500.

Inductive catalog_call : Type :=
| PostProduct (form : product_form)
| PutProduct (id : string) (body : product_update)
| DeleteProduct (id : string).

Definition catalog_route (art : admin_runtime) (userId : Z) (c : catalog_call)
  : db -> Z * db :=
  match c with
  | PostProduct form => create_product art userId form
  | PutProduct id body => update_product (admin_rt art) userId id body
  | DeleteProduct id => delete_product (admin_rt art) userId id
  end.

(** The tables after a sequence of calls to the catalog routes, each with
    its surroundings and its admin. *)
Definition catalog_routes (calls : list (admin_runtime * Z * catalog_call))
    (d : db) : db :=
  fold_left
    (fun d c => snd (catalog_route (fst (fst c)) (snd (fst c)) (snd c) d))
    calls d.

(** ** Vocabulary of the properties of these routes *)

(** [pattern] occurs nowhere in [s]. *)
Definition occurs_nowhere (pattern s : string) : Prop :=
  forall a b, s <> (a ++ pattern ++ b)%string.

(** The lines of a user for a variant. *)
Definition lines_for (userId variantId : Z) (d : cart_db) : list CartLine.t :=
  filter (fun l => owned_by userId l && holds_variant variantId l)
         (cart_lines d).

(** No user has two lines for the same variant. *)
Definition one_line_per_variant (d : cart_db) : Prop :=
  forall userId variantId,
    (List.length (lines_for userId variantId d) <= 1)%nat.

(** [id] is the primary key of [cart_items], and the sequence hands out an
    id that no row has. *)
Definition cart_ids_unique (rt : runtime) (d : cart_db) : Prop :=
  NoDup (map CartLine.id (cart_lines d))
  /\ ~ In (next_cart_item_id rt) (map CartLine.id (cart_lines d)).

(** What one call may do to the lines of the cart for [userId]: nothing;
    set the quantity of the rows that have the id of one of the user's
    lines; append a line of the user, under the id the sequence hands out,
    for a variant the user had no line for; or delete the rows that have
    the id of one of the user's lines. *)
Definition cart_step (rt : runtime) (userId : Z)
    (before after : list CartLine.t) : Prop :=
  after = before
  \/ (exists l q,
        In l before /\ owned_by userId l = true
        /\ after = map (fun x => if CartLine.id x =? CartLine.id l
                                 then set_quantity q x else x) before)
  \/ (exists variantId q,
        find (fun x => owned_by userId x && holds_variant variantId x) before
        = None
        /\ after = before
                   ++ [{| CartLine.id := next_cart_item_id rt;
                          CartLine.item :=
                            {| CartItem.user_id := Some userId;
                               CartItem.variant_id := Some variantId;
                               CartItem.quantity := q |} |}])
  \/ (exists l,
        In l before /\ owned_by userId l = true
        /\ after = filter (fun x => negb (CartLine.id x =? CartLine.id l))
                     before).

(** The same surroundings, but for a store that refuses to write the
    activity log. *)
Definition failing_log (rt : runtime) : runtime :=
  {| parseInt := parseInt rt;
     NumberToString := NumberToString rt;
     jwt_verify := jwt_verify rt;
     query_fails := fun q => match q with
                             | ActivityLogsCreate => true
                             | _ => query_fails rt q
                             end;
     by_created_at_desc := by_created_at_desc rt;
     by_added_at_desc := by_added_at_desc rt;
     next_cart_item_id := next_cart_item_id rt |}.

Definition saved (a : cart_answer) : bool :=
  match a with
  | LineSaved _ _ | LineRemoved => true
  | CartFailure _ _ => false
  end.

(** The order request for what a cart listing shows: one item per line,
    with the line's variant and quantity. *)
Definition checkout_item (row : CartLine.t * option Variant.t) : order_item :=
  {| variant_id :=
       match CartItem.variant_id (CartLine.item (fst row)) with
       | Some i => JNum (of_int i)
       | None => JNull
       end;
     quantity := JNum (of_int (CartItem.quantity (CartLine.item (fst row)))) |}.

Definition checkout (data : list (CartLine.t * option Variant.t))
    (payment : value) : request_body :=
  {| items := Some (map checkout_item data); payment_method := payment |}.

(** The lines of the other users. *)
Definition lines_of_others (userId : Z) (d : cart_db) : list CartLine.t :=
  filter (fun l => negb (owned_by userId l)) (cart_lines d).

(** The quantity the lines of an order record for a variant. *)
Definition ordered_quantity (lines : list OrderItem.t) (variantId : Z) : Z :=
  fold_right
    (fun l acc =>
       match OrderItem.variant_id l with
       | Some v => if v =? variantId then OrderItem.quantity l + acc else acc
       | None => acc
       end)
    0 lines.

(** ** Sample data for these routes *)

Module Demo.

Fixpoint leading_digits (s : string) (acc : option Z) : option Z :=
  match s with
  | EmptyString => acc
  | String c rest =>
      let n := Z.of_nat (nat_of_ascii c) in
      if (48 <=? n) && (n <=? 57)
      then leading_digits rest
             (Some (10 * match acc with Some a => a | None => 0 end + (n - 48)))
      else acc
  end.

(** A [parseInt] that is right on strings that start with a decimal
    digit (and are no [0x] literal) or with a character that is neither
    white space nor a sign: the digits at the start, NaN when there are
    none. *)
Definition parse_digits (s : string) : number :=
  match leading_digits s None with
  | Some z => binary64 (inject_Z z)
  | None => NaN
  end.

(** A [`${n}`] that is right on the integers below [10^21]. *)
Definition show_number (n : number) : string :=
  match n with
  | Finite q => show_int (Qfloor q)
  | PosInf => "Infinity"
  | NegInf => "-Infinity"
  | NaN => "NaN"
  end.

(** A stand-in for the signature check: the tokens made of digits are the
    valid ones, and name that user. *)
Definition verify_digits (token : string) : option value :=
  match token with
  | EmptyString => None
  | _ =>
      match Sample.digits_value token 0 with
      | Some z => Some (JNum (of_int z))
      | None => None
      end
  end.

Definition never (q : query) : bool := false.

Definition log_fails (q : query) : bool :=
  match q with
  | ActivityLogsCreate => true
  | _ => false
  end.

Definition rt (fails : query -> bool) : runtime :=
  {| parseInt := parse_digits;
     NumberToString := show_number;
     jwt_verify := verify_digits;
     query_fails := fails;
     by_created_at_desc := @rev Order.t;
     by_added_at_desc := @rev CartLine.t;
     next_cart_item_id := 100 |}.

(** Surroundings of the catalog routes whose store makes of every form
    product 9 with one variant, number 90, at 20.00. *)
Definition admin_rt (fails : query -> bool) : admin_runtime :=
  {| admin_rt := rt fails;
     product_rows :=
       fun _ =>
         Some (9, [{| Variant.id := 90;
                      Variant.products :=
                        {| Product.id := 9; Product.name := "Cap" |};
                      Variant.size := None;
                      Variant.color := Some "Blue";
                      Variant.edition := None;
                      Variant.price := 2000;
                      Variant.stock_qty := 3 |}]) |}.

(** The same surroundings one row later: the sequence hands out 101. *)
Definition next_rt (fails : query -> bool) : runtime :=
  {| parseInt := parse_digits;
     NumberToString := show_number;
     jwt_verify := verify_digits;
     query_fails := fails;
     by_created_at_desc := @rev Order.t;
     by_added_at_desc := @rev CartLine.t;
     next_cart_item_id := 101 |}.

(** Surroundings in which every token verifies, with a [userId] of
    42.5. *)
Definition fractional_rt : runtime :=
  {| parseInt := parse_digits;
     NumberToString := show_number;
     jwt_verify := fun _ => Some (JNum (Finite (85 # 2)));
     query_fails := never;
     by_created_at_desc := @rev Order.t;
     by_added_at_desc := @rev CartLine.t;
     next_cart_item_id := 100 |}.

Definition users : list User.t :=
  [{| User.id := 42; User.email := "ann@example.com"; User.role := client |};
   {| User.id := 1; User.email := "root@example.com"; User.role := admin |}].

Definition cart_line (id userId variantId quantity : Z) : CartLine.t :=
  {| CartLine.id := id;
     CartLine.item := {| CartItem.user_id := Some userId;
                         CartItem.variant_id := Some variantId;
                         CartItem.quantity := quantity |} |}.

(** Variant 1 has five units; user 42 holds four of them in the cart, user
    43 one. *)
Definition cart : cart_db :=
  {| cart_variants := [Sample.variant 1 1000 5; Sample.variant 2 500 5];
     cart_lines := [cart_line 10 42 1 4; cart_line 11 43 1 1];
     cart_logs := [] |}.

(** The tables once user 42 has ordered two units of variant 1 as order
    7, with an older order of user 43. *)
Definition other_order : Order.t :=
  {| Order.id := 3;
     Order.user_id := 43;
     Order.total_amount := 500;
     Order.payment_method := "PayPal";
     Order.is_paid := true;
     Order.status := "shipped" |}.

Definition other_line : OrderItem.t :=
  {| OrderItem.order_id := 3;
     OrderItem.variant_id := Some 2;
     OrderItem.product_name := "Tee";
     OrderItem.size := Some "M";
     OrderItem.color := Some "Black";
     OrderItem.edition := None;
     OrderItem.unit_price := 500;
     OrderItem.quantity := 1 |}.

Definition tables : db :=
  {| product_variants := [Sample.variant 1 1000 3; Sample.variant 2 500 4];
     orders := [other_order; Sample.tee_order];
     order_items := other_line :: Sample.tee_lines;
     cart_items := [];
     activity_logs := [] |}.

End Demo.

(** * Properties *)

(** ** Rounding *)

(** [binary64] and the two operations agree with the kernel's doubles on
    the amounts of the examples, on a tie, at the overflow threshold and
    among the subnormals. *)
Example binary64_agrees_with_the_hardware :
  let f := fun z => PrimFloat.of_uint63 (Uint63.of_Z z) in
  let div := PrimFloat.div in
  let mul := PrimFloat.mul in
  let add := PrimFloat.add in
  binary64 (1 # 10) = of_float (div (f 1) (f 10))
  /\ num_mul (decimal_to_number 10) (of_int 3)
     = of_float (mul (div (f 10) (f 100)) (f 3))
  /\ num_add (decimal_to_number 10) (decimal_to_number 20)
     = of_float (add (div (f 10) (f 100))
                     (div (f 20) (f 100)))
  /\ decimal_to_number 1999 = of_float (div (f 1999) (f 100))
  /\ binary64 9007199254740993 = of_float (f 9007199254740993)
  /\ binary64 (2 ^ 1024) = of_float (mul (FloatOps.Z.ldexp (f 1) 1023) (f 2))
  /\ binary64 (2 ^ 1024 - 2 ^ 970 - 1)
     = of_float (FloatOps.Z.ldexp (f 9007199254740991) 971)
  /\ binary64 (3 * 2 ^ (- 1075))
     = of_float (div (FloatOps.Z.ldexp (f 3) (- 1074)) (f 2)).
Proof. vm_compute. repeat split; reflexivity. Qed.

(** The decimal digits of a number and the store's rounding of them:
    0.1 + 0.2 travels as 0.30000000000000004 and is stored as 0.30; 0.015,
    0.005 and 1.005, whose doubles lie below them, travel under these
    digits and are rounded up; an amount of eleven digits is refused. *)
Example decimal_10_2_examples :
  (match num_add (binary64 (1 # 10)) (binary64 (2 # 10)) with
   | Finite q => shortest_decimal q
   | _ => 0%Q
   end = 30000000000000004 # 100000000000000000)
  /\ map (fun q => decimal_10_2 (binary64 q))
       [3 # 10; 15 # 1000; 5 # 1000; 1005 # 1000; - (15 # 1000); 15;
        99999999994 # 1000; 99999999995 # 1000]%Q
     = [Some 30; Some 2; Some 1; Some 101; Some (- 2); Some 1500;
        Some 9999999999; None]
  /\ map decimal_10_2 [PosInf; NegInf; NaN] = [None; None; None].
Proof. vm_compute. repeat split; reflexivity. Qed.

(** ** The store monad *)

(** A transaction that throws leaves the tables as they were. *)
Lemma transaction_throws {A : Type} (env : environment) (callback : M A)
    (w w' : world) :
  transaction env callback w = (Throw, w') -> store w' = store w.
Proof.
  unfold transaction.
  destruct ((a <- callback ;; access env Commit ;; ret a) w) as [[a|] w1];
    intros H; inversion H; reflexivity.
Qed.

(** A transaction that returns ran its callback to the end and
    committed. *)
Lemma transaction_returns {A : Type} (env : environment) (callback : M A)
    (w w' : world) (a : A) :
  transaction env callback w = (Ok a, w') ->
  exists w1, callback w = (Ok a, w1)
             /\ store_fails env Commit = false
             /\ w' = {| store := store w1; accesses := accesses w1 ++ [Commit] |}.
Proof.
  unfold transaction, bind.
  destruct (callback w) as [[a1|] w1]; [|discriminate].
  unfold access. destruct (store_fails env Commit); [discriminate|].
  unfold ret. intros H. inversion H. subst. exists w1. auto.
Qed.

Lemma findMany_store (env : environment) (ids : list value) (w : world) :
  store (snd (product_variants_findMany env ids w)) = store w.
Proof.
  unfold product_variants_findMany.
  destruct (as_ints ids); [|reflexivity].
  unfold bind, access. destruct (store_fails env FindVariants); reflexivity.
Qed.

(** The part of the handler before the transaction writes nothing. *)
Lemma prepare_items_store (env : environment) (its : list order_item)
    (w : world) :
  store (snd (prepare_items env its w)) = store w.
Proof.
  unfold prepare_items.
  destruct (find (invalid_item env) its); [reflexivity|].
  cbv zeta. unfold bind.
  pose proof (findMany_store env (map variant_id its) w) as Hs.
  destruct (product_variants_findMany env (map variant_id its) w)
    as [[variants|] w1]; simpl in Hs; [|exact Hs].
  destruct (negb _); [exact Hs|].
  destruct (check_stock env variants its (of_int 0) []); exact Hs.
Qed.

Lemma prepare_store (env : environment) (body : request_body) (w : world) :
  store (snd (prepare env body w)) = store w.
Proof.
  unfold prepare.
  destruct (items body) as [[|i its]|]; try reflexivity.
  apply prepare_items_store.
Qed.

Lemma create_order_failure (env : environment) (userId : Z) (payment : value)
    (its : list order_item) (totalAmount : number)
    (orderItems : list OrderItemData.t) (w w' : world) :
  create_order env userId payment its totalAmount orderItems w = (Throw, w') ->
  store w' = store w.
Proof.
  unfold create_order, bind.
  destruct (transaction env _ w) as [[order|] w1] eqn:T.
  - unfold ret. discriminate.
  - intros H. inversion H. subst. eapply transaction_throws. exact T.
Qed.

Lemma create_order_outcome (env : environment) (userId : Z) (payment : value)
    (its : list order_item) (totalAmount : number)
    (orderItems : list OrderItemData.t) (w w' : world) (o : outcome) :
  create_order env userId payment its totalAmount orderItems w = (Ok o, w') ->
  created o = true.
Proof.
  unfold create_order, bind.
  destruct (transaction env _ w) as [[order|] w1]; [|discriminate].
  unfold ret. intros H. inversion H. reflexivity.
Qed.

(** A call that does not end in a created order leaves the tables as
    they were. *)
Lemma failed_call_keeps_store (env : environment) (userId : Z)
    (body : request_body) (w w' : world) (o : outcome) :
  placeOrder env userId body w = (o, w') ->
  created o = false ->
  store w' = store w.
Proof.
  unfold placeOrder, try_catch, bind.
  pose proof (prepare_store env body w) as Hp.
  destruct (prepare env body w) as [[p|] w1]; simpl in Hp.
  - destruct p as [o1|its totalAmount orderItems]; simpl.
    + intros H _. inversion H. subst. exact Hp.
    + destruct (create_order env userId (payment_method body) its totalAmount
                  orderItems w1) as [[o2|] w2] eqn:C.
      * intros H Hc. inversion H. subst.
        apply create_order_outcome in C. congruence.
      * intros H _. inversion H. subst.
        apply create_order_failure in C. congruence.
  - intros H _. inversion H. subst. exact Hp.
Qed.

(** ** What a created order tells *)

Lemma store_eta (d : db) :
  set_product_variants (product_variants d) d = d.
Proof. destruct d. reflexivity. Qed.

Lemma update_decrement_returns (env : environment) (n : nat)
    (id amount : value) (w w' : world) :
  product_variants_update_decrement env n id amount w = (Ok tt, w') ->
  exists i k,
    as_int id = Some i /\ as_int amount = Some k
    /\ store_fails env (UpdateStock n) = false
    /\ accesses w' = accesses w ++ [UpdateStock n]
    /\ store w' = set_product_variants
                    (map (decrement_where i k) (product_variants (store w)))
                    (store w).
Proof.
  unfold product_variants_update_decrement.
  destruct (as_int id) as [i|]; [|discriminate].
  destruct (as_int amount) as [k|]; [|discriminate].
  unfold bind, access, read, write, throw.
  destruct (store_fails env (UpdateStock n)); [discriminate|]. simpl.
  destruct (existsb _ _); [|discriminate].
  intros H. inversion H. exists i, k. auto.
Qed.

Lemma update_stock_returns (env : environment) (its : list order_item) :
  forall (n : nat) (w w' : world),
    update_stock env n its w = (Ok tt, w') ->
    exists zs qs,
      as_ints (map variant_id its) = Some zs
      /\ as_ints (map quantity its) = Some qs
      /\ (forall op, In op (map UpdateStock (seq n (List.length its))) ->
                     store_fails env op = false)
      /\ accesses w'
         = accesses w ++ map UpdateStock (seq n (List.length its))
      /\ store w' = set_product_variants
                      (decremented (combine zs qs) (product_variants (store w)))
                      (store w).
Proof.
  induction its as [|item rest IH]; intros n w w'; simpl.
  - unfold ret. intros H. inversion H. subst.
    exists [], []. simpl. rewrite store_eta, app_nil_r. tauto.
  - unfold bind at 1.
    destruct (product_variants_update_decrement env n (variant_id item)
                (quantity item) w) as [[[]|] w1] eqn:U; [|discriminate].
    intros H. apply IH in H. destruct H as (zs & qs & Hz & Hq & Hf & Ha & Hs).
    apply update_decrement_returns in U.
    destruct U as (i & k & Hi & Hk & Hf1 & Ha1 & Hs1).
    exists (i :: zs), (k :: qs). rewrite Hi, Hk, Hz, Hq. simpl.
    repeat split.
    + intros op [E|Hin]; [subst op; exact Hf1|apply Hf; exact Hin].
    + rewrite Ha, Ha1, <- app_assoc. reflexivity.
    + rewrite Hs, Hs1. reflexivity.
Qed.

Lemma orders_create_returns (env : environment) (data : OrderData.t)
    (w w' : world) (order : Order.t) (lines : list OrderItem.t) :
  orders_create env data w = (Ok (order, lines), w') ->
  exists label amount,
    as_string (OrderData.payment_method data) = Some label
    /\ order_items_rows (next_order_id env) (OrderData.order_items data) = Some lines
    /\ decimal_10_2 (OrderData.total_amount data) = Some amount
    /\ order = {| Order.id := next_order_id env;
                  Order.user_id := OrderData.user_id data;
                  Order.total_amount := amount;
                  Order.payment_method := label;
                  Order.is_paid := OrderData.is_paid data;
                  Order.status := OrderData.status data |}
    /\ store_fails env CreateOrder = false
    /\ accesses w' = accesses w ++ [CreateOrder]
    /\ store w' = add_order order lines (store w).
Proof.
  unfold orders_create.
  destruct (as_string _) as [label|]; [|discriminate].
  destruct (order_items_rows _ _) as [ls|]; [|discriminate].
  unfold bind, access, read, write, throw, ret.
  destruct (store_fails env CreateOrder); [discriminate|]. simpl.
  destruct (decimal_10_2 _) as [amount|]; [|discriminate].
  intros H. inversion H. subst. exists label, amount. auto 10.
Qed.

Lemma order_transaction_returns (env : environment) (userId : Z)
    (payment : value) (its : list order_item) (totalAmount : number)
    (orderItems : list OrderItemData.t) (w w' : world)
    (order : Order.t) (lines : list OrderItem.t) :
  order_transaction env userId payment its totalAmount orderItems w
  = (Ok (order, lines), w') ->
  exists label amount zs qs,
    as_string (js_or payment (JStr "Credit Card")) = Some label
    /\ order_items_rows (next_order_id env) orderItems = Some lines
    /\ decimal_10_2 totalAmount = Some amount
    /\ order = {| Order.id := next_order_id env;
                  Order.user_id := userId;
                  Order.total_amount := amount;
                  Order.payment_method := label;
                  Order.is_paid := true;
                  Order.status := "processing" |}
    /\ as_ints (map variant_id its) = Some zs
    /\ as_ints (map quantity its) = Some qs
    /\ (forall op,
          In op (CreateOrder :: map UpdateStock (seq 0 (List.length its))
                   ++ [ClearCart; LogActivity]) ->
          store_fails env op = false)
    /\ accesses w'
       = accesses w ++ CreateOrder :: map UpdateStock (seq 0 (List.length its))
                        ++ [ClearCart; LogActivity]
    /\ store w' = committed userId order lines (combine zs qs)
                    (List.length its) (store w).
Proof.
  unfold order_transaction. unfold bind at 1.
  destruct (orders_create env _ w) as [[[o ls]|] w1] eqn:C; [|discriminate].
  apply orders_create_returns in C. simpl in C.
  destruct C as (label & amount & Hl & Hr & Ha & Ho & Hf1 & Ha1 & Hs1).
  unfold bind at 1.
  destruct (update_stock env 0 its w1) as [[[]|] w2] eqn:U; [|discriminate].
  apply update_stock_returns in U.
  destruct U as (zs & qs & Hz & Hq & Hf2 & Ha2 & Hs2).
  unfold cart_items_deleteMany, activity_logs_create.
  unfold bind, access, read, write, ret.
  destruct (store_fails env ClearCart) eqn:Hf3; [discriminate|]. simpl.
  destruct (store_fails env LogActivity) eqn:Hf4; [discriminate|]. simpl.
  intros H. inversion H. subst.
  exists label, amount, zs, qs. repeat split; auto.
  - intros op [E|Hin]; [subst op; exact Hf1|].
    apply in_app_or in Hin. destruct Hin as [Hin|[E|[E|[]]]].
    + apply Hf2. exact Hin.
    + subst op. exact Hf3.
    + subst op. exact Hf4.
  - simpl. rewrite Ha2, Ha1. repeat rewrite <- app_assoc. reflexivity.
  - simpl. rewrite Hs2, Hs1. reflexivity.
Qed.

Lemma findMany_returns (env : environment) (ids : list value) (w w1 : world)
    (variants : list Variant.t) :
  product_variants_findMany env ids w = (Ok variants, w1) ->
  exists zs,
    as_ints ids = Some zs
    /\ store_fails env FindVariants = false
    /\ variants = filter (id_in zs) (product_variants (store w))
    /\ w1 = {| store := store w; accesses := accesses w ++ [FindVariants] |}.
Proof.
  unfold product_variants_findMany.
  destruct (as_ints ids) as [zs|]; [|discriminate].
  unfold bind, access, read, ret.
  destruct (store_fails env FindVariants); [discriminate|]. simpl.
  intros H. inversion H. exists zs. auto.
Qed.

Lemma prepare_accepts (env : environment) (body : request_body) (w w1 : world)
    (its : list order_item) (totalAmount : number)
    (orderItems : list OrderItemData.t) :
  prepare env body w = (Ok (Accepted its totalAmount orderItems), w1) ->
  items body = Some its /\ its <> []
  /\ find (invalid_item env) its = None
  /\ store w1 = store w
  /\ accesses w1 = accesses w ++ [FindVariants]
  /\ exists zs,
       as_ints (map variant_id its) = Some zs
       /\ store_fails env FindVariants = false
       /\ List.length (filter (id_in zs) (product_variants (store w)))
          = List.length its
       /\ check_stock env (filter (id_in zs) (product_variants (store w))) its
            (of_int 0) [] = Checked totalAmount orderItems.
Proof.
  unfold prepare.
  destruct (items body) as [[|i l]|]; try (unfold ret; discriminate).
  unfold prepare_items.
  destruct (find (invalid_item env) (i :: l)) eqn:V;
    [unfold ret; discriminate|].
  cbv zeta. unfold bind.
  destruct (product_variants_findMany env (map variant_id (i :: l)) w)
    as [[variants|] w0] eqn:F; [|discriminate].
  apply findMany_returns in F. destruct F as (zs & Hz & Hf & Hv & Hw).
  destruct (Nat.eqb _ _) eqn:L; cbn [negb]; [|unfold ret; discriminate].
  apply Nat.eqb_eq in L. rewrite length_map in L.
  destruct (check_stock env variants (i :: l) (of_int 0) []) eqn:K;
    try (unfold ret, throw; discriminate).
  unfold ret. intros H. inversion H. subst.
  repeat split; auto; try discriminate.
  exists zs. auto.
Qed.

(** A created order comes with everything the handler checked on the way. *)
Lemma placeOrder_created_inv (env : environment) (userId : Z)
    (body : request_body) (w w' : world) (order : Order.t)
    (lines : list OrderItem.t) (totalAmount : number) :
  placeOrder env userId body w = (OrderCreated order lines totalAmount, w') ->
  exists its zs qs orderItems,
    placement env userId body w w' order lines totalAmount its zs qs orderItems.
Proof.
  unfold placeOrder, try_catch, bind.
  destruct (prepare env body w) as [[p|] w1] eqn:P; [|discriminate].
  destruct p as [o1|its t ois]; simpl.
  - unfold ret. intros H. inversion H. subst.
    exfalso. revert P. unfold prepare.
    destruct (items body) as [[|i l]|]; try (unfold ret; discriminate).
    unfold prepare_items.
    destruct (find (invalid_item env) (i :: l));
      [unfold ret; discriminate|].
    cbv zeta. unfold bind.
    destruct (product_variants_findMany env _ w) as [[variants|] w0];
      [|discriminate].
    destruct (negb _); [unfold ret; discriminate|].
    destruct (check_stock env variants (i :: l) (of_int 0) []);
      unfold ret, throw; discriminate.
  - apply prepare_accepts in P.
    destruct P as (Hi & Hn & Hv & Hs & Hacc & zs & Hz & Hrd & Hl & Hc).
    unfold create_order, bind.
    destruct (transaction env _ w1) as [[[o ls]|] w2] eqn:T; [|discriminate].
    unfold ret. simpl. intros H. inversion H. subst.
    apply transaction_returns in T. destruct T as (w3 & T & Hcm & Hw').
    apply order_transaction_returns in T.
    destruct T as (label & amount & zs' & qs & Hlab & Hrows & Ham & Ho & Hz'
                   & Hq & Hfs & Has & Hst).
    rewrite Hz in Hz'. inversion Hz'. subst zs'.
    exists its, zs, qs, ois. subst order. simpl in *.
    constructor; simpl; auto.
    + unfold transaction_steps. intros op [E|Hin]; [apply Hfs; left; exact E|].
      apply in_app_or in Hin. destruct Hin as [Hin|[E|[E|[E|[]]]]].
      * apply Hfs. right. apply in_or_app. left. exact Hin.
      * apply Hfs. right. apply in_or_app. right. left. exact E.
      * apply Hfs. right. apply in_or_app. right. right. left. exact E.
      * subst op. exact Hcm.
    + rewrite Hw'. simpl. rewrite Has, Hacc. unfold transaction_steps.
      rewrite <- !app_assoc. simpl. rewrite <- !app_assoc. reflexivity.
    + rewrite Hw'. simpl. rewrite Hst, Hs. reflexivity.
Qed.

(** ** All or nothing *)

(** C1.  All or nothing.  A call that does not answer with a created
    order leaves the tables exactly as they were before it: no order, no
    order line, no stock change, no cart deletion and no log entry.  That
    is what happens whenever a step of the transaction (the order
    creation, one of the stock decrements, the cart clearing, the activity
    log, the commit) is refused by the store. *)
Theorem placeOrder_all_or_nothing (env : environment) (userId : Z)
    (body : request_body) (w w' : world) (o : outcome) :
  placeOrder env userId body w = (o, w') ->
  (created o = false -> store w' = store w)
  /\ (forall its op,
        items body = Some its ->
        In op (transaction_steps (List.length its)) ->
        store_fails env op = true ->
        created o = false /\ store w' = store w).
Proof.
  intros H.
  assert (F : created o = false -> store w' = store w)
    by exact (failed_call_keeps_store env userId body w w' o H).
  split; [exact F|].
  intros its op Hi Hop Hf.
  destruct (created o) eqn:C; [|auto].
  exfalso. destruct o; try discriminate.
  apply placeOrder_created_inv in H. destruct H as (its' & zs & qs & ois & P).
  pose proof (placed_items _ _ _ _ _ _ _ _ _ _ _ _ P) as Hi'.
  rewrite Hi in Hi'. inversion Hi'. subst its'.
  rewrite (placed_steps _ _ _ _ _ _ _ _ _ _ _ _ P op Hop) in Hf. discriminate.
Qed.

(** The scenario of the specification: two items, and the decrement for
    the second fails. *)
Lemma placeOrder_all_or_nothing_witness :
  let env := Sample.env 7 Sample.second_update_fails in
  let body := Sample.request [Sample.item 1 1; Sample.item 2 1] in
  let w' := snd (placeOrder env 42 body Sample.shop) in
  (created PersistenceError = false -> store w' = store Sample.shop)
  /\ (forall its op,
        items body = Some its ->
        In op (transaction_steps (List.length its)) ->
        store_fails env op = true ->
        created PersistenceError = false /\ store w' = store Sample.shop).
Proof.
  apply (placeOrder_all_or_nothing
           (Sample.env 7 Sample.second_update_fails) 42
           (Sample.request [Sample.item 1 1; Sample.item 2 1])
           Sample.shop).
  vm_compute. reflexivity.
Defined.

(** In that call the callback itself had inserted the order and taken one
    unit of the first variant before the second [update] threw: it is the
    transaction that undoes them. *)
Example callback_alone_leaves_partial_writes :
  let its := [Sample.item 1 1; Sample.item 2 1] in
  let env := Sample.env 7 Sample.second_update_fails in
  match prepare env (Sample.request its) Sample.shop with
  | (Ok (Accepted _ totalAmount orderItems), w1) =>
      let (r, w2) := order_transaction env 42 JUndefined its totalAmount
                       orderItems w1 in
      r = Throw
      /\ List.length (orders (store w2)) = 1%nat
      /\ map Variant.stock_qty (product_variants (store w2)) = [4; 5]
  | _ => False
  end.
Proof. vm_compute. auto. Qed.

Example second_decrement_failure :
  placeOrder (Sample.env 7 Sample.second_update_fails) 42
    (Sample.request [Sample.item 1 1; Sample.item 2 1]) Sample.shop
  = (PersistenceError,
     {| store := store Sample.shop;
        accesses := [FindVariants; CreateOrder; UpdateStock 0; UpdateStock 1] |}).
Proof. vm_compute. reflexivity. Qed.

(** ** Numbers that are [Int]s *)

Lemma as_int_inv (v : value) (k : Z) :
  as_int v = Some k ->
  exists q, v = JNum (Finite q) /\ k = Qtrunc q /\ - 2 ^ 31 <= k < 2 ^ 31.
Proof.
  unfold as_int. destruct v as [| |b|[q| | |]|s]; try discriminate.
  cbv zeta.
  destruct ((- 2 ^ 31 <=? Qtrunc q) && (Qtrunc q <? 2 ^ 31)) eqn:C;
    [|discriminate].
  apply andb_prop in C. destruct C as [L U].
  apply Z.leb_le in L. apply Z.ltb_lt in U.
  intros H. inversion H. subst k. exists q. auto.
Qed.

Lemma Qtrunc_inject_Z (z : Z) : Qtrunc (inject_Z z) = z.
Proof. unfold Qtrunc. simpl. apply Z.quot_1_r. Qed.

(** The integer part does not depend on how the fraction is written. *)
Lemma Qtrunc_compat (q r : Q) : (q == r)%Q -> Qtrunc q = Qtrunc r.
Proof.
  unfold Qeq, Qtrunc. destruct q as [a b], r as [c d]. simpl. intros E.
  rewrite <- (Z.quot_mul_cancel_r a (Zpos b) (Zpos d)) by discriminate.
  rewrite <- (Z.quot_mul_cancel_r c (Zpos d) (Zpos b)) by discriminate.
  rewrite E, (Z.mul_comm (Zpos d)). reflexivity.
Qed.

Lemma Qtrunc_integer (q : Q) (i : Z) : (q == inject_Z i)%Q -> Qtrunc q = i.
Proof. intros E. rewrite (Qtrunc_compat _ _ E). apply Qtrunc_inject_Z. Qed.

(** At or above zero the integer part is the floor. *)
Lemma Qtrunc_floor (q : Q) : (0 <= q)%Q -> Qtrunc q = Qfloor q.
Proof.
  unfold Qle, Qtrunc, Qfloor. destruct q as [a b]. simpl. intros H.
  apply Z.quot_div_nonneg; lia.
Qed.

Lemma Qtrunc_le (q : Q) : (0 <= q)%Q -> (inject_Z (Qtrunc q) <= q)%Q.
Proof. intros H. rewrite (Qtrunc_floor q H). apply Qfloor_le. Qed.

(** The integer part of a number is not above an integer the number is
    not above. *)
Lemma Qtrunc_below (q : Q) (s : Z) : (q <= inject_Z s)%Q -> Qtrunc q <= s.
Proof.
  unfold Qle, Qtrunc. destruct q as [a b]. simpl. rewrite Z.mul_1_r. intros H.
  pose proof (Z.quot_rem a (Zpos b) ltac:(discriminate)) as E.
  destruct (Z_lt_le_dec a 0) as [N|P].
  - pose proof (Z.rem_bound_pos_neg a (Zpos b) ltac:(lia) ltac:(lia)). nia.
  - pose proof (Z.rem_bound_pos a (Zpos b) P ltac:(lia)). nia.
Qed.

Lemma Qtrunc_positive (q : Q) : (1 <= q)%Q -> 1 <= Qtrunc q.
Proof.
  intros H. rewrite Qtrunc_floor.
  - change 1 with (Qfloor 1). apply Qfloor_resp_le. exact H.
  - apply Qle_trans with (y := 1%Q); [discriminate|exact H].
Qed.

Lemma binary64_compat (x y : Q) : (x == y)%Q -> binary64 x = binary64 y.
Proof.
  intros H. unfold binary64. rewrite (Qred_complete x y H). reflexivity.
Qed.

Lemma is_zero_compat (x y : Q) : (x == y)%Q -> is_zero x = is_zero y.
Proof.
  intros H. unfold is_zero.
  destruct (Qeq_bool x 0) eqn:X, (Qeq_bool y 0) eqn:Y; try reflexivity.
  - apply Qeq_bool_iff in X. rewrite H in X. apply Qeq_bool_iff in X. congruence.
  - apply Qeq_bool_iff in Y. rewrite <- H in Y. apply Qeq_bool_iff in Y. congruence.
Qed.

Lemma Qle_bool_compat_r (x y : Q) : (x == y)%Q -> Qle_bool 0 x = Qle_bool 0 y.
Proof.
  intros H.
  destruct (Qle_bool 0 x) eqn:X, (Qle_bool 0 y) eqn:Y; try reflexivity.
  - apply Qle_bool_iff in X. rewrite H in X. apply Qle_bool_iff in X. congruence.
  - apply Qle_bool_iff in Y. rewrite <- H in Y. apply Qle_bool_iff in Y. congruence.
Qed.

(** Multiplying by a number does not depend on how the fraction is
    written. *)
Lemma num_mul_compat (a : number) (x y : Q) :
  (x == y)%Q -> num_mul a (Finite x) = num_mul a (Finite y).
Proof.
  intros H. destruct a as [q| | |]; simpl; try reflexivity.
  - apply binary64_compat. rewrite H. reflexivity.
  - unfold is_neg. rewrite (is_zero_compat x y H), (Qle_bool_compat_r x y H).
    reflexivity.
  - unfold is_neg. rewrite (is_zero_compat x y H), (Qle_bool_compat_r x y H).
    reflexivity.
Qed.

(** ** The loop over the items *)

Lemma check_stock_checked (env : environment) (variants : list Variant.t)
    (its : list order_item) :
  forall (t0 : number) (ois0 : list OrderItemData.t) (t : number)
         (ois : list OrderItemData.t),
    check_stock env variants its t0 ois0 = Checked t ois ->
    exists new,
      ois = ois0 ++ new
      /\ t = fold_left (line_step env) new t0
      /\ Forall2 (fun item x =>
                    exists v, find_variant variants item = Some v
                              /\ under_stocked env v item = false
                              /\ x = snapshot v item) its new.
Proof.
  induction its as [|item rest IH]; intros t0 ois0 t ois; simpl.
  - intros H. inversion H. subst. exists []. rewrite app_nil_r. auto.
  - destruct (find_variant variants item) as [v|] eqn:F; [|discriminate].
    destruct (under_stocked env v item) eqn:U; [discriminate|].
    intros H. apply IH in H. destruct H as (new & Ho & Ht & Hf).
    exists (snapshot v item :: new). rewrite <- app_assoc in Ho.
    repeat split; auto.
    constructor; [|exact Hf]. exists v. auto.
Qed.

Lemma order_items_rows_Forall2 (orderId : Z) (xs : list OrderItemData.t) :
  forall lines,
    order_items_rows orderId xs = Some lines ->
    Forall2 (fun x l => order_items_row orderId x = Some l) xs lines.
Proof.
  induction xs as [|x rest IH]; intros lines; simpl.
  - intros H. inversion H. constructor.
  - destruct (order_items_row orderId x) as [r|] eqn:R; [|discriminate].
    destruct (order_items_rows orderId rest) as [rs|]; [|discriminate].
    intros H. inversion H. subst. constructor; auto.
Qed.

Lemma order_items_row_inv (orderId : Z) (x : OrderItemData.t) (l : OrderItem.t) :
  order_items_row orderId x = Some l ->
  as_int (OrderItemData.quantity x) = Some (OrderItem.quantity l)
  /\ OrderItem.order_id l = orderId
  /\ OrderItem.variant_id l = Some (OrderItemData.variant_id x)
  /\ OrderItem.product_name l = OrderItemData.product_name x
  /\ OrderItem.size l = OrderItemData.size x
  /\ OrderItem.color l = OrderItemData.color x
  /\ OrderItem.edition l = OrderItemData.edition x
  /\ OrderItem.unit_price l = OrderItemData.unit_price x.
Proof.
  unfold order_items_row.
  destruct (as_int (OrderItemData.quantity x)) as [q|]; [|discriminate].
  intros H. inversion H. simpl. auto 10.
Qed.

(** On snapshots that become rows, the handler's running total adds, for
    each item, the price of its line times the quantity of the request. *)
Lemma fold_line_step_requested (env : environment) (orderId : Z)
    (its : list order_item) (new : list OrderItemData.t) :
  Forall2 (fun item x => OrderItemData.quantity x = quantity item) its new ->
  forall lines,
    Forall2 (fun x l => order_items_row orderId x = Some l) new lines ->
    forall t0,
      fold_left (line_step env) new t0
      = fold_left
          (fun acc p =>
             num_add acc
               (num_mul (decimal_to_number (OrderItem.unit_price (snd p)))
                        (ToNumber env (quantity (fst p)))))
          (combine its lines) t0.
Proof.
  induction 1 as [|item x its' new' Hq _ IH]; intros lines R t0;
    inversion R as [|? l ? lines' Hx R']; subst; simpl; [reflexivity|].
  rewrite <- (IH _ R'). f_equal. unfold line_step.
  apply order_items_row_inv in Hx.
  destruct Hx as (_ & _ & _ & _ & _ & _ & _ & Hp).
  rewrite Hq, Hp. reflexivity.
Qed.

(** The total of a created order is the one the handler computed from
    the quantities of the request. *)
Lemma created_total (env : environment) (userId : Z) (body : request_body)
    (w w' : world) (order : Order.t) (lines : list OrderItem.t)
    (totalAmount : number) :
  placeOrder env userId body w = (OrderCreated order lines totalAmount, w') ->
  exists its,
    items body = Some its
    /\ List.length its = List.length lines
    /\ totalAmount = requested_total env its lines
    /\ decimal_10_2 totalAmount = Some (Order.total_amount order).
Proof.
  intros H. apply placeOrder_created_inv in H.
  destruct H as (its & zs & qs & ois & P).
  destruct (check_stock_checked _ _ _ _ _ _ _
              (placed_checked _ _ _ _ _ _ _ _ _ _ _ _ P))
    as (new & Ho & Ht & Hf).
  simpl in Ho. subst ois.
  pose proof (order_items_rows_Forall2 _ _ _
                (placed_lines _ _ _ _ _ _ _ _ _ _ _ _ P)) as R.
  exists its. split; [exact (placed_items _ _ _ _ _ _ _ _ _ _ _ _ P)|].
  split; [|split].
  - rewrite (Forall2_length Hf). exact (Forall2_length R).
  - rewrite Ht. unfold requested_total.
    apply (fold_line_step_requested env (next_order_id env) its new); [|exact R].
    eapply Forall2_impl; [|exact Hf].
    intros item x (v & _ & _ & Hx). subst x. reflexivity.
  - exact (placed_amount _ _ _ _ _ _ _ _ _ _ _ _ P).
Qed.





(** The order that comes back is the one of the theorem: one order, its
    line, and the entry of the activity log. *)
Example one_order_in_the_tables :
  let w' := snd (placeOrder (Sample.env 7 Sample.no_failure) 42
                   (with_payment Sample.two_tees (JStr "PayPal"))
                   Sample.shop) in
  List.length (orders (store w')) = 1%nat
  /\ order_items (store w') = Sample.tee_lines
  /\ activity_logs (store w')
     = [{| ActivityLog.user_id := 42;
           ActivityLog.action := "CREATE_ORDER";
           ActivityLog.description := "Created order #7 with 1 items" |}].
Proof. vm_compute. auto. Qed.

(** ** The payment method *)





(** The empty string, [null], [false] and 0 all lead to the default label;
    a label is kept. *)
Example payment_method_examples :
  map (fun p =>
         match fst (placeOrder (Sample.env 7 Sample.no_failure) 42
                      {| items := Some [Sample.item 1 2]; payment_method := p |}
                      Sample.shop) with
         | OrderCreated order _ _ => Some (Order.payment_method order)
         | _ => None
         end)
      [JStr EmptyString; JNull; JBool false; JNum (of_int 0); JUndefined;
       JStr "PayPal"; JNum (of_int 5); JBool true]
  = [Some "Credit Card"; Some "Credit Card"; Some "Credit Card";
     Some "Credit Card"; Some "Credit Card"; Some "PayPal"; None; None].
Proof. vm_compute. reflexivity. Qed.

(** ** The cart *)

Ltac split_worlds H :=
  match type of H with
  | agree_off_cart ?w1 ?w2 =>
      destruct w1 as [[? ? ? ? ?] ?]; destruct w2 as [[? ? ? ? ?] ?];
      unfold agree_off_cart in H; simpl in H; destruct H as [H ?];
      inversion H; subst
  end.

Ltac agreed := unfold agree_off_cart; simpl; split; reflexivity.

Lemma respects_ret {A : Type} (a : A) : respects_cart (ret a).
Proof. intros w1 w2 H. simpl. auto. Qed.

Lemma respects_throw {A : Type} : respects_cart (@throw A).
Proof. intros w1 w2 H. simpl. auto. Qed.

Lemma respects_bind {A B : Type} (m : M A) (k : A -> M B) :
  respects_cart m -> (forall a, respects_cart (k a)) -> respects_cart (bind m k).
Proof.
  intros Hm Hk w1 w2 H. unfold bind.
  destruct (Hm w1 w2 H) as [Hr Hw].
  destruct (m w1) as [[a1|] w1'], (m w2) as [[a2|] w2']; simpl in *;
    try discriminate.
  - inversion Hr. subst. apply Hk. exact Hw.
  - auto.
Qed.

Lemma respects_access (env : environment) (op : store_op) :
  respects_cart (access env op).
Proof.
  intros w1 w2 H. split_worlds H. unfold access. simpl.
  destruct (store_fails env op); simpl; split; try reflexivity; agreed.
Qed.

Lemma respects_findMany (env : environment) (ids : list value) :
  respects_cart (product_variants_findMany env ids).
Proof.
  unfold product_variants_findMany.
  destruct (as_ints ids); [|apply respects_throw].
  intros w1 w2 H. split_worlds H. unfold bind, access, read, ret. simpl.
  destruct (store_fails env FindVariants); simpl; split; try reflexivity; agreed.
Qed.

Lemma respects_orders_create (env : environment) (data : OrderData.t) :
  respects_cart (orders_create env data).
Proof.
  unfold orders_create.
  destruct (as_string _); [|apply respects_throw].
  destruct (order_items_rows _ _); [|apply respects_throw].
  intros w1 w2 H. split_worlds H. unfold bind, access, read, write, ret, throw.
  simpl. destruct (store_fails env CreateOrder); simpl;
    [split; [reflexivity|agreed]|].
  destruct (decimal_10_2 _); simpl; split; try reflexivity; agreed.
Qed.

Lemma respects_update_decrement (env : environment) (n : nat) (id amount : value) :
  respects_cart (product_variants_update_decrement env n id amount).
Proof.
  unfold product_variants_update_decrement.
  destruct (as_int id); [|apply respects_throw].
  destruct (as_int amount); [|apply respects_throw].
  intros w1 w2 H. split_worlds H. unfold bind, access, read, write, throw.
  simpl. destruct (store_fails env (UpdateStock n)); simpl;
    [split; [reflexivity|agreed]|].
  destruct (existsb _ _); simpl; split; try reflexivity; agreed.
Qed.

Lemma respects_update_stock (env : environment) (its : list order_item) :
  forall n, respects_cart (update_stock env n its).
Proof.
  induction its as [|item rest IH]; intros n; simpl.
  - apply respects_ret.
  - apply respects_bind; [apply respects_update_decrement|].
    intros _. apply IH.
Qed.

Lemma respects_deleteMany (env : environment) (userId : Z) :
  respects_cart (cart_items_deleteMany env userId).
Proof.
  intros w1 w2 H. split_worlds H.
  unfold cart_items_deleteMany, bind, access, read, write. simpl.
  destruct (store_fails env ClearCart); simpl; split; try reflexivity; agreed.
Qed.

Lemma respects_activity_logs_create (env : environment) (data : ActivityLog.t) :
  respects_cart (activity_logs_create env data).
Proof.
  intros w1 w2 H. split_worlds H.
  unfold activity_logs_create, bind, access, read, write. simpl.
  destruct (store_fails env LogActivity); simpl; split; try reflexivity; agreed.
Qed.

Lemma respects_transaction {A : Type} (env : environment) (callback : M A) :
  respects_cart callback -> respects_cart (transaction env callback).
Proof.
  intros Hc w1 w2 H. unfold transaction.
  assert (Hb : respects_cart (a <- callback ;; access env Commit ;; ret a)).
  { apply respects_bind; [exact Hc|]. intros a.
    apply respects_bind; [apply respects_access|]. intros _. apply respects_ret. }
  destruct (Hb w1 w2 H) as [Hr Hw].
  destruct ((a <- callback ;; access env Commit ;; ret a) w1) as [[a1|] w1'],
           ((a <- callback ;; access env Commit ;; ret a) w2) as [[a2|] w2'];
    simpl in *; try discriminate.
  - auto.
  - split; [reflexivity|]. destruct H as [Hs _], Hw as [_ Ha].
    unfold agree_off_cart. simpl. auto.
Qed.

Lemma respects_prepare (env : environment) (body : request_body) :
  respects_cart (prepare env body).
Proof.
  unfold prepare.
  destruct (items body) as [[|i l]|]; try apply respects_ret.
  unfold prepare_items.
  destruct (find (invalid_item env) (i :: l)); [apply respects_ret|].
  cbv zeta. apply respects_bind; [apply respects_findMany|]. intros variants.
  destruct (negb _); [apply respects_ret|].
  destruct (check_stock env variants (i :: l) (of_int 0) []);
    try apply respects_ret; apply respects_throw.
Qed.

Lemma respects_finish (env : environment) (userId : Z) (payment : value)
    (p : prepared) :
  respects_cart (finish env userId payment p).
Proof.
  destruct p as [o|its t ois]; simpl; [apply respects_ret|].
  unfold create_order.
  apply respects_bind; [|intros order; apply respects_ret].
  apply respects_transaction. unfold order_transaction.
  apply respects_bind; [apply respects_orders_create|]. intros newOrder.
  apply respects_bind; [apply respects_update_stock|]. intros _.
  apply respects_bind; [apply respects_deleteMany|]. intros _.
  apply respects_bind; [apply respects_activity_logs_create|]. intros _.
  apply respects_ret.
Qed.

(** The answer of a call does not depend on the cart table. *)
Lemma placeOrder_ignores_cart (env : environment) (userId : Z)
    (body : request_body) (w1 w2 : world) :
  agree_off_cart w1 w2 ->
  fst (placeOrder env userId body w1) = fst (placeOrder env userId body w2).
Proof.
  intros H. unfold placeOrder, try_catch.
  assert (Hb : respects_cart
                 (p <- prepare env body ;;
                  finish env userId (payment_method body) p)).
  { apply respects_bind; [apply respects_prepare|].
    intros p. apply respects_finish. }
  destruct (Hb w1 w2 H) as [Hr _].
  destruct ((p <- prepare env body ;; finish env userId (payment_method body) p) w1)
    as [[o1|] w1'],
    ((p <- prepare env body ;; finish env userId (payment_method body) p) w2)
    as [[o2|] w2']; simpl in *; try discriminate; congruence.
Qed.

Lemma filter_none_keeps_all {A : Type} (f : A -> bool) (l : list A) :
  filter f l = [] -> filter (fun x => negb (f x)) l = l.
Proof.
  induction l as [|x l IH]; simpl; [reflexivity|].
  destruct (f x); simpl; [discriminate|]. intros H. rewrite IH; auto.
Qed.

(** C9.  A created order leaves none of the caller's cart lines and every
    line of the other users; whether and how a call succeeds does not
    depend on the cart table, so a call that succeeds succeeds as well, with
    the same order, when the caller's cart is already empty; and the cart
    table is then left as it was. *)
Theorem cart_clearing_is_idempotent (env : environment) (userId : Z)
    (body : request_body) (w w' : world) (order : Order.t)
    (lines : list OrderItem.t) (totalAmount : number) :
  placeOrder env userId body w = (OrderCreated order lines totalAmount, w') ->
  cart_items (store w')
  = filter (fun c => negb (in_cart_of userId c)) (cart_items (store w))
  /\ cart_of userId (store w') = []
  /\ (forall cs,
        fst (placeOrder env userId body (with_cart cs w))
        = OrderCreated order lines totalAmount)
  /\ (cart_of userId (store w) = [] ->
      cart_items (store w') = cart_items (store w)).
Proof.
  intros H.
  assert (C : cart_items (store w')
              = filter (fun c => negb (in_cart_of userId c)) (cart_items (store w))).
  { apply placeOrder_created_inv in H. destruct H as (its & zs & qs & ois & P).
    rewrite (placed_store _ _ _ _ _ _ _ _ _ _ _ _ P). reflexivity. }
  split; [exact C|]. split; [|split].
  - unfold cart_of. rewrite C. clear C.
    induction (cart_items (store w)) as [|c l IH]; simpl; [reflexivity|].
    destruct (in_cart_of userId c) eqn:E; simpl; [exact IH|].
    rewrite E. exact IH.
  - intros cs.
    rewrite (placeOrder_ignores_cart env userId body (with_cart cs w) w).
    + rewrite H. reflexivity.
    + unfold agree_off_cart, with_cart. simpl. destruct (store w). auto.
  - intros E. rewrite C. apply filter_none_keeps_all. exact E.
Qed.

Lemma cart_clearing_is_idempotent_witness :
  let w' := snd (placeOrder (Sample.env 7 Sample.no_failure) 42
                   Sample.two_tees Sample.shop) in
  cart_items (store w')
  = filter (fun c => negb (in_cart_of 42 c)) (cart_items (store Sample.shop))
  /\ cart_of 42 (store w') = []
  /\ (forall cs,
        fst (placeOrder (Sample.env 7 Sample.no_failure) 42 Sample.two_tees
               (with_cart cs Sample.shop))
        = OrderCreated Sample.tee_order Sample.tee_lines (Finite 20))
  /\ (cart_of 42 (store Sample.shop) = [] ->
      cart_items (store w') = cart_items (store Sample.shop)).
Proof.
  apply (cart_clearing_is_idempotent (Sample.env 7 Sample.no_failure) 42
           Sample.two_tees Sample.shop _ Sample.tee_order Sample.tee_lines
           (Finite 20)).
  vm_compute. reflexivity.
Defined.

(** With no cart line at all the same call creates the same order and
    leaves the cart table empty. *)
Example empty_cart_is_not_an_error :
  let (o, w') := placeOrder (Sample.env 7 Sample.no_failure) 42 Sample.two_tees
                   (with_cart [] Sample.shop) in
  o = OrderCreated Sample.tee_order Sample.tee_lines (Finite 20)
  /\ cart_items (store w') = [].
Proof. vm_compute. auto. Qed.

(** ** Resolving items *)

(** A value that is [===] an id is cut to that id. *)
Lemma strict_eq_int_as_int (i z : Z) (v : value) :
  strict_eq_int i v = true -> as_int v = Some z -> i = z.
Proof.
  intros S H. apply as_int_inv in H. destruct H as (q & Hv & Hq & _). subst v z.
  simpl in S. apply Qeq_bool_iff in S. symmetry. apply Qtrunc_integer.
  symmetry. exact S.
Qed.

Lemma as_ints_Forall2 (vs : list value) :
  forall zs, as_ints vs = Some zs -> Forall2 (fun v z => as_int v = Some z) vs zs.
Proof.
  induction vs as [|v vs IH]; intros zs; simpl.
  - intros H. inversion H. constructor.
  - destruct (as_int v) as [z|] eqn:V; [|discriminate].
    destruct (as_ints vs) as [zs'|]; [|discriminate].
    intros H. inversion H. subst. constructor; auto.
Qed.

Lemma as_ints_items (its : list order_item) (zs : list Z) :
  as_ints (map variant_id its) = Some zs ->
  Forall (fun item => exists z, as_int (variant_id item) = Some z /\ In z zs) its.
Proof.
  revert zs. induction its as [|item rest IH]; intros zs; simpl.
  - constructor.
  - destruct (as_int (variant_id item)) as [z|] eqn:V; [|discriminate].
    destruct (as_ints (map variant_id rest)) as [zs'|] eqn:R; [|discriminate].
    intros H. inversion H. subst. constructor.
    + exists z. simpl. auto.
    + specialize (IH zs' eq_refl). eapply Forall_impl; [|exact IH].
      intros a (z' & Ha & Hin). exists z'. simpl. auto.
Qed.

Lemma id_in_spec (zs : list Z) (v : Variant.t) :
  id_in zs v = true <-> In (Variant.id v) zs.
Proof.
  unfold id_in. rewrite existsb_exists. split.
  - intros (z & Hin & E). apply Z.eqb_eq in E. subst. exact Hin.
  - intros Hin. exists (Variant.id v). split; [exact Hin|apply Z.eqb_refl].
Qed.

(** Looking an item up in the rows [findMany] returned or in the table
    gives the same variant. *)
Lemma find_variant_filter (zs : list Z) (item : order_item) (z : Z)
    (vs : list Variant.t) :
  as_int (variant_id item) = Some z -> In z zs ->
  find_variant (filter (id_in zs) vs) item = find_variant vs item.
Proof.
  intros Hz Hin. unfold find_variant.
  induction vs as [|v vs IH]; simpl; [reflexivity|].
  destruct (id_in zs v) eqn:I; simpl.
  - rewrite IH. reflexivity.
  - destruct (strict_eq_int (Variant.id v) (variant_id item)) eqn:E;
      [|exact IH].
    exfalso. pose proof (strict_eq_int_as_int _ _ _ E Hz) as Ez.
    assert (id_in zs v = true) by (apply id_in_spec; rewrite Ez; exact Hin).
    congruence.
Qed.

Lemma Forall2_with_Forall {A B : Type} (P : A -> Prop) (R S : A -> B -> Prop)
    (l : list A) (l' : list B) :
  (forall a b, P a -> R a b -> S a b) ->
  Forall P l -> Forall2 R l l' -> Forall2 S l l'.
Proof.
  intros HS HP HR. induction HR; constructor; inversion HP; subst; auto.
Qed.

Lemma Forall2_compose {A B C : Type} (R : A -> B -> Prop) (S : B -> C -> Prop)
    (T : A -> C -> Prop) (l1 : list A) (l2 : list B) :
  (forall a b c, R a b -> S b c -> T a c) ->
  Forall2 R l1 l2 -> forall l3, Forall2 S l2 l3 -> Forall2 T l1 l3.
Proof.
  intros HT HR. induction HR; intros l3 HS; inversion HS; subst; constructor;
    eauto.
Qed.

(** The lines of a created order are the snapshots of the variants the
    items resolved to when the call read them. *)
Lemma created_lines_are_snapshots (env : environment) (userId : Z)
    (body : request_body) (w w' : world) (order : Order.t)
    (lines : list OrderItem.t) (totalAmount : number)
    (its : list order_item) (zs qs : list Z) (ois : list OrderItemData.t) :
  placement env userId body w w' order lines totalAmount its zs qs ois ->
  Forall2 (snapshot_of (store w) order) its lines.
Proof.
  intros P. destruct P.
  apply check_stock_checked in placed_checked0.
  destruct placed_checked0 as (new & Ho & _ & Hf). simpl in Ho. subst ois.
  apply order_items_rows_Forall2 in placed_lines0.
  apply as_ints_items in placed_ids0.
  pose proof (Forall2_with_Forall _ _ (fun a b => _ a /\ _ a b) _ _
                (fun a b Ha Hb => conj Ha Hb) placed_ids0 Hf) as H1.
  refine (Forall2_compose _ _ _ _ _ _ H1 _ placed_lines0).
  intros item x l [(z & Hz & Hin) (v & Hfind & _ & Hx)] Hl.
  rewrite (find_variant_filter _ _ _ _ Hz Hin) in Hfind.
  apply order_items_row_inv in Hl. subst x. simpl in Hl.
  destruct Hl as (Hq & Hid & Hv & Hn & Hsz & Hc & He & Hp).
  exists v. unfold resolved. rewrite placed_id0. auto 10.
Qed.

(** Over whole quantities the handler's total is the one of the lines:
    the line stores the quantity the request gave. *)
Lemma requested_total_whole (env : environment) (d : db) (order : Order.t)
    (its : list order_item) (lines : list OrderItem.t) :
  Forall2 (snapshot_of d order) its lines ->
  Forall whole_quantity its ->
  requested_total env its lines = double_total lines.
Proof.
  unfold requested_total, double_total. intros F. generalize (of_int 0).
  induction F as [|item l its' lines' S _ IH]; intros t0 W; simpl;
    [reflexivity|].
  inversion W as [|? ? (q & k & Hq & Hk) W']. subst.
  rewrite (IH _ W'). f_equal. f_equal.
  destruct S as (v & _ & _ & _ & _ & _ & _ & _ & _ & Hl).
  apply as_int_inv in Hl. destruct Hl as (q' & E & Hl & _).
  rewrite Hq in E. inversion E. subst q'.
  rewrite Hq, Hl, (Qtrunc_integer q k Hk). simpl.
  apply num_mul_compat. exact Hk.
Qed.

(** ** Catalog changes *)

Lemma unlinked_unlink (gone : Z -> bool) (l : OrderItem.t) :
  unlinked (unlink gone l) = unlinked l.
Proof.
  unfold unlink. destruct (OrderItem.variant_id l) as [i|]; [|reflexivity].
  destruct (gone i); reflexivity.
Qed.

(** A call to a catalog route leaves [orders] as it is, and of
    [order_items] everything but the [variant_id]s. *)
Lemma catalog_route_frame (art : admin_runtime) (userId : Z)
    (c : catalog_call) (d : db) :
  orders (snd (catalog_route art userId c d)) = orders d
  /\ map unlinked (order_items (snd (catalog_route art userId c d)))
     = map unlinked (order_items d).
Proof.
  destruct c as [form|id body|id]; simpl.
  - unfold create_product, st_catch, st_bind, st_throw, st_ret, admin_log,
      call, db_write.
    destruct (product_rows art form) as [[productId rows]|]; [|auto].
    destruct (query_fails (admin_rt art) ImageUpload); [auto|].
    destruct (query_fails (admin_rt art) ProductsCreate); [auto|].
    destruct (query_fails (admin_rt art) ActivityLogsCreate); auto.
  - unfold update_product, products_update, st_catch, st_bind, st_throw,
      st_ret, call.
    destruct (truthy (update_main_image_base64 body)).
    + destruct (update_name body); try (simpl; auto; fail).
      destruct (query_fails (admin_rt art) ImageUpload); [auto|].
      destruct (update_category_ids body); auto.
    + destruct (update_category_ids body); auto.
  - unfold delete_product, variants_deleteMany, st_catch, st_bind, st_throw,
      st_ret, admin_log, call, db_write.
    destruct (as_int (JNum (parseInt (admin_rt art) id))) as [productId|];
      [|auto].
    destruct (query_fails (admin_rt art) ProductsFindUnique); [auto|].
    destruct (query_fails (admin_rt art) ImageDelete); [auto|].
    destruct (query_fails (admin_rt art) VariantsDeleteMany); [auto|].
    assert (U : forall gone,
               map unlinked (map (unlink gone) (order_items d))
               = map unlinked (order_items d)).
    { intros gone. rewrite map_map. apply map_ext. apply unlinked_unlink. }
    destruct (query_fails (admin_rt art) ProductsDelete);
      [simpl; split; [reflexivity|apply U]|].
    destruct (query_fails (admin_rt art) ActivityLogsCreate);
      simpl; split; try reflexivity; apply U.
Qed.

Lemma catalog_routes_frame (calls : list (admin_runtime * Z * catalog_call)) :
  forall d,
    orders (catalog_routes calls d) = orders d
    /\ map unlinked (order_items (catalog_routes calls d))
       = map unlinked (order_items d).
Proof.
  unfold catalog_routes.
  induction calls as [|[[art userId] c] rest IH]; intros d; simpl; [auto|].
  destruct (IH (snd (catalog_route art userId c d))) as [Ho Hi].
  destruct (catalog_route_frame art userId c d) as [Ho' Hi'].
  rewrite Ho, Hi, Ho', Hi'. auto.
Qed.

(** C8.  Each line of a created order stores the product name, size,
    colour, edition and unit price of the variant its item resolved to
    when the call read it; the lines are appended to [order_items]; and no
    later call to the catalog routes, in any number, by any admin, with
    any failures of the store, alters a row of [orders], or anything of a
    row of [order_items] but its [variant_id], which the deletion of the
    product sets to [null]: the stored unit prices, names, sizes, colours,
    editions and quantities, and the total of the order, stay what they
    were. *)
Theorem order_lines_are_price_snapshots (env : environment) (userId : Z)
    (body : request_body) (w w' : world) (order : Order.t)
    (lines : list OrderItem.t) (totalAmount : number) :
  placeOrder env userId body w = (OrderCreated order lines totalAmount, w') ->
  (exists its,
      items body = Some its
      /\ Forall2 (snapshot_of (store w) order) its lines)
  /\ order_items (store w') = order_items (store w) ++ lines
  /\ forall calls,
       orders (catalog_routes calls (store w')) = orders (store w')
       /\ map unlinked (order_items (catalog_routes calls (store w')))
          = map unlinked (order_items (store w')).
Proof.
  intros H. apply placeOrder_created_inv in H.
  destruct H as (its & zs & qs & ois & P). split; [|split].
  - exists its. split; [exact (placed_items _ _ _ _ _ _ _ _ _ _ _ _ P)|].
    eapply created_lines_are_snapshots. exact P.
  - rewrite (placed_store _ _ _ _ _ _ _ _ _ _ _ _ P). reflexivity.
  - intros calls. apply catalog_routes_frame.
Qed.

Lemma order_lines_are_price_snapshots_witness :
  let w' := snd (placeOrder (Sample.env 7 Sample.no_failure) 42
                   Sample.two_tees Sample.shop) in
  (exists its,
      items Sample.two_tees = Some its
      /\ Forall2 (snapshot_of (store Sample.shop) Sample.tee_order) its
           Sample.tee_lines)
  /\ order_items (store w') = order_items (store Sample.shop) ++ Sample.tee_lines
  /\ forall calls,
       orders (catalog_routes calls (store w')) = orders (store w')
       /\ map unlinked (order_items (catalog_routes calls (store w')))
          = map unlinked (order_items (store w')).
Proof.
  apply (order_lines_are_price_snapshots (Sample.env 7 Sample.no_failure) 42
           Sample.two_tees Sample.shop _ Sample.tee_order Sample.tee_lines
           (Finite 20)).
  vm_compute. reflexivity.
Defined.

(** After the order, an admin adds a product, tries to change the price of
    product 1, and deletes product 1.  The update is refused and changes
    nothing; the deletion takes the variants of product 1 and the cart
    lines that name them; the order line stays, with its unit price and
    without its variant; the order stays as it was. *)
Example catalog_calls_after_order :
  let w' := snd (placeOrder (Sample.env 7 Sample.no_failure) 42
                   Sample.two_tees Sample.shop) in
  let art := Demo.admin_rt Demo.never in
  let form := {| form_name := JStr "Cap"; form_description := JUndefined;
                 form_base_price := JStr "20"; form_category_ids := JStr "[1]";
                 form_variants := JStr "[]" |} in
  let body := {| update_name := JStr "Tee";
                 update_main_image_base64 := JUndefined;
                 update_category_ids := Some [JNum (of_int 1)] |} in
  catalog_route art 1 (PutProduct "1" body) (store w') = (500, store w')
  /\ (let d := catalog_routes
                 [(art, 1, PostProduct form); (art, 1, PutProduct "1" body);
                  (art, 1, DeleteProduct "1")] (store w') in
      map Variant.id (product_variants d) = [90]
      /\ cart_items d = []
      /\ order_items d = map unlinked Sample.tee_lines
      /\ map OrderItem.unit_price (order_items d) = [1000]
      /\ orders d = [Sample.tee_order]
      /\ map ActivityLog.action (activity_logs d)
         = ["CREATE_ORDER"; "CREATE_PRODUCT"; "DELETE_PRODUCT"]).
Proof. vm_compute. auto 10. Qed.

(** ** Stock *)

Lemma valid_quantity_positive (env : environment) (item : order_item) (k : Z) :
  invalid_item env item = false ->
  as_int (quantity item) = Some k ->
  1 <= k.
Proof.
  unfold invalid_item. intros H Hk.
  apply orb_false_elim in H. destruct H as [_ H].
  apply as_int_inv in Hk. destruct Hk as (q & Hv & Hq & _).
  rewrite Hv in H. simpl in H. apply negb_false_iff in H.
  apply Qle_bool_iff in H. subst k. apply Qtrunc_positive. exact H.
Qed.

Lemma not_under_stocked_le (env : environment) (v : Variant.t)
    (item : order_item) (k : Z) :
  under_stocked env v item = false ->
  as_int (quantity item) = Some k ->
  k <= Variant.stock_qty v.
Proof.
  unfold under_stocked, js_lt. intros H Hk.
  apply as_int_inv in Hk. destruct Hk as (q & Hv & Hq & _).
  rewrite Hv in H. simpl in H. apply negb_false_iff in H.
  apply Qle_bool_iff in H. subst k. apply Qtrunc_below. exact H.
Qed.

Lemma find_variant_some (vs : list Variant.t) (item : order_item)
    (v : Variant.t) (i : Z) :
  find_variant vs item = Some v ->
  as_int (variant_id item) = Some i ->
  In v vs /\ Variant.id v = i.
Proof.
  unfold find_variant. intros H Hi. apply find_some in H. destruct H as [Hin E].
  split; [exact Hin|]. exact (strict_eq_int_as_int _ _ _ E Hi).
Qed.

Lemma unique_id_row (vs : list Variant.t) (v v' : Variant.t) :
  NoDup (map Variant.id vs) -> In v vs -> In v' vs ->
  Variant.id v = Variant.id v' -> v = v'.
Proof.
  induction vs as [|x vs IH]; simpl; [contradiction|].
  intros N Hv Hv' E. inversion N as [|? ? Hx N']. subst.
  destruct Hv as [Hv|Hv], Hv' as [Hv'|Hv']; subst; auto.
  - exfalso. apply Hx. rewrite E. apply in_map. exact Hv'.
  - exfalso. apply Hx. rewrite <- E. apply in_map. exact Hv.
Qed.

Lemma NoDup_map_filter {A B : Type} (f : A -> B) (g : A -> bool) (l : list A) :
  NoDup (map f l) -> NoDup (map f (filter g l)).
Proof.
  induction l as [|x l IH]; simpl; [auto|].
  intros N. inversion N as [|? ? Hx N']. subst.
  destruct (g x); simpl; [|auto].
  constructor; [|auto].
  intros Hin. apply Hx. apply in_map_iff in Hin. destruct Hin as (y & E & Hy).
  apply filter_In in Hy. apply in_map_iff. exists y. tauto.
Qed.

Lemma as_ints_length (vs : list value) (zs : list Z) :
  as_ints vs = Some zs -> List.length zs = List.length vs.
Proof.
  intros H. apply as_ints_Forall2 in H. symmetry.
  induction H; simpl; auto.
Qed.

(** When the existence check passes on a table with unique ids, the
    requested ids are pairwise distinct and all of them exist. *)
Lemma existence_check_distinct (vs : list Variant.t) (zs : list Z) :
  NoDup (map Variant.id vs) ->
  List.length (filter (id_in zs) vs) = List.length zs ->
  NoDup zs /\ incl zs (map Variant.id (filter (id_in zs) vs)).
Proof.
  intros N L.
  assert (Nf : NoDup (map Variant.id (filter (id_in zs) vs)))
    by (apply NoDup_map_filter; exact N).
  assert (I : incl (map Variant.id (filter (id_in zs) vs)) zs).
  { intros z Hz. apply in_map_iff in Hz. destruct Hz as (v & E & Hv).
    apply filter_In in Hv. destruct Hv as [_ Hv]. apply id_in_spec in Hv.
    congruence. }
  assert (Le : (List.length zs <= List.length (map Variant.id (filter (id_in zs) vs)))%nat)
    by (rewrite length_map, L; apply Nat.le_refl).
  split.
  - eapply NoDup_incl_NoDup; eassumption.
  - eapply NoDup_length_incl; eassumption.
Qed.

Lemma decrement_where_id (i k : Z) (v : Variant.t) :
  Variant.id (decrement_where i k v) = Variant.id v.
Proof. unfold decrement_where. destruct (Variant.id v =? i); reflexivity. Qed.

(** Decrements of distinct variants, each covered by the stock of its
    variant, keep every stock non-negative. *)
Lemma decremented_nonnegative (ds : list (Z * Z)) :
  forall vs,
    NoDup (map fst ds) ->
    (forall i k, In (i, k) ds ->
                 forall v, In v vs -> Variant.id v = i ->
                           k <= Variant.stock_qty v) ->
    Forall (fun v => 0 <= Variant.stock_qty v) vs ->
    Forall (fun v => 0 <= Variant.stock_qty v) (decremented ds vs).
Proof.
  induction ds as [|[i k] rest IH]; intros vs N C F; simpl; [exact F|].
  simpl in N. inversion N as [|? ? Hi N']. subst. apply IH.
  - exact N'.
  - intros j k' Hj v' Hv' Ej.
    apply in_map_iff in Hv'. destruct Hv' as (v & Ev & Hv). subst v'.
    rewrite decrement_where_id in Ej.
    assert (j <> i).
    { intros E. apply Hi. rewrite <- E. exact (in_map fst _ (j, k') Hj). }
    unfold decrement_where. destruct (Variant.id v =? i) eqn:E.
    + apply Z.eqb_eq in E. congruence.
    + apply (C j k'); simpl; auto.
  - apply Forall_forall. intros v' Hv'.
    apply in_map_iff in Hv'. destruct Hv' as (v & Ev & Hv). subst v'.
    rewrite Forall_forall in F. unfold decrement_where.
    destruct (Variant.id v =? i) eqn:E; [|auto].
    apply Z.eqb_eq in E. simpl.
    assert (k <= Variant.stock_qty v) by (apply (C i k); simpl; auto).
    lia.
Qed.

Lemma combine_as_ints (its : list order_item) :
  forall zs qs i k,
    as_ints (map variant_id its) = Some zs ->
    as_ints (map quantity its) = Some qs ->
    In (i, k) (combine zs qs) ->
    exists item, In item its
                 /\ as_int (variant_id item) = Some i
                 /\ as_int (quantity item) = Some k.
Proof.
  induction its as [|item rest IH]; intros zs qs i k; simpl.
  - intros Hz _. inversion Hz. simpl. contradiction.
  - destruct (as_int (variant_id item)) as [z|] eqn:V; [|discriminate].
    destruct (as_ints (map variant_id rest)) as [zs'|]; [|discriminate].
    destruct (as_int (quantity item)) as [q|] eqn:Q; [|discriminate].
    destruct (as_ints (map quantity rest)) as [qs'|]; [|discriminate].
    intros Hz Hq. inversion Hz. inversion Hq. subst. simpl.
    intros [E|Hin].
    + inversion E. subst. exists item. auto.
    + destruct (IH zs' qs' i k eq_refl eq_refl Hin) as (x & Hx & Hxi & Hxk).
      exists x. auto.
Qed.

Lemma map_fst_combine (zs qs : list Z) :
  List.length zs = List.length qs -> map fst (combine zs qs) = zs.
Proof.
  revert qs. induction zs as [|z zs IH]; intros [|q qs]; simpl;
    try discriminate; auto.
  intros H. inversion H. rewrite IH; auto.
Qed.

Lemma Forall2_In_l {A B : Type} (R : A -> B -> Prop) (l : list A) (l' : list B)
    (a : A) :
  Forall2 R l l' -> In a l -> exists b, In b l' /\ R a b.
Proof.
  induction 1 as [|x y l l' Hxy _ IH]; simpl; [contradiction|].
  intros [E|Hin].
  - subst. exists y. auto.
  - destruct (IH Hin) as (b & Hb & Hr). exists b. auto.
Qed.

(** The decrements of a created order are covered by the stock the call
    read. *)
Lemma placement_covered (env : environment) (userId : Z) (body : request_body)
    (w w' : world) (order : Order.t) (lines : list OrderItem.t)
    (totalAmount : number) (its : list order_item) (zs qs : list Z)
    (ois : list OrderItemData.t) :
  placement env userId body w w' order lines totalAmount its zs qs ois ->
  unique_variant_ids (store w) ->
  NoDup (map fst (combine zs qs))
  /\ forall i k, In (i, k) (combine zs qs) ->
                 1 <= k
                 /\ forall v, In v (product_variants (store w)) ->
                              Variant.id v = i -> k <= Variant.stock_qty v.
Proof.
  intros P U. destruct P.
  pose proof (as_ints_length _ _ placed_ids0) as Lz.
  pose proof (as_ints_length _ _ placed_quantities0) as Lq.
  rewrite length_map in Lz, Lq.
  assert (D : NoDup zs).
  { apply (existence_check_distinct (product_variants (store w)) zs U).
    congruence. }
  split.
  - rewrite map_fst_combine; [exact D|congruence].
  - intros i k Hin.
    destruct (combine_as_ints _ _ _ _ _ placed_ids0 placed_quantities0 Hin)
      as (item & Hitem & Hi & Hk).
    split.
    + apply (valid_quantity_positive env item); [|exact Hk].
      exact (find_none _ _ placed_valid0 item Hitem).
    + intros v Hv Ev.
      apply check_stock_checked in placed_checked0.
      destruct placed_checked0 as (new & _ & _ & Hf).
      destruct (Forall2_In_l _ _ _ _ Hf Hitem) as (x & _ & v0 & Hfind & Hu & _).
      pose proof (as_ints_items _ _ placed_ids0) as Hz.
      rewrite Forall_forall in Hz. destruct (Hz item Hitem) as (z & Hz1 & Hz2).
      rewrite (find_variant_filter _ _ _ _ Hz1 Hz2) in Hfind.
      destruct (find_variant_some _ _ _ _ Hfind Hi) as [Hv0 E0].
      assert (v = v0) by (apply (unique_id_row _ _ _ U Hv Hv0); congruence).
      subst v0. exact (not_under_stocked_le env v item k Hu Hk).
Qed.

(** C2, as the code has it.  On a table with unique ids and no negative
    stock, a call that runs from its read to its commit without another
    write in between leaves no negative stock: it decrements only when
    every item resolved to a distinct variant whose stock, as read, covers
    the requested quantity. *)
Theorem placeOrder_keeps_stock_nonnegative (env : environment) (userId : Z)
    (body : request_body) (w : world) :
  unique_variant_ids (store w) ->
  stock_nonnegative (store w) ->
  stock_nonnegative (store (snd (placeOrder env userId body w))).
Proof.
  intros U F.
  destruct (placeOrder env userId body w) as [o w'] eqn:E. simpl.
  destruct (created o) eqn:C.
  - destruct o; try discriminate.
    apply placeOrder_created_inv in E. destruct E as (its & zs & qs & ois & P).
    destruct (placement_covered _ _ _ _ _ _ _ _ _ _ _ _ P U) as [N K].
    unfold stock_nonnegative.
    rewrite (placed_store _ _ _ _ _ _ _ _ _ _ _ _ P). simpl.
    apply decremented_nonnegative; [exact N| |exact F].
    intros i k Hin. apply (K i k Hin).
  - rewrite (failed_call_keeps_store _ _ _ _ _ _ E C). exact F.
Qed.

Lemma placeOrder_keeps_stock_nonnegative_witness :
  stock_nonnegative
    (store (snd (placeOrder (Sample.env 7 Sample.no_failure) 42
                   (Sample.request [Sample.item 1 5; Sample.item 2 3])
                   Sample.shop))).
Proof.
  apply (placeOrder_keeps_stock_nonnegative (Sample.env 7 Sample.no_failure) 42
           (Sample.request [Sample.item 1 5; Sample.item 2 3]) Sample.shop).
  - unfold unique_variant_ids. simpl.
    repeat constructor; simpl; intuition discriminate.
  - unfold stock_nonnegative. simpl. repeat constructor; discriminate.
Defined.

(** The decrement itself is an unconditional subtraction: on an existing
    variant it returns whenever the store answers, whatever the stock. *)
Lemma decrement_is_unconditional (env : environment) (n : nat) (i k : Z)
    (id amount : value) (w : world) :
  as_int id = Some i -> as_int amount = Some k ->
  store_fails env (UpdateStock n) = false ->
  existsb (fun v => Variant.id v =? i) (product_variants (store w)) = true ->
  product_variants_update_decrement env n id amount w
  = (Ok tt,
     {| store := set_product_variants
                   (map (decrement_where i k) (product_variants (store w)))
                   (store w);
        accesses := accesses w ++ [UpdateStock n] |}).
Proof.
  intros Hi Hk Hf He. unfold product_variants_update_decrement.
  rewrite Hi, Hk. unfold bind, access, read, write. rewrite Hf. simpl.
  rewrite He. reflexivity.
Qed.

(** C2, refuted as stated.  Variant 1 has five units.  Two calls ask for
    three each, and both read the stock before either transaction runs.
    Both orders are created: the second decrement takes three from the
    two that are left, does not fail, and leaves a stock of -1. *)
Lemma interleaved_calls_drive_stock_negative :
  let '(oA, oB, w') :=
    interleaved (Sample.env 7 Sample.no_failure) 42
                (Sample.request [Sample.item 1 3])
                (Sample.env 8 Sample.no_failure) 43
                (Sample.request [Sample.item 1 3])
                (Sample.world_of [Sample.variant 1 1000 5] []) in
  created oA = true /\ created oB = true
  /\ map Variant.stock_qty (product_variants (store w')) = [-1].
Proof. vm_compute. auto. Qed.

(** The handler is its two halves run back to back. *)
Lemma placeOrder_in_two_steps (env : environment) (userId : Z)
    (body : request_body) (w : world) :
  placeOrder env userId body w
  = let (r, w1) := before_transaction env body w in
    from_transaction env userId body r w1.
Proof.
  unfold placeOrder, before_transaction, from_transaction, try_catch, bind.
  destruct (prepare env body w) as [[p|] w1]; reflexivity.
Qed.

(** ** Validation *)

Lemma prepare_nonempty (env : environment) (body : request_body)
    (its : list order_item) :
  items body = Some its -> its <> [] ->
  prepare env body = prepare_items env its.
Proof.
  intros H N. unfold prepare. rewrite H.
  destruct its as [|i l]; [contradiction|reflexivity].
Qed.

(** The loop stops at the first item whose variant has too little
    stock. *)
Lemma check_stock_first_insufficient (env : environment)
    (vs : list Variant.t) (item : order_item) (variant : Variant.t)
    (post : list order_item) :
  find_variant vs item = Some variant ->
  under_stocked env variant item = true ->
  forall pre t0 ois0,
    Forall (fun x => exists v, find_variant vs x = Some v
                               /\ under_stocked env v x = false) pre ->
    check_stock env vs (pre ++ item :: post) t0 ois0 = Insufficient variant item.
Proof.
  intros Hf Hu. induction pre as [|x pre IH]; intros t0 ois0 Hpre; simpl.
  - rewrite Hf, Hu. reflexivity.
  - inversion Hpre as [|? ? (v & Hv & Hvu) Hrest]. subst.
    rewrite Hv, Hvu. apply IH. exact Hrest.
Qed.

Lemma findMany_runs (env : environment) (ids : list value) (zs : list Z)
    (w : world) :
  as_ints ids = Some zs ->
  store_fails env FindVariants = false ->
  product_variants_findMany env ids w
  = (Ok (filter (id_in zs) (product_variants (store w))),
     {| store := store w; accesses := accesses w ++ [FindVariants] |}).
Proof.
  intros Hz Hf. unfold product_variants_findMany. rewrite Hz.
  unfold bind, access, read, ret. rewrite Hf. reflexivity.
Qed.

(** A request whose items pass their validation and whose [findMany]
    returns another number of rows than there are items. *)
Lemma failing_existence_check (env : environment) (userId : Z)
    (body : request_body) (w : world) (its : list order_item) (zs : list Z) :
  items body = Some its -> its <> [] ->
  find (invalid_item env) its = None ->
  as_ints (map variant_id its) = Some zs ->
  store_fails env FindVariants = false ->
  List.length (filter (id_in zs) (product_variants (store w))) <> List.length zs ->
  placeOrder env userId body w
  = (VariantNotFoundError (map variant_id its)
       (map Variant.id (filter (id_in zs) (product_variants (store w)))),
     {| store := store w; accesses := accesses w ++ [FindVariants] |}).
Proof.
  intros Hi Hn Hv Hz Hf Hl. unfold placeOrder, try_catch, bind.
  rewrite (prepare_nonempty env body its Hi Hn). unfold prepare_items.
  rewrite Hv. cbv zeta. unfold bind. rewrite (findMany_runs env _ zs w Hz Hf).
  rewrite (as_ints_length _ _ Hz) in Hl.
  apply Nat.eqb_neq in Hl. rewrite Hl. reflexivity.
Qed.

(** C4, where the code departs from it.  On a table with unique ids, a
    request whose items are valid but name the same variant twice is
    answered with the variant-not-found error, whether or not the variant
    exists, and nothing is written. *)
Theorem repeated_variant_is_reported_missing (env : environment) (userId : Z)
    (body : request_body) (w : world) (its : list order_item) (zs : list Z) :
  unique_variant_ids (store w) ->
  items body = Some its -> its <> [] ->
  find (invalid_item env) its = None ->
  as_ints (map variant_id its) = Some zs ->
  store_fails env FindVariants = false ->
  ~ NoDup zs ->
  exists found w',
    placeOrder env userId body w
    = (VariantNotFoundError (map variant_id its) found, w')
    /\ store w' = store w.
Proof.
  intros U Hi Hn Hv Hz Hf Hd.
  eexists. eexists. split.
  - apply (failing_existence_check env userId body w its zs); auto.
    intros L. apply Hd.
    apply (existence_check_distinct (product_variants (store w)) zs U L).
  - reflexivity.
Qed.

(** The failing input: one unit of variant 1, twice.  Variant 1 exists
    and has five units; the answer is "One or more requested product
    variants do not exist". *)
Lemma repeated_variant_is_reported_missing_witness :
  exists found w',
    placeOrder (Sample.env 7 Sample.no_failure) 42
      (Sample.request [Sample.item 1 1; Sample.item 1 1]) Sample.shop
    = (VariantNotFoundError
         (map variant_id [Sample.item 1 1; Sample.item 1 1]) found, w')
    /\ store w' = store Sample.shop.
Proof.
  apply (repeated_variant_is_reported_missing
           (Sample.env 7 Sample.no_failure) 42
           (Sample.request [Sample.item 1 1; Sample.item 1 1]) Sample.shop
           [Sample.item 1 1; Sample.item 1 1] [1; 1]).
  - unfold unique_variant_ids. simpl.
    repeat constructor; simpl; intuition discriminate.
  - reflexivity.
  - discriminate.
  - reflexivity.
  - reflexivity.
  - reflexivity.
  - intros N. inversion N as [|? ? Hin _]. apply Hin. simpl. auto.
Defined.

Example repeated_variant_answer :
  let its := [Sample.item 1 1; Sample.item 1 1] in
  map (resolved (store Sample.shop)) its
  = [Some (Sample.variant 1 1000 5); Some (Sample.variant 1 1000 5)]
  /\ fst (placeOrder (Sample.env 7 Sample.no_failure) 42 (Sample.request its)
            Sample.shop)
     = VariantNotFoundError [JNum (Finite 1); JNum (Finite 1)] [1].
Proof. vm_compute. auto. Qed.

(** The other direction holds: an id that is in no row fails the
    existence check. *)
Lemma unknown_variant_is_reported_missing (env : environment) (userId : Z)
    (body : request_body) (w : world) (its : list order_item) (zs : list Z)
    (z : Z) :
  unique_variant_ids (store w) ->
  items body = Some its -> its <> [] ->
  find (invalid_item env) its = None ->
  as_ints (map variant_id its) = Some zs ->
  store_fails env FindVariants = false ->
  In z zs -> ~ In z (map Variant.id (product_variants (store w))) ->
  exists found w',
    placeOrder env userId body w
    = (VariantNotFoundError (map variant_id its) found, w')
    /\ store w' = store w.
Proof.
  intros U Hi Hn Hv Hz Hf Hin Hout.
  eexists. eexists. split.
  - apply (failing_existence_check env userId body w its zs); auto.
    intros L. apply Hout.
    destruct (existence_check_distinct _ zs U L) as [_ I].
    specialize (I z Hin). apply in_map_iff in I. destruct I as (v & E & Hv').
    apply filter_In in Hv'. apply in_map_iff. exists v. tauto.
  - reflexivity.
Qed.

(** C5, as the code has it.  A request that passes the item validation
    and the existence check, in which every item before the first
    under-stocked one names an existing variant by its exact id and is
    covered by its stock, is answered 400 for that first item, in the
    order of submission, and nothing is written.  The answer carries the
    product name, the colour and the size, in its message, and nothing
    else; the requested and the available quantity go, with the variant id
    and the product name, to the warning the server logs. *)
Theorem first_under_stocked_item_is_reported (env : environment) (userId : Z)
    (body : request_body) (w : world) (its pre post : list order_item)
    (item : order_item) (variant : Variant.t) :
  items body = Some its ->
  find (invalid_item env) its = None ->
  passes_existence_check env its w ->
  its = pre ++ item :: post ->
  (forall x, In x pre ->
             exists v, resolved (store w) x = Some v
                       /\ under_stocked env v x = false) ->
  resolved (store w) item = Some variant ->
  under_stocked env variant item = true ->
  exists o,
    placeOrder env userId body w
    = (o, {| store := store w; accesses := accesses w ++ [FindVariants] |})
    /\ response_of o
       = {| Response.status := 400;
            Response.success := false;
            Response.message :=
              Some ("Not enough stock for " ++ dquote
                    ++ Product.name (Variant.products variant) ++ dquote
                    ++ " (" ++ show_nullable (Variant.color variant) ++ ", "
                    ++ show_nullable (Variant.size variant) ++ ")")%string;
            Response.data := None |}
    /\ logged userId body o
       = WarnInsufficientStock userId (Variant.id variant)
           (Product.name (Variant.products variant))
           (quantity item) (Variant.stock_qty variant).
Proof.
  intros Hi Hv He Hs Hpre Hr Hu.
  assert (Hn : its <> []) by (subst its; destruct pre; discriminate).
  unfold passes_existence_check in He.
  destruct (product_variants_findMany env (map variant_id its) w)
    as [[variants|] w1] eqn:F; [|contradiction].
  destruct (findMany_returns _ _ _ _ _ F) as (zs & Hz & Hf & Hvs & Hw1).
  pose proof (as_ints_items _ _ Hz) as Hall. rewrite Forall_forall in Hall.
  assert (R : forall x, In x its ->
                        find_variant variants x
                        = find_variant (product_variants (store w)) x).
  { intros x Hx. destruct (Hall x Hx) as (z & Hz1 & Hz2). subst variants.
    apply (find_variant_filter _ _ _ _ Hz1 Hz2). }
  assert (K : check_stock env variants its (of_int 0) []
              = Insufficient variant item).
  { rewrite Hs. apply check_stock_first_insufficient.
    - rewrite R; [exact Hr|]. subst its. apply in_elt.
    - exact Hu.
    - apply Forall_forall. intros x Hx.
      destruct (Hpre x Hx) as (v & Hrv & Huv). exists v.
      split; [|exact Huv].
      rewrite R; [exact Hrv|]. subst its. apply in_or_app. left. exact Hx. }
  eexists. split; [|split].
  - unfold placeOrder, try_catch, bind.
    rewrite (prepare_nonempty env body its Hi Hn). unfold prepare_items.
    rewrite Hv. cbv zeta. unfold bind. rewrite F.
    rewrite length_map. apply Nat.eqb_eq in He. rewrite He. cbn [negb].
    rewrite K. simpl. rewrite Hw1. reflexivity.
  - reflexivity.
  - reflexivity.
Qed.

Lemma first_under_stocked_item_is_reported_witness :
  let w := Sample.world_of
             [Sample.variant 1 1000 5; Sample.variant 2 500 5;
              Sample.variant 3 700 5] [] in
  let body := Sample.request
                [Sample.item 1 2; Sample.item 2 9; Sample.item 3 7] in
  exists o,
    placeOrder (Sample.env 7 Sample.no_failure) 42 body w
    = (o, {| store := store w; accesses := accesses w ++ [FindVariants] |})
    /\ response_of o
       = {| Response.status := 400;
            Response.success := false;
            Response.message :=
              Some ("Not enough stock for " ++ dquote
                    ++ Product.name (Variant.products (Sample.variant 2 500 5))
                    ++ dquote
                    ++ " ("
                    ++ show_nullable (Variant.color (Sample.variant 2 500 5))
                    ++ ", "
                    ++ show_nullable (Variant.size (Sample.variant 2 500 5))
                    ++ ")")%string;
            Response.data := None |}
    /\ logged 42 body o
       = WarnInsufficientStock 42 (Variant.id (Sample.variant 2 500 5))
           (Product.name (Variant.products (Sample.variant 2 500 5)))
           (quantity (Sample.item 2 9))
           (Variant.stock_qty (Sample.variant 2 500 5)).
Proof.
  apply (first_under_stocked_item_is_reported
           (Sample.env 7 Sample.no_failure) 42
           (Sample.request [Sample.item 1 2; Sample.item 2 9; Sample.item 3 7])
           (Sample.world_of
              [Sample.variant 1 1000 5; Sample.variant 2 500 5;
               Sample.variant 3 700 5] [])
           [Sample.item 1 2; Sample.item 2 9; Sample.item 3 7]
           [Sample.item 1 2] [Sample.item 3 7]
           (Sample.item 2 9) (Sample.variant 2 500 5)).
  - reflexivity.
  - vm_compute. reflexivity.
  - vm_compute. reflexivity.
  - reflexivity.
  - intros x [E|[]]. subst x. exists (Sample.variant 1 1000 5).
    vm_compute. auto.
  - vm_compute. reflexivity.
  - vm_compute. reflexivity.
Defined.

(** The answer of that call, and what the server logs with it. *)
Example insufficient_stock_answer :
  let w := Sample.world_of
             [Sample.variant 1 1000 5; Sample.variant 2 500 5;
              Sample.variant 3 700 5] [] in
  let body := Sample.request
                [Sample.item 1 2; Sample.item 2 9; Sample.item 3 7] in
  let o := fst (placeOrder (Sample.env 7 Sample.no_failure) 42 body w) in
  Response.message (response_of o)
  = Some ("Not enough stock for " ++ dquote ++ "Tee" ++ dquote
          ++ " (Black, M)")%string
  /\ logged 42 body o = WarnInsufficientStock 42 2 "Tee" (JNum (Finite 9)) 5.
Proof. vm_compute. auto. Qed.

(** C5, refuted as stated.  What the caller receives does not carry the
    quantities: nine units asked of five and seven asked of three are
    answered with the same response, and only the warnings the server logs
    differ.  And an under-stocked item is not always reported: behind an
    item whose [variant_id] is 1.5, which passes the item validation and,
    cut to 1 by the store client, the existence check, the loop finds no
    variant that is [===] 1.5 and the call is answered 500. *)
Lemma stock_error_response_omits_quantities :
  let env := Sample.env 7 Sample.no_failure in
  let nine := Sample.request [Sample.item 2 9] in
  let seven := Sample.request [Sample.item 2 7] in
  let five := Sample.world_of [Sample.variant 2 500 5] [] in
  let three := Sample.world_of [Sample.variant 2 500 3] [] in
  let o9 := fst (placeOrder env 42 nine five) in
  let o7 := fst (placeOrder env 42 seven three) in
  response_of o9 = response_of o7
  /\ response_of o9
     = {| Response.status := 400;
          Response.success := false;
          Response.message :=
            Some ("Not enough stock for " ++ dquote ++ "Tee" ++ dquote
                  ++ " (Black, M)")%string;
          Response.data := None |}
  /\ logged 42 nine o9 = WarnInsufficientStock 42 2 "Tee" (JNum (Finite 9)) 5
  /\ logged 42 seven o7 = WarnInsufficientStock 42 2 "Tee" (JNum (Finite 7)) 3
  /\ (let its := [Sample.item (3 # 2) 1; Sample.item 2 9] in
      find (invalid_item env) its = None
      /\ passes_existence_check env its Sample.shop
      /\ resolved (store Sample.shop) (Sample.item 2 9)
         = Some (Sample.variant 2 500 5)
      /\ under_stocked env (Sample.variant 2 500 5) (Sample.item 2 9) = true
      /\ response_of (fst (placeOrder env 42 (Sample.request its) Sample.shop))
         = {| Response.status := 500;
              Response.success := false;
              Response.message := Some "Failed to create order";
              Response.data := None |}).
Proof. vm_compute. repeat split; reflexivity. Qed.

(** C6, as the code has it.  A request whose [items] is missing, is not an
    array or is empty is answered with the empty-order error, and a request
    with an item whose [variant_id] is falsy, whose [quantity] is falsy or
    whose [quantity] compares below 1 is answered with the invalid-item
    error of the first such item; in both cases the world is untouched: no
    access to the store and no write. *)
Theorem invalid_requests_never_reach_the_store (env : environment)
    (userId : Z) (body : request_body) (w : world) :
  (items body = None \/ items body = Some [] ->
   placeOrder env userId body w = (EmptyOrderError, w))
  /\ (forall its,
        items body = Some its ->
        existsb (invalid_item env) its = true ->
        exists item,
          find (invalid_item env) its = Some item
          /\ placeOrder env userId body w = (InvalidItemError item, w)).
Proof.
  split.
  - intros [H|H]; unfold placeOrder, try_catch, bind, prepare; rewrite H;
      reflexivity.
  - intros its Hi He.
    assert (Hn : its <> []) by (destruct its; [discriminate|discriminate]).
    destruct (find (invalid_item env) its) as [item|] eqn:F.
    + exists item. split; [reflexivity|].
      unfold placeOrder, try_catch, bind.
      rewrite (prepare_nonempty env body its Hi Hn). unfold prepare_items.
      rewrite F. reflexivity.
    + exfalso. apply existsb_exists in He. destruct He as (x & Hx & Hinv).
      rewrite (find_none _ _ F x Hx) in Hinv. discriminate.
Qed.

Lemma invalid_requests_never_reach_the_store_witness :
  let env := Sample.env 7 Sample.no_failure in
  let its := [Sample.item 1 2;
              {| variant_id := JUndefined; quantity := JNum (Finite 1) |};
              Sample.item 2 0] in
  placeOrder env 42 (Sample.request []) Sample.shop
  = (EmptyOrderError, Sample.shop)
  /\ exists item,
       find (invalid_item env) its = Some item
       /\ placeOrder env 42 (Sample.request its) Sample.shop
          = (InvalidItemError item, Sample.shop).
Proof.
  split.
  - apply (proj1 (invalid_requests_never_reach_the_store
                    (Sample.env 7 Sample.no_failure) 42 (Sample.request [])
                    Sample.shop)).
    right. reflexivity.
  - apply (proj2 (invalid_requests_never_reach_the_store
                    (Sample.env 7 Sample.no_failure) 42
                    (Sample.request
                       [Sample.item 1 2;
                        {| variant_id := JUndefined;
                           quantity := JNum (Finite 1) |};
                        Sample.item 2 0])
                    Sample.shop)).
    + reflexivity.
    + vm_compute. reflexivity.
Defined.

(** The item of that answer is the first invalid one, the one without
    [variant_id]; the answer is a 400 and the world is the one of
    before. *)
Example invalid_item_answer :
  let env := Sample.env 7 Sample.no_failure in
  let bad := {| variant_id := JUndefined; quantity := JNum (Finite 1) |} in
  let (o, w') :=
    placeOrder env 42
      (Sample.request [Sample.item 1 2; bad; Sample.item 2 0]) Sample.shop in
  o = InvalidItemError bad
  /\ response_of o
     = {| Response.status := 400;
          Response.success := false;
          Response.message :=
            Some "Each item must have a valid variant_id and quantity";
          Response.data := None |}
  /\ w' = Sample.shop.
Proof. vm_compute. auto. Qed.

(** What the item validation refuses and what it lets through. *)
Example item_validation_examples :
  map (fun q => invalid_item (Sample.env 7 Sample.no_failure)
                  {| variant_id := JNum (Finite 1); quantity := q |})
      [JUndefined; JNull; JNum (Finite 0); JNum (Finite (-2));
       JNum (Finite (1 # 2)); JStr EmptyString; JStr "0";
       JNum (Finite 1); JNum (Finite (3 # 2)); JBool true; JStr "2";
       JStr "two"; JNum PosInf]
  = [true; true; true; true; true; true; true;
     false; false; false; false; false; false].
Proof. vm_compute. reflexivity. Qed.

(** C6, refuted as stated.  A quantity of 1.5 is not a positive integer,
    yet the item passes the validation and the handler goes on to the
    store.  With one unit in stock it answers with the insufficient-stock
    error.  With five it creates the order: the store client cuts the
    quantity of the line and the decrement to 1, and the total, computed
    from 1.5, is 15.00. *)
Lemma fractional_quantity_is_not_refused :
  let env := Sample.env 7 Sample.no_failure in
  let body := Sample.request [Sample.item 1 (3 # 2)] in
  let one := Sample.world_of [Sample.variant 1 1000 1] [] in
  let five := Sample.world_of [Sample.variant 1 1000 5] [] in
  invalid_item env (Sample.item 1 (3 # 2)) = false
  /\ placeOrder env 42 body one
     = (InsufficientStockError 1 "Tee" (Some "Black") (Some "M")
          (JNum (Finite (3 # 2))) 1,
        {| store := store one; accesses := [FindVariants] |})
  /\ (exists order line w',
        placeOrder env 42 body five
        = (OrderCreated order [line] (Finite 15), w')
        /\ OrderItem.quantity line = 1
        /\ Order.total_amount order = 1500
        /\ orders (store w') = [order]
        /\ map Variant.stock_qty (product_variants (store w')) = [4]).
Proof.
  vm_compute. split; [reflexivity|]. split; [reflexivity|].
  eexists. eexists. eexists. repeat split; reflexivity.
Qed.

(** ** The total of an order *)

Lemma Qpower_2_nonneg (e : Z) : 0 <= e -> (2 ^ e == inject_Z (2 ^ e))%Q.
Proof. intros H. rewrite Zpower_Qpower by exact H. reflexivity. Qed.










Lemma Qle_bool_false (x y : Q) : Qle_bool x y = false -> (y < x)%Q.
Proof.
  intros H. apply Qnot_le_lt. intros E. apply Qle_bool_iff in E. congruence.
Qed.


















(** Three items at 0.10: the handler's total is the double
    0.30000000000000004, the stored total is 0.30. *)
Example three_dimes :
  let t := num_mul (decimal_to_number 10) (of_int 3) in
  (exists order lines w',
      placeOrder (Sample.env 7 Sample.no_failure) 42
        (Sample.request [Sample.item 1 3])
        (Sample.world_of [Sample.variant 1 10 5] [])
      = (OrderCreated order lines t, w')
      /\ Order.total_amount order = 30)
  /\ t <> Finite (30 # 100)
  /\ (match t with
      | Finite q => shortest_decimal q
      | _ => 0%Q
      end
      = 30000000000000004 # 100000000000000000).
Proof.
  vm_compute. split; [|split; [discriminate|reflexivity]].
  eexists. eexists. eexists. split; reflexivity.
Qed.


(** ** The scenarios of the specification *)

(** A: stock 5, price 10.00, two units: the total is 20.00, three units
    are left and the caller's cart is empty. *)
Example scenario_A :
  let (o, w') := placeOrder (Sample.env 7 Sample.no_failure) 42
                   Sample.two_tees Sample.shop in
  o = OrderCreated Sample.tee_order Sample.tee_lines (Finite 20)
  /\ Order.total_amount Sample.tee_order = 2000
  /\ map Variant.stock_qty (product_variants (store w')) = [3; 5]
  /\ cart_of 42 (store w') = [].
Proof. vm_compute. auto. Qed.

(** B: stock 1, two units: insufficient stock, nothing changes. *)
Example scenario_B :
  let w := Sample.world_of [Sample.variant 2 500 1] [] in
  let (o, w') := placeOrder (Sample.env 7 Sample.no_failure) 42
                   (Sample.request [Sample.item 2 2]) w in
  o = InsufficientStockError 2 "Tee" (Some "Black") (Some "M")
        (JNum (Finite 2)) 1
  /\ store w' = store w.
Proof. vm_compute. auto. Qed.

(** C: an id that does not exist next to a valid item. *)
Example scenario_C :
  let (o, w') := placeOrder (Sample.env 7 Sample.no_failure) 42
                   (Sample.request [Sample.item 1 1; Sample.item 9999 1])
                   Sample.shop in
  o = VariantNotFoundError [JNum (Finite 1); JNum (Finite 9999)] [1]
  /\ store w' = store Sample.shop.
Proof. vm_compute. auto. Qed.

(** D: no item at all. *)
Example scenario_D :
  placeOrder (Sample.env 7 Sample.no_failure) 42 (Sample.request [])
    Sample.shop
  = (EmptyOrderError, Sample.shop).
Proof. reflexivity. Qed.

(** E, one call after the other: stock 5, three units each; the second
    call finds two units and is refused. *)
Example scenario_E_in_sequence :
  let w := Sample.world_of [Sample.variant 1 1000 5] [] in
  let (oA, w1) := placeOrder (Sample.env 7 Sample.no_failure) 42
                    (Sample.request [Sample.item 1 3]) w in
  let (oB, w2) := placeOrder (Sample.env 8 Sample.no_failure) 43
                    (Sample.request [Sample.item 1 3]) w1 in
  created oA = true
  /\ oB = InsufficientStockError 1 "Tee" (Some "Black") (Some "M")
             (JNum (Finite 3)) 2
  /\ map Variant.stock_qty (product_variants (store w2)) = [2].
Proof. vm_compute. auto. Qed.

(** * Properties of the other routes *)

(** ** Authentication *)

Lemma users_findUnique_found (rt : runtime) (users : list User.t) (id : value)
    (u : User.t) :
  users_findUnique rt users id = Some (Some u) ->
  In u users /\ as_int id = Some (User.id u).
Proof.
  unfold users_findUnique.
  destruct (as_int id) as [i|]; [|discriminate].
  destruct (query_fails rt UsersFindUnique); [discriminate|].
  intros H. injection H as F. apply find_some in F. destruct F as [Hin E].
  apply Z.eqb_eq in E. subst. auto.
Qed.

(** X1.  [authenticate] lets a request through only with a row of the
    users table, and only when the header, once its first "Bearer " is
    removed, is a non-empty token that verifies and whose [userId], cut to
    its integer part as the store client does, is the id of that row. *)
Theorem authenticate_is_sound (rt : runtime) (users : list User.t)
    (authorization : option string) (u : User.t) :
  authenticate rt users authorization = Next u ->
  In u users
  /\ exists token userId,
       bearer_token authorization = Some token
       /\ token <> EmptyString
       /\ jwt_verify rt token = Some userId
       /\ as_int userId = Some (User.id u).
Proof.
  unfold authenticate.
  destruct (bearer_token authorization) as [token|]; [|discriminate].
  destruct (token =? EmptyString)%string eqn:E; [discriminate|].
  destruct (jwt_verify rt token) as [userId|] eqn:V; [|discriminate].
  destruct (users_findUnique rt users userId) as [[user|]|] eqn:F;
    try discriminate.
  intros H. inversion H. subst user.
  apply users_findUnique_found in F. destruct F as [Hin Hid].
  split; [exact Hin|]. exists token, userId. repeat split; auto.
  intros N. subst token. discriminate.
Qed.

Lemma authenticate_is_sound_witness :
  let u := {| User.id := 42; User.email := "ann@example.com";
              User.role := client |} in
  In u Demo.users
  /\ exists token userId,
       bearer_token (Some "Bearer 42") = Some token
       /\ token <> EmptyString
       /\ jwt_verify (Demo.rt Demo.never) token = Some userId
       /\ as_int userId = Some (User.id u).
Proof.
  apply (authenticate_is_sound (Demo.rt Demo.never) Demo.users
           (Some "Bearer 42")).
  vm_compute. reflexivity.
Defined.

(** A token whose [userId] is 42.5 is let through as user 42. *)
Example fractional_user_id_is_cut :
  authenticate Demo.fractional_rt Demo.users (Some "Bearer t")
  = Next {| User.id := 42; User.email := "ann@example.com";
            User.role := client |}.
Proof. vm_compute. reflexivity. Qed.

Lemma prefix_split (p s : string) :
  prefix p s = true -> exists r, s = (p ++ r)%string.
Proof.
  revert s. induction p as [|c p IH]; intros s.
  - intros _. exists s. reflexivity.
  - destruct s as [|c' s]; simpl; [discriminate|].
    destruct (ascii_dec c c') as [E|E]; [|discriminate].
    intros H. destruct (IH s H) as (r & Hr). exists r. subst. reflexivity.
Qed.

Lemma replace_first_unfold (pattern replacement s : string) :
  replace_first pattern replacement s
  = if prefix pattern s
    then (replacement
          ++ substring (String.length pattern)
               (String.length s - String.length pattern) s)%string
    else
      match s with
      | EmptyString => EmptyString
      | String c rest => String c (replace_first pattern replacement rest)
      end.
Proof. destruct s; reflexivity. Qed.

Lemma replace_first_nowhere (pattern replacement s : string) :
  occurs_nowhere pattern s -> replace_first pattern replacement s = s.
Proof.
  induction s as [|c s IH]; intros N; rewrite replace_first_unfold.
  - destruct (prefix pattern EmptyString) eqn:P; [|reflexivity].
    exfalso. destruct (prefix_split _ _ P) as (r & Hr).
    apply (N EmptyString r). exact Hr.
  - destruct (prefix pattern (String c s)) eqn:P.
    + exfalso. destruct (prefix_split _ _ P) as (r & Hr).
      apply (N EmptyString r). exact Hr.
    + rewrite IH; [reflexivity|].
      intros a b E. apply (N (String c a) b). simpl. rewrite E. reflexivity.
Qed.

Lemma prefix_append (p r : string) : prefix p (p ++ r) = true.
Proof.
  induction p as [|c p IH]; simpl.
  - destruct r; reflexivity.
  - destruct (ascii_dec c c) as [_|N]; [exact IH|contradiction].
Qed.

Lemma substring_all (s : string) : substring 0 (String.length s) s = s.
Proof. induction s as [|c s IH]; simpl; [reflexivity|]. rewrite IH. reflexivity. Qed.

Lemma substring_after (p r : string) :
  substring (String.length p)
    (String.length (p ++ r) - String.length p) (p ++ r) = r.
Proof.
  induction p as [|c p IH]; simpl.
  - rewrite Nat.sub_0_r. apply substring_all.
  - exact IH.
Qed.

(** Removing a pattern that starts the string leaves the rest. *)
Lemma replace_first_at_start (p r : string) :
  replace_first p EmptyString (p ++ r) = r.
Proof.
  rewrite replace_first_unfold, prefix_append. simpl. apply substring_after.
Qed.

(** X2.  The "Bearer " scheme is optional: the middleware removes the
    first "Bearer " wherever it stands, so a header that is the bare token
    is treated exactly as the same token behind "Bearer ". *)
Theorem bearer_scheme_is_optional (rt : runtime) (users : list User.t)
    (token : string) :
  occurs_nowhere "Bearer " token ->
  bearer_token (Some ("Bearer " ++ token)%string) = Some token
  /\ authenticate rt users (Some token)
     = authenticate rt users (Some ("Bearer " ++ token)%string).
Proof.
  intros N.
  assert (B : bearer_token (Some ("Bearer " ++ token)%string) = Some token).
  { unfold bearer_token. f_equal. apply replace_first_at_start. }
  split; [exact B|].
  unfold authenticate. rewrite B. unfold bearer_token.
  rewrite (replace_first_nowhere _ _ _ N). reflexivity.
Qed.

Lemma string_length_append (a b : string) :
  String.length (a ++ b) = (String.length a + String.length b)%nat.
Proof. induction a as [|c a IH]; simpl; [reflexivity|]. rewrite IH. reflexivity. Qed.

(** A string shorter than the pattern holds no occurrence of it. *)
Lemma short_string_occurs_nowhere (pattern s : string) :
  (String.length s < String.length pattern)%nat -> occurs_nowhere pattern s.
Proof.
  intros L a b E. apply (f_equal String.length) in E.
  rewrite !string_length_append in E. lia.
Qed.

Lemma bearer_scheme_is_optional_witness :
  bearer_token (Some ("Bearer " ++ "42")%string) = Some "42"
  /\ authenticate (Demo.rt Demo.never) Demo.users (Some "42")
     = authenticate (Demo.rt Demo.never) Demo.users
         (Some ("Bearer " ++ "42")%string).
Proof.
  apply (bearer_scheme_is_optional (Demo.rt Demo.never) Demo.users "42").
  apply short_string_occurs_nowhere. simpl. lia.
Defined.

(** The marker is removed wherever it first stands, and only there. *)
Example bearer_token_examples :
  map bearer_token
      [None; Some EmptyString; Some "Bearer "; Some "Bearer abc"; Some "abc";
       Some "abBearer c"; Some "Bearer Bearer abc"; Some "bearer abc"]
  = [None; Some EmptyString; Some EmptyString; Some "abc"; Some "abc";
     Some "abc"; Some "Bearer abc"; Some "bearer abc"].
Proof. vm_compute. reflexivity. Qed.

(** X3.  The admin routes are reached exactly by the requests that
    [authenticate] lets through with a user whose role is [admin], and
    with that user. *)
Theorem admin_gate_lets_admins_only (rt : runtime) (users : list User.t)
    (authorization : option string) (u : User.t) :
  admin_gate rt users authorization = Next u
  <-> authenticate rt users authorization = Next u /\ User.role u = admin.
Proof.
  unfold admin_gate, authorizeAdmin. split.
  - destruct (authenticate rt users authorization) as [user|st msg];
      [|discriminate].
    destruct (User.role user) eqn:R; simpl; [discriminate|].
    intros H. inversion H. subst. auto.
  - intros [H R]. rewrite H, R. reflexivity.
Qed.

(** A client with a valid token is answered 403 by the admin routes. *)
Example client_is_refused_by_admin_routes :
  admin_gate (Demo.rt Demo.never) Demo.users (Some "Bearer 42")
  = Answer 403 "Access denied. Admin privileges required."
  /\ admin_gate (Demo.rt Demo.never) Demo.users (Some "Bearer 1")
     = Next {| User.id := 1; User.email := "root@example.com";
               User.role := admin |}.
Proof. vm_compute. auto. Qed.

(** X4.  [optionalAuth] leaves a user on the request exactly when
    [authenticate] would have let the request through, and it is the same
    user; in every other case it leaves [null] and goes on. *)
Theorem optionalAuth_agrees_with_authenticate (rt : runtime)
    (users : list User.t) (authorization : option string) (u : User.t) :
  optionalAuth rt users authorization = Some u
  <-> authenticate rt users authorization = Next u.
Proof.
  unfold optionalAuth, authenticate.
  destruct (bearer_token authorization) as [token|]; [|split; discriminate].
  destruct (token =? EmptyString)%string; [split; discriminate|].
  destruct (jwt_verify rt token) as [userId|]; [|split; discriminate].
  destruct (users_findUnique rt users userId) as [[user|]|];
    split; intros H; inversion H; reflexivity.
Qed.

(** ** Reading orders *)

Lemma include_order_items_lines (d : db) (o : Order.t) :
  map fst (OrderView.order_items (include_order_items d o)) = lines_of d o.
Proof.
  unfold include_order_items. simpl. rewrite map_map. simpl. apply map_id.
Qed.

(** X5.  [GET /:id] answers with an order only if that order is a row of
    the table, belongs to the caller and has the id of the request; the
    lines that come with it are exactly the rows of [order_items] of that
    order.  Nothing of another user's order is ever returned. *)
Theorem get_order_returns_own_order_only (rt : runtime) (userId : Z)
    (id : string) (d : db) (v : OrderView.t) :
  get_order rt userId id d = OrderFound v ->
  In (OrderView.order v) (orders d)
  /\ Order.user_id (OrderView.order v) = userId
  /\ as_int (JNum (parseInt rt id)) = Some (Order.id (OrderView.order v))
  /\ map fst (OrderView.order_items v) = lines_of d (OrderView.order v)
  /\ Forall (fun l => OrderItem.order_id l = Order.id (OrderView.order v))
            (map fst (OrderView.order_items v)).
Proof.
  unfold get_order. cbv zeta.
  destruct (as_int (JNum (parseInt rt id))) as [i|]; [|discriminate].
  destruct (query_fails rt OrdersFindFirst); [discriminate|].
  destruct (find _ (orders d)) as [o|] eqn:F; [|discriminate].
  intros H. inversion H. subst v. clear H.
  apply find_some in F. destruct F as [Hin E].
  apply andb_prop in E. destruct E as [Ei Eu].
  apply Z.eqb_eq in Ei. apply Z.eqb_eq in Eu.
  rewrite include_order_items_lines. simpl.
  repeat split; auto.
  - f_equal. symmetry. exact Ei.
  - apply Forall_forall. intros l Hl. unfold lines_of in Hl.
    apply filter_In in Hl. destruct Hl as [_ El]. apply Z.eqb_eq in El. exact El.
Qed.

Lemma no_own_order_not_found (rt : runtime) (userId : Z) (id : string)
    (d : db) (i : Z) :
  as_int (JNum (parseInt rt id)) = Some i ->
  query_fails rt OrdersFindFirst = false ->
  (forall o, In o (orders d) -> Order.id o = i -> Order.user_id o <> userId) ->
  get_order rt userId id d = OrderNotFound.
Proof.
  intros Hi Hf Hn. unfold get_order. cbv zeta. rewrite Hi, Hf.
  destruct (find _ (orders d)) as [o|] eqn:F; [|reflexivity].
  exfalso. apply find_some in F. destruct F as [Hin E].
  apply andb_prop in E. destruct E as [Ei Eu].
  apply Z.eqb_eq in Ei. apply Z.eqb_eq in Eu.
  exact (Hn o Hin Ei Eu).
Qed.

(** X6.  An id under which the caller has no order is answered 404,
    whether no order has that id or the order is somebody else's: the
    answer does not tell the two cases apart. *)
Theorem get_order_hides_foreign_orders (rt : runtime) (userId : Z)
    (id : string) (d : db) (i : Z) :
  as_int (JNum (parseInt rt id)) = Some i ->
  query_fails rt OrdersFindFirst = false ->
  (forall o, In o (orders d) -> Order.id o = i -> Order.user_id o <> userId) ->
  get_order rt userId id d = OrderNotFound
  /\ get_order rt userId id d
     = get_order rt userId id
         {| product_variants := product_variants d; orders := [];
            order_items := order_items d; cart_items := cart_items d;
            activity_logs := activity_logs d |}.
Proof.
  intros Hi Hf Hn.
  rewrite (no_own_order_not_found rt userId id d i Hi Hf Hn).
  split; [reflexivity|]. symmetry.
  apply (no_own_order_not_found rt userId id _ i Hi Hf).
  simpl. contradiction.
Qed.

Lemma find_app_skip {A : Type} (f : A -> bool) (l : list A) (x : A) :
  (forall y, In y l -> f y = false) -> f x = true ->
  find f (l ++ [x]) = Some x.
Proof.
  intros Hl Hx. induction l as [|y l IH]; simpl.
  - rewrite Hx. reflexivity.
  - rewrite (Hl y (or_introl eq_refl)). apply IH.
    intros z Hz. apply Hl. right. exact Hz.
Qed.

Lemma filter_all {A : Type} (f : A -> bool) (l : list A) :
  (forall x, In x l -> f x = true) -> filter f l = l.
Proof.
  induction l as [|x l IH]; intros H; simpl; [reflexivity|].
  rewrite (H x (or_introl eq_refl)). rewrite IH; [reflexivity|].
  intros y Hy. apply H. right. exact Hy.
Qed.

Lemma filter_nothing {A : Type} (f : A -> bool) (l : list A) :
  (forall x, In x l -> f x = false) -> filter f l = [].
Proof.
  induction l as [|x l IH]; intros H; simpl; [reflexivity|].
  rewrite (H x (or_introl eq_refl)). apply IH.
  intros y Hy. apply H. right. exact Hy.
Qed.

(** X7.  A created order can be read back.  When the id the store
    assigned was free (no order and no order line bore it), [GET /:id]
    with that id returns to the owner the order just created with exactly
    the lines just created, and answers 404 to every other user. *)
Theorem created_order_is_readable_by_its_owner (env : environment)
    (rt : runtime) (userId : Z) (body : request_body) (w w' : world)
    (order : Order.t) (lines : list OrderItem.t) (totalAmount : number)
    (id : string) :
  placeOrder env userId body w = (OrderCreated order lines totalAmount, w') ->
  (forall o, In o (orders (store w)) -> Order.id o <> next_order_id env) ->
  (forall l, In l (order_items (store w)) ->
             OrderItem.order_id l <> next_order_id env) ->
  as_int (JNum (parseInt rt id)) = Some (next_order_id env) ->
  query_fails rt OrdersFindFirst = false ->
  (exists v,
      get_order rt userId id (store w') = OrderFound v
      /\ OrderView.order v = order
      /\ map fst (OrderView.order_items v) = lines)
  /\ forall other, other <> userId ->
                   get_order rt other id (store w') = OrderNotFound.
Proof.
  intros H Ho Hl Hi Hf.
  apply placeOrder_created_inv in H. destruct H as (its & zs & qs & ois & P).
  pose proof (created_lines_are_snapshots _ _ _ _ _ _ _ _ _ _ _ _ P) as S.
  destruct P. clear placed_checked0 placed_steps0.
  assert (Eo : orders (store w') = orders (store w) ++ [order])
    by (rewrite placed_store0; reflexivity).
  assert (El : order_items (store w') = order_items (store w) ++ lines)
    by (rewrite placed_store0; reflexivity).
  split.
  - exists (include_order_items (store w') order). split; [|split].
    + unfold get_order. cbv zeta. rewrite Hi, Hf, Eo.
      rewrite (find_app_skip _ _ order); [reflexivity| |].
      * intros o Hin. apply andb_false_intro1. apply Z.eqb_neq.
        apply Ho. exact Hin.
      * rewrite placed_id0, placed_user0, !Z.eqb_refl. reflexivity.
    + reflexivity.
    + rewrite include_order_items_lines. unfold lines_of.
      rewrite El, filter_app.
      rewrite (filter_nothing _ (order_items (store w))).
      * simpl. apply filter_all. intros l Hin.
        assert (Hs : exists item, snapshot_of (store w) order item l).
        { clear - S Hin. induction S as [|item l' its' ls' Hs _ IH];
            [contradiction|].
          destruct Hin as [E|Hin]; [subst; exists item; exact Hs|auto]. }
        destruct Hs as (item & v & _ & Hid & _). apply Z.eqb_eq. exact Hid.
      * intros l Hin. apply Z.eqb_neq. rewrite placed_id0. apply Hl. exact Hin.
  - intros other Hne.
    apply (no_own_order_not_found rt other id (store w')
             (next_order_id env) Hi Hf).
    intros o Hin Eid. rewrite Eo in Hin. apply in_app_or in Hin.
    destruct Hin as [Hin|[E|[]]].
    + exfalso. exact (Ho o Hin Eid).
    + subst o. rewrite placed_user0. auto.
Qed.

Lemma get_order_returns_own_order_only_witness :
  let v := include_order_items Demo.tables Sample.tee_order in
  In (OrderView.order v) (orders Demo.tables)
  /\ Order.user_id (OrderView.order v) = 42
  /\ as_int (JNum (parseInt (Demo.rt Demo.never) "7"))
     = Some (Order.id (OrderView.order v))
  /\ map fst (OrderView.order_items v) = lines_of Demo.tables (OrderView.order v)
  /\ Forall (fun l => OrderItem.order_id l = Order.id (OrderView.order v))
            (map fst (OrderView.order_items v)).
Proof.
  apply (get_order_returns_own_order_only (Demo.rt Demo.never) 42 "7").
  vm_compute. reflexivity.
Defined.

Lemma get_order_hides_foreign_orders_witness :
  get_order (Demo.rt Demo.never) 42 "3" Demo.tables = OrderNotFound
  /\ get_order (Demo.rt Demo.never) 42 "3" Demo.tables
     = get_order (Demo.rt Demo.never) 42 "3"
         {| product_variants := product_variants Demo.tables; orders := [];
            order_items := order_items Demo.tables;
            cart_items := cart_items Demo.tables;
            activity_logs := activity_logs Demo.tables |}.
Proof.
  apply (get_order_hides_foreign_orders (Demo.rt Demo.never) 42 "3" _ 3).
  - vm_compute. reflexivity.
  - reflexivity.
  - simpl. intros o [E|[E|[]]] I; subst o; simpl in *; lia.
Defined.

Lemma created_order_is_readable_by_its_owner_witness :
  let w' := snd (placeOrder (Sample.env 7 Sample.no_failure) 42
                   Sample.two_tees Sample.shop) in
  (exists v,
      get_order (Demo.rt Demo.never) 42 "7" (store w') = OrderFound v
      /\ OrderView.order v = Sample.tee_order
      /\ map fst (OrderView.order_items v) = Sample.tee_lines)
  /\ forall other, other <> 42 ->
                   get_order (Demo.rt Demo.never) other "7" (store w')
                   = OrderNotFound.
Proof.
  apply (created_order_is_readable_by_its_owner
           (Sample.env 7 Sample.no_failure) (Demo.rt Demo.never) 42
           Sample.two_tees Sample.shop _ Sample.tee_order Sample.tee_lines
           (Finite 20) "7").
  - vm_compute. reflexivity.
  - simpl. contradiction.
  - simpl. contradiction.
  - vm_compute. reflexivity.
  - reflexivity.
Defined.

(** An id that is no number is answered 500: the store client refuses
    the NaN that [parseInt] returns. *)
Example get_order_examples :
  get_order (Demo.rt Demo.never) 42 "abc" Demo.tables = OrderServerError
  /\ get_order (Demo.rt Demo.never) 42 "8" Demo.tables = OrderNotFound
  /\ get_order (Demo.rt Demo.never) 42 "7abc" Demo.tables
     = OrderFound (include_order_items Demo.tables Sample.tee_order).
Proof. vm_compute. auto. Qed.

Lemma Permutation_filter_In {A : Type} (f : A -> bool) (l l' : list A) :
  Permutation l' (filter f l) ->
  forall x, In x l' <-> In x l /\ f x = true.
Proof.
  intros P x. rewrite <- filter_In. split; intros H.
  - exact (Permutation_in _ P H).
  - exact (Permutation_in _ (Permutation_sym P) H).
Qed.

(** X8.  [GET /] lists the caller's orders and no other: whatever order
    the store sorts them in, the listed orders are the rows of the table
    with the caller's [user_id], each as often as it is in the table, the
    count is their number, and each comes with exactly its own lines. *)
Theorem get_orders_lists_own_orders (rt : runtime) (userId : Z) (d : db)
    (count : nat) (data : list OrderView.t) :
  (forall l, Permutation (by_created_at_desc rt l) l) ->
  get_orders rt userId d = OrdersListed count data ->
  count = List.length data
  /\ Permutation (map OrderView.order data)
       (filter (fun o => Order.user_id o =? userId) (orders d))
  /\ (forall o, In o (map OrderView.order data)
                <-> In o (orders d) /\ Order.user_id o = userId)
  /\ Forall (fun v => map fst (OrderView.order_items v)
                      = lines_of d (OrderView.order v)) data.
Proof.
  intros P. unfold get_orders. cbv zeta.
  destruct (query_fails rt OrdersFindMany); [discriminate|].
  intros H. inversion H. subst count data. clear H.
  set (found := by_created_at_desc rt _).
  assert (E : map OrderView.order (map (include_order_items d) found) = found).
  { rewrite map_map. simpl. apply map_id. }
  rewrite E. split; [|split; [|split]].
  - rewrite length_map. reflexivity.
  - apply P.
  - intros o. unfold found.
    rewrite (Permutation_filter_In _ _ _ (P _) o), Z.eqb_eq. reflexivity.
  - apply Forall_forall. intros v Hv. apply in_map_iff in Hv.
    destruct Hv as (o & Ho & _). subst v. apply include_order_items_lines.
Qed.

Lemma get_orders_lists_own_orders_witness :
  let data := [include_order_items Demo.tables Sample.tee_order] in
  1%nat = List.length data
  /\ Permutation (map OrderView.order data)
       (filter (fun o => Order.user_id o =? 42) (orders Demo.tables))
  /\ (forall o, In o (map OrderView.order data)
                <-> In o (orders Demo.tables) /\ Order.user_id o = 42)
  /\ Forall (fun v => map fst (OrderView.order_items v)
                      = lines_of Demo.tables (OrderView.order v)) data.
Proof.
  apply (get_orders_lists_own_orders (Demo.rt Demo.never) 42).
  - intros l. apply Permutation_sym, Permutation_rev.
  - vm_compute. reflexivity.
Defined.

(** ** The cart *)

(** The store calls of the cart routes, one by one. *)

Lemma variants_findUnique_inv (rt : runtime) (id : value) (d d' : cart_db)
    (r : result (option Variant.t)) :
  variants_findUnique rt id d = (r, d') ->
  d' = d
  /\ forall o, r = Ok o ->
       exists i, as_int id = Some i
                 /\ o = find (fun v => Variant.id v =? i) (cart_variants d).
Proof.
  unfold variants_findUnique, st_bind, call, st_throw.
  destruct (as_int id) as [i|].
  - destruct (query_fails rt VariantsFindUnique); intros H; inversion H;
      subst; split; auto; try discriminate.
    intros o E. inversion E. exists i. auto.
  - intros H. inversion H. split; auto. discriminate.
Qed.

Lemma cart_findFirst_inv (rt : runtime) (p : CartLine.t -> bool)
    (d d' : cart_db) (r : result (option CartLine.t)) :
  cart_findFirst rt p d = (r, d') ->
  d' = d /\ forall o, r = Ok o -> o = find p (cart_lines d).
Proof.
  unfold cart_findFirst, st_bind, call.
  destruct (query_fails rt CartFindFirst); intros H; inversion H; subst;
    split; auto; try discriminate.
  intros o E. inversion E. reflexivity.
Qed.

Lemma own_line_inv (rt : runtime) (userId : Z) (n : number)
    (d d' : cart_db) (r : result (option CartLine.t)) :
  own_line rt userId n d = (r, d') ->
  d' = d
  /\ forall o, r = Ok o ->
       exists i, as_int (JNum n) = Some i
                 /\ o = find (fun l => (CartLine.id l =? i) && owned_by userId l)
                          (cart_lines d).
Proof.
  unfold own_line. destruct (as_int (JNum n)) as [i|].
  - intros H. apply cart_findFirst_inv in H. destruct H as [E H].
    split; [exact E|]. intros o Ho. exists i. auto.
  - unfold st_throw. intros H. inversion H. split; auto. discriminate.
Qed.

Lemma included_variant_inv (l : CartLine.t) (d d' : cart_db)
    (r : result Variant.t) :
  included_variant l d = (r, d') -> d' = d.
Proof.
  unfold included_variant.
  destruct (CartItem.variant_id (CartLine.item l)) as [i|].
  - destruct (find _ (cart_variants d)); intros H; inversion H; reflexivity.
  - intros H. inversion H. reflexivity.
Qed.

Lemma cart_update_inv (rt : runtime) (id : Z) (quantity : value)
    (d d' : cart_db) (r : result CartLine.t) :
  cart_update rt id quantity d = (r, d') ->
  d' = d
  \/ exists q l,
       find (fun x => CartLine.id x =? id) (cart_lines d) = Some l
       /\ r = Ok (set_quantity q l)
       /\ d' = set_cart_lines
                 (map (fun x => if CartLine.id x =? id then set_quantity q x
                                else x) (cart_lines d)) d.
Proof.
  assert (G : forall q,
             (let* _ := call rt CartUpdate in
              fun d0 : cart_db =>
                match find (fun l => CartLine.id l =? id) (cart_lines d0) with
                | Some l =>
                    (Ok (set_quantity q l),
                     set_cart_lines
                       (map (fun x => if CartLine.id x =? id
                                      then set_quantity q x else x)
                          (cart_lines d0)) d0)
                | None => (Throw, d0)
                end) d = (r, d') ->
             d' = d
             \/ exists q l,
                 find (fun x => CartLine.id x =? id) (cart_lines d) = Some l
                 /\ r = Ok (set_quantity q l)
                 /\ d' = set_cart_lines
                           (map (fun x => if CartLine.id x =? id
                                          then set_quantity q x else x)
                              (cart_lines d)) d).
  { intros q. unfold st_bind, call.
    destruct (query_fails rt CartUpdate); [intros H; inversion H; auto|].
    destruct (find _ (cart_lines d)) as [l|] eqn:F; intros H; inversion H;
      subst; [right; exists q, l; auto|auto]. }
  unfold cart_update.
  destruct quantity; try (destruct (as_int _) as [q|]; [apply G|]);
    try (unfold st_throw; intros H; inversion H; auto; fail).
  unfold st_bind, call. destruct (query_fails rt CartUpdate);
    [intros H; inversion H; auto|].
  destruct (find _ (cart_lines d)); intros H; inversion H; auto.
Qed.

Lemma cart_create_inv (rt : runtime) (userId variantId : Z) (quantity : value)
    (d d' : cart_db) (r : result CartLine.t) :
  cart_create rt userId variantId quantity d = (r, d') ->
  d' = d
  \/ exists q,
       let l := {| CartLine.id := next_cart_item_id rt;
                   CartLine.item :=
                     {| CartItem.user_id := Some userId;
                        CartItem.variant_id := Some variantId;
                        CartItem.quantity := q |} |} in
       as_int quantity = Some q /\ r = Ok l
       /\ d' = set_cart_lines (cart_lines d ++ [l]) d.
Proof.
  unfold cart_create, st_bind, call, st_throw.
  destruct (as_int quantity) as [q|]; [|intros H; inversion H; auto].
  destruct (query_fails rt CartCreate); intros H; inversion H; auto.
  right. exists q. auto.
Qed.

Lemma cart_delete_inv (rt : runtime) (id : Z) (d d' : cart_db)
    (r : result unit) :
  cart_delete rt id d = (r, d') ->
  d' = d
  \/ (r = Ok tt
      /\ d' = set_cart_lines
                (filter (fun l => negb (CartLine.id l =? id)) (cart_lines d)) d).
Proof.
  unfold cart_delete, st_bind, call.
  destruct (query_fails rt CartDelete); [intros H; inversion H; auto|].
  destruct (existsb _ (cart_lines d)); intros H; inversion H; auto.
Qed.

Lemma log_activity_inv (rt : runtime) (data : ActivityLog.t) (d d' : cart_db)
    (r : result unit) :
  log_activity rt data d = (r, d') ->
  cart_variants d' = cart_variants d /\ cart_lines d' = cart_lines d
  /\ (cart_logs d' = cart_logs d \/ cart_logs d' = cart_logs d ++ [data]).
Proof.
  unfold log_activity, st_bind, call.
  destruct (query_fails rt ActivityLogsCreate); intros H; inversion H; subst;
    simpl; auto.
Qed.

Lemma st_bind_run {S A B : Type} (m : St S A) (k : A -> St S B) (s : S) :
  st_bind m k s
  = match m s with
    | (Ok a, s') => k a s'
    | (Throw, s') => (Throw, s')
    end.
Proof. reflexivity. Qed.

Lemma cart_step_refl (rt : runtime) (userId : Z) (ls : list CartLine.t) :
  cart_step rt userId ls ls.
Proof. left. reflexivity. Qed.

Ltac done_step := split; [apply cart_step_refl|reflexivity].

Ltac log_step :=
  rewrite st_bind_run;
  let E := fresh "E" in
  let d4 := fresh "d" in
  let V := fresh "V" in
  let L := fresh "L" in
  destruct (log_activity _ _ _) as [[[]|] d4] eqn:E;
  apply log_activity_inv in E; destruct E as (V & L & _);
  cbv beta iota delta [st_ret]; cbn [snd]; rewrite V, L; clear V L.

Lemma cart_add_step (env : environment) (rt : runtime) (userId : Z)
    (variant_id quantity : value) (d : cart_db) :
  let d' := snd (cart_add env rt userId variant_id quantity d) in
  cart_step rt userId (cart_lines d) (cart_lines d')
  /\ cart_variants d' = cart_variants d.
Proof.
  unfold cart_add, st_catch. cbv zeta. rewrite st_bind_run.
  destruct (variants_findUnique _ _ _) as [[[v|]|] d1] eqn:E1;
    apply variants_findUnique_inv in E1; destruct E1 as [-> _];
    cbv beta iota; try done_step.
  destruct (js_lt env _ _); cbv beta iota; try done_step.
  rewrite st_bind_run.
  destruct (cart_findFirst _ _ _) as [[ex|] d2] eqn:E2;
    apply cart_findFirst_inv in E2; destruct E2 as [-> E2];
    cbv beta iota; try done_step.
  specialize (E2 _ eq_refl). symmetry in E2. rewrite st_bind_run.
  assert (G : forall (r : result CartLine.t) (d3 : cart_db),
             match ex with
             | Some e =>
                 cart_update rt (CartLine.id e)
                   (js_plus env (CartItem.quantity (CartLine.item e))
                      (default_quantity quantity))
             | None => cart_create rt userId (Variant.id v)
                         (default_quantity quantity)
             end d = (r, d3) ->
             cart_step rt userId (cart_lines d) (cart_lines d3)
             /\ cart_variants d3 = cart_variants d).
  { intros r d3. destruct ex as [e|]; intros E3.
    - apply cart_update_inv in E3.
      destruct E3 as [->|(q & l0 & _ & _ & ->)]; [done_step|].
      split; [|reflexivity]. right. left. exists e, q.
      apply find_some in E2. destruct E2 as [Hin Hp].
      apply andb_prop in Hp. destruct Hp as [Ho _]. auto.
    - apply cart_create_inv in E3.
      destruct E3 as [->|(q & _ & _ & ->)]; [done_step|].
      split; [|reflexivity]. right. right. left.
      exists (Variant.id v), q. auto. }
  pose proof (G _ _ (surjective_pairing _)) as E3. clear G.
  destruct ex as [e|];
    [destruct (cart_update _ _ _ _) as [[l|] d3]
    |destruct (cart_create _ _ _ _ _) as [[l|] d3]];
    cbn [snd] in E3; cbv beta iota; try exact E3; log_step; exact E3.
Qed.

Lemma find_own_line (userId i : Z) (ls : list CartLine.t) (l : CartLine.t) :
  find (fun x => (CartLine.id x =? i) && owned_by userId x) ls = Some l ->
  In l ls /\ CartLine.id l = i /\ owned_by userId l = true.
Proof.
  intros F. apply find_some in F. destruct F as [Hin Hp].
  apply andb_prop in Hp. destruct Hp as [Hi Ho]. apply Z.eqb_eq in Hi. auto.
Qed.

Lemma cart_set_step (env : environment) (rt : runtime) (userId : Z)
    (id : string) (quantity : value) (d : cart_db) :
  let d' := snd (cart_set env rt userId id quantity d) in
  cart_step rt userId (cart_lines d) (cart_lines d')
  /\ cart_variants d' = cart_variants d.
Proof.
  unfold cart_set, st_catch. cbv zeta. rewrite st_bind_run.
  destruct (own_line _ _ _ _) as [[[l|]|] d1] eqn:E1;
    apply own_line_inv in E1; destruct E1 as [-> E1];
    cbv beta iota; try done_step.
  destruct (E1 _ eq_refl) as (i & _ & F). symmetry in F.
  apply find_own_line in F. destruct F as (Hin & _ & Ho). clear E1.
  rewrite st_bind_run.
  destruct (included_variant _ _) as [[v|] d2] eqn:E2;
    apply included_variant_inv in E2; subst d2; cbv beta iota;
    try done_step.
  destruct (js_lt env _ _); cbv beta iota; try done_step.
  rewrite st_bind_run.
  assert (G : forall (r : result CartLine.t) (d3 : cart_db),
             cart_update rt (CartLine.id l) quantity d = (r, d3) ->
             cart_step rt userId (cart_lines d) (cart_lines d3)
             /\ cart_variants d3 = cart_variants d).
  { intros r d3 E3. apply cart_update_inv in E3.
    destruct E3 as [->|(q & l0 & _ & _ & ->)]; [done_step|].
    split; [|reflexivity]. right. left. exists l, q. auto. }
  pose proof (G _ _ (surjective_pairing _)) as E3. clear G.
  destruct (cart_update _ _ _ _) as [[u|] d3]; cbn [snd] in E3;
    cbv beta iota; [|exact E3].
  log_step; exact E3.
Qed.

Lemma cart_remove_step (rt : runtime) (userId : Z) (id : string)
    (d : cart_db) :
  let d' := snd (cart_remove rt userId id d) in
  cart_step rt userId (cart_lines d) (cart_lines d')
  /\ cart_variants d' = cart_variants d.
Proof.
  unfold cart_remove, st_catch. cbv zeta. rewrite st_bind_run.
  destruct (own_line _ _ _ _) as [[[l|]|] d1] eqn:E1;
    apply own_line_inv in E1; destruct E1 as [-> E1];
    cbv beta iota; try done_step.
  destruct (E1 _ eq_refl) as (i & _ & F). symmetry in F.
  apply find_own_line in F. destruct F as (Hin & _ & Ho). clear E1.
  rewrite st_bind_run.
  assert (G : forall (r : result unit) (d3 : cart_db),
             cart_delete rt (CartLine.id l) d = (r, d3) ->
             cart_step rt userId (cart_lines d) (cart_lines d3)
             /\ cart_variants d3 = cart_variants d).
  { intros r d3 E3. apply cart_delete_inv in E3.
    destruct E3 as [->|[_ ->]]; [done_step|].
    split; [|reflexivity]. right. right. right. exists l. auto. }
  pose proof (G _ _ (surjective_pairing _)) as E3. clear G.
  destruct (cart_delete _ _ _) as [[[]|] d3]; cbn [snd] in E3;
    cbv beta iota; [|exact E3].
  log_step; exact E3.
Qed.

(** Whatever the request and whatever fails on the way, a call to a cart
    route does at most one thing to the lines of the cart, to a line of
    the caller, and leaves the variants alone. *)
Lemma cart_route_step (env : environment) (rt : runtime) (userId : Z)
    (r : cart_request) (d : cart_db) :
  let d' := snd (cart_route env rt userId r d) in
  cart_step rt userId (cart_lines d) (cart_lines d')
  /\ cart_variants d' = cart_variants d.
Proof.
  destruct r as [variant_id quantity|id quantity|id]; simpl.
  - apply cart_add_step.
  - apply cart_set_step.
  - apply cart_remove_step.
Qed.

Lemma filter_map_length {A : Type} (p : A -> bool) (f : A -> A) (l : list A) :
  (forall x, p (f x) = p x) ->
  List.length (filter p (map f l)) = List.length (filter p l).
Proof.
  intros H. induction l as [|x l IH]; simpl; [reflexivity|].
  rewrite H. destruct (p x); simpl; rewrite IH; reflexivity.
Qed.

Lemma filter_filter_length {A : Type} (p q : A -> bool) (l : list A) :
  (List.length (filter p (filter q l)) <= List.length (filter p l))%nat.
Proof.
  induction l as [|x l IH]; simpl; [lia|].
  destruct (q x); simpl; destruct (p x); simpl; lia.
Qed.

Lemma owned_by_set_quantity (userId q : Z) (l : CartLine.t) :
  owned_by userId (set_quantity q l) = owned_by userId l.
Proof. reflexivity. Qed.

Lemma cart_step_keeps_one_line_per_variant (rt : runtime) (userId : Z)
    (d d' : cart_db) :
  cart_step rt userId (cart_lines d) (cart_lines d') ->
  one_line_per_variant d -> one_line_per_variant d'.
Proof.
  intros S I u v. specialize (I u v). unfold lines_for in *.
  destruct S as [E|[(l & q & _ & _ & E)|[(vid & q & F & E)|(l & _ & _ & E)]]];
    rewrite E.
  - exact I.
  - rewrite filter_map_length; [exact I|].
    intros x. destruct (CartLine.id x =? CartLine.id l); reflexivity.
  - rewrite filter_app, length_app. simpl.
    unfold owned_by at 2, holds_variant at 2, in_cart_of. simpl.
    destruct (userId =? u) eqn:Eu; simpl; [|lia].
    destruct (vid =? v) eqn:Ev; simpl; [|lia].
    apply Z.eqb_eq in Eu. apply Z.eqb_eq in Ev. subst u v.
    rewrite (filter_nothing _ (cart_lines d)); [simpl; lia|].
    intros x Hx. exact (find_none _ _ F x Hx).
  - eapply Nat.le_trans; [apply filter_filter_length|exact I].
Qed.

Lemma demo_cart_one_line_per_variant : one_line_per_variant Demo.cart.
Proof.
  intros u v. unfold lines_for, Demo.cart, owned_by, holds_variant, in_cart_of.
  cbn -[Z.eqb].
  destruct (Z.eqb_spec 42 u), (Z.eqb_spec 43 u), (Z.eqb_spec 1 v); simpl; lia.
Qed.

Lemma demo_cart_ids_unique (fails : query -> bool) :
  cart_ids_unique (Demo.rt fails) Demo.cart.
Proof.
  split; simpl.
  - repeat constructor; simpl; intuition discriminate.
  - intuition discriminate.
Qed.

(** X9.  A call to a cart route that runs alone, with no other write to
    the cart between its reads and its writes, gives no user a second
    line for a variant: whatever the request, its outcome and the failures
    of the store, a cart in which every user has at most one line per
    variant is left in that state.  (Nothing in the store enforces this:
    [cart_items] has no unique index on the user and the variant, and two
    interleaved calls leave two lines, as shown below.) *)
Theorem cart_route_keeps_one_line_per_variant (env : environment)
    (rt : runtime) (userId : Z) (r : cart_request) (d : cart_db) :
  one_line_per_variant d ->
  one_line_per_variant (snd (cart_route env rt userId r d)).
Proof.
  apply (cart_step_keeps_one_line_per_variant rt userId).
  apply cart_route_step.
Qed.

Lemma cart_route_keeps_one_line_per_variant_witness :
  one_line_per_variant
    (snd (cart_route (Sample.env 7 Sample.no_failure) (Demo.rt Demo.never) 42
            (PostCart (JNum (of_int 2)) (JNum (of_int 3))) Demo.cart)).
Proof.
  apply (cart_route_keeps_one_line_per_variant
           (Sample.env 7 Sample.no_failure) (Demo.rt Demo.never) 42
           (PostCart (JNum (of_int 2)) (JNum (of_int 3))) Demo.cart).
  exact demo_cart_one_line_per_variant.
Defined.

(** The two parts of [POST /], one after the other, are the route. *)
Lemma cart_add_in_two_steps (env : environment) (rt : runtime) (userId : Z)
    (variant_id quantity : value) (d : cart_db) :
  cart_add env rt userId variant_id quantity d
  = let (looked, d1) := cart_add_lookup env rt userId variant_id quantity d in
    cart_add_write env rt userId variant_id quantity looked d1.
Proof.
  unfold cart_add, cart_add_lookup, cart_add_write, st_catch, st_bind.
  cbv zeta.
  destruct (variants_findUnique rt variant_id d) as [[[v|]|] d1];
    try reflexivity.
  destruct (js_lt env (of_int (Variant.stock_qty v))
              (default_quantity quantity)); [reflexivity|].
  destruct (cart_findFirst rt _ d1) as [[e|] d2]; reflexivity.
Qed.

(** Two interleaved [POST /] of user 42 for variant 2, of which the user
    has no line yet: each finds no line and creates one, and the cart ends
    with two lines of the user for the variant. *)
Example interleaved_cart_adds_leave_two_lines :
  let two := JNum (of_int 2) in
  let one := JNum (of_int 1) in
  let d := snd (interleaved_cart_adds (Sample.env 7 Sample.no_failure)
                  (Demo.rt Demo.never) 42 two one
                  (Demo.next_rt Demo.never) 42 two one Demo.cart) in
  one_line_per_variant Demo.cart
  /\ lines_for 42 2 d = [Demo.cart_line 100 42 2 1; Demo.cart_line 101 42 2 1]
  /\ ~ one_line_per_variant d.
Proof.
  split; [exact demo_cart_one_line_per_variant|].
  split; [vm_compute; reflexivity|].
  intros H. specialize (H 42 2). vm_compute in H. lia.
Qed.

Lemma filter_map_fixed {A : Type} (p : A -> bool) (f : A -> A) (l : list A) :
  (forall x, In x l -> p (f x) = p x /\ (p x = true -> f x = x)) ->
  filter p (map f l) = filter p l.
Proof.
  induction l as [|x l IH]; intros H; simpl; [reflexivity|].
  destruct (H x (or_introl eq_refl)) as [H1 H2]. rewrite H1.
  rewrite IH by (intros y Hy; apply H; right; exact Hy).
  destruct (p x); [rewrite H2; reflexivity|reflexivity].
Qed.

Lemma filter_filter_implied {A : Type} (p q : A -> bool) (l : list A) :
  (forall x, In x l -> p x = true -> q x = true) ->
  filter p (filter q l) = filter p l.
Proof.
  induction l as [|x l IH]; intros H; simpl; [reflexivity|].
  rewrite <- IH by (intros y Hy; apply H; right; exact Hy).
  destruct (q x) eqn:Q; simpl; [reflexivity|].
  destruct (p x) eqn:P; [|reflexivity].
  rewrite (H x (or_introl eq_refl) P) in Q. discriminate.
Qed.

Lemma same_id_same_line (ls : list CartLine.t) (x l : CartLine.t) :
  NoDup (map CartLine.id ls) -> In x ls -> In l ls ->
  CartLine.id x = CartLine.id l -> x = l.
Proof.
  induction ls as [|y ls IH]; simpl; [contradiction|].
  intros N Hx Hl E. inversion N as [|? ? Hy N']. subst.
  destruct Hx as [Hx|Hx], Hl as [Hl|Hl]; subst; auto.
  - exfalso. apply Hy. rewrite E. apply in_map. exact Hl.
  - exfalso. apply Hy. rewrite <- E. apply in_map. exact Hx.
Qed.

Lemma cart_step_frame (rt : runtime) (userId : Z) (d d' : cart_db) :
  cart_step rt userId (cart_lines d) (cart_lines d') ->
  cart_ids_unique rt d ->
  lines_of_others userId d' = lines_of_others userId d
  /\ NoDup (map CartLine.id (cart_lines d')).
Proof.
  intros S [N Fresh]. unfold lines_of_others.
  destruct S as [E|[(l & q & Hl & Ho & E)|[(vid & q & F & E)|(l & Hl & Ho & E)]]];
    rewrite E.
  - auto.
  - split.
    + apply filter_map_fixed. intros x Hx.
      destruct (CartLine.id x =? CartLine.id l) eqn:I; [|auto].
      apply Z.eqb_eq in I.
      rewrite (same_id_same_line _ _ _ N Hx Hl I).
      rewrite owned_by_set_quantity, Ho. simpl. split; [reflexivity|discriminate].
    + rewrite map_map.
      rewrite (map_ext _ CartLine.id); [exact N|].
      intros x. destruct (CartLine.id x =? CartLine.id l); reflexivity.
  - split.
    + rewrite filter_app. simpl. unfold owned_by at 2, in_cart_of. simpl.
      rewrite Z.eqb_refl. simpl. apply app_nil_r.
    + rewrite map_app. simpl. apply NoDup_app; [exact N|repeat constructor; auto|].
      intros x Hx [Ex|[]]. subst x. exact (Fresh Hx).
  - split.
    + apply filter_filter_implied. intros x Hx P.
      apply negb_true_iff. apply Z.eqb_neq. intros I.
      rewrite (same_id_same_line _ _ _ N Hx Hl I) in P.
      rewrite Ho in P. discriminate.
    + apply NoDup_map_filter. exact N.
Qed.

(** X10.  A cart route touches the caller's lines only: the lines of every
    other user are after the call what they were before it, ids stay
    unique, and the variants (their stock included) are not written. *)
Theorem cart_route_leaves_other_carts_alone (env : environment)
    (rt : runtime) (userId : Z) (r : cart_request) (d : cart_db) :
  cart_ids_unique rt d ->
  let d' := snd (cart_route env rt userId r d) in
  lines_of_others userId d' = lines_of_others userId d
  /\ NoDup (map CartLine.id (cart_lines d'))
  /\ cart_variants d' = cart_variants d.
Proof.
  intros U d'. destruct (cart_route_step env rt userId r d) as [S V].
  destruct (cart_step_frame rt userId d d' S U) as [F N]. auto.
Qed.

Lemma cart_route_leaves_other_carts_alone_witness :
  let d' := snd (cart_route (Sample.env 7 Sample.no_failure)
                   (Demo.rt Demo.never) 42 (DeleteCart "10") Demo.cart) in
  lines_of_others 42 d' = lines_of_others 42 Demo.cart
  /\ NoDup (map CartLine.id (cart_lines d'))
  /\ cart_variants d' = cart_variants Demo.cart.
Proof.
  apply (cart_route_leaves_other_carts_alone
           (Sample.env 7 Sample.no_failure) (Demo.rt Demo.never) 42
           (DeleteCart "10") Demo.cart).
  apply demo_cart_ids_unique.
Defined.

Lemma log_activity_refused (rt : runtime) (data : ActivityLog.t) (d : cart_db) :
  log_activity (failing_log rt) data d = (Throw, d).
Proof. reflexivity. Qed.

Lemma set_cart_lines_same (d d' : cart_db) :
  cart_variants d' = cart_variants d -> cart_logs d' = cart_logs d ->
  d' = set_cart_lines (cart_lines d') d.
Proof.
  destruct d, d'. unfold set_cart_lines. simpl. intros -> ->. reflexivity.
Qed.

(** A write to the cart followed by the log entry and the answer: with a
    store that refuses the log entry the write stays and the answer is the
    one of the [catch] block. *)
Lemma logged_write_without_log {A : Type} (rt : runtime)
    (m : St cart_db A) (data data' : A -> ActivityLog.t)
    (answer answer' : A -> cart_answer)
    (d d' : cart_db) (a : cart_answer) :
  (forall r d1, m d = (r, d1) ->
                cart_variants d1 = cart_variants d
                /\ cart_logs d1 = cart_logs d) ->
  st_catch (let* x := m in
            let* _ := log_activity rt (data x) in st_ret (answer x))
    (CartFailure 500 "Server error") d = (a, d') ->
  saved a = true ->
  st_catch (let* x := m in
            let* _ := log_activity (failing_log rt) (data' x) in
            st_ret (answer' x))
    (CartFailure 500 "Server error") d
  = (CartFailure 500 "Server error", set_cart_lines (cart_lines d') d).
Proof.
  intros F. unfold st_catch. rewrite !st_bind_run.
  destruct (m d) as [[x|] d1] eqn:M.
  - rewrite !st_bind_run, log_activity_refused.
    destruct (F _ _ eq_refl) as [V G].
    destruct (log_activity rt (data x) d1) as [[[]|] d2] eqn:L;
      unfold st_ret; intros H S; inversion H; subst; [|discriminate].
    apply log_activity_inv in L. destruct L as (_ & L & _).
    rewrite L. f_equal. apply set_cart_lines_same; assumption.
  - intros H S. inversion H. subst. discriminate.
Qed.

Lemma cart_add_without_log (env : environment) (rt : runtime) (userId : Z)
    (variant_id quantity : value) (d d' : cart_db) (a : cart_answer) :
  cart_add env rt userId variant_id quantity d = (a, d') ->
  saved a = true ->
  cart_add env (failing_log rt) userId variant_id quantity d
  = (CartFailure 500 "Server error", set_cart_lines (cart_lines d') d).
Proof.
  unfold cart_add, st_catch. cbv zeta. rewrite !st_bind_run.
  change (variants_findUnique (failing_log rt)) with (variants_findUnique rt).
  destruct (variants_findUnique _ _ _) as [[[v|]|] d1] eqn:E1;
    apply variants_findUnique_inv in E1; destruct E1 as [-> _];
    cbv beta iota delta [st_ret];
    try (intros H S; inversion H; subst; discriminate).
  destruct (js_lt env _ _); cbv beta iota;
    try (intros H S; inversion H; subst; discriminate).
  rewrite !st_bind_run.
  change (cart_findFirst (failing_log rt)) with (cart_findFirst rt).
  destruct (cart_findFirst _ _ _) as [[ex|] d2] eqn:E2;
    apply cart_findFirst_inv in E2; destruct E2 as [-> _];
    cbv beta iota;
    try (intros H S; inversion H; subst; discriminate).
  change (cart_update (failing_log rt)) with (cart_update rt).
  change (cart_create (failing_log rt)) with (cart_create rt).
  apply (logged_write_without_log rt _ (fun _ => _) (fun _ => _)
           (fun x => LineSaved 201 x) (fun x => LineSaved 201 x)).
  intros r d1. destruct ex as [e|]; intros E3.
  - apply cart_update_inv in E3.
    destruct E3 as [->|(q & l0 & _ & _ & ->)]; auto.
  - apply cart_create_inv in E3.
    destruct E3 as [->|(q & _ & _ & ->)]; auto.
Qed.

Lemma cart_set_without_log (env : environment) (rt : runtime) (userId : Z)
    (id : string) (quantity : value) (d d' : cart_db) (a : cart_answer) :
  cart_set env rt userId id quantity d = (a, d') ->
  saved a = true ->
  cart_set env (failing_log rt) userId id quantity d
  = (CartFailure 500 "Server error", set_cart_lines (cart_lines d') d).
Proof.
  unfold cart_set, st_catch. cbv zeta. rewrite !st_bind_run.
  change (parseInt (failing_log rt)) with (parseInt rt).
  change (own_line (failing_log rt)) with (own_line rt).
  destruct (own_line _ _ _ _) as [[[l|]|] d1] eqn:E1;
    apply own_line_inv in E1; destruct E1 as [-> _];
    cbv beta iota delta [st_ret];
    try (intros H S; inversion H; subst; discriminate).
  rewrite !st_bind_run.
  destruct (included_variant _ _) as [[v|] d2] eqn:E2;
    apply included_variant_inv in E2; subst d2; cbv beta iota;
    try (intros H S; inversion H; subst; discriminate).
  destruct (js_lt env _ _); cbv beta iota;
    try (intros H S; inversion H; subst; discriminate).
  change (cart_update (failing_log rt)) with (cart_update rt).
  apply (logged_write_without_log rt _ (fun _ => _) (fun _ => _)
           (fun x => LineSaved 200 x) (fun x => LineSaved 200 x)).
  intros r d1 E3. apply cart_update_inv in E3.
  destruct E3 as [->|(q & l0 & _ & _ & ->)]; auto.
Qed.

Lemma cart_remove_without_log (rt : runtime) (userId : Z) (id : string)
    (d d' : cart_db) (a : cart_answer) :
  cart_remove rt userId id d = (a, d') ->
  saved a = true ->
  cart_remove (failing_log rt) userId id d
  = (CartFailure 500 "Server error", set_cart_lines (cart_lines d') d).
Proof.
  unfold cart_remove, st_catch. cbv zeta. rewrite !st_bind_run.
  change (parseInt (failing_log rt)) with (parseInt rt).
  change (own_line (failing_log rt)) with (own_line rt).
  destruct (own_line _ _ _ _) as [[[l|]|] d1] eqn:E1;
    apply own_line_inv in E1; destruct E1 as [-> _];
    cbv beta iota delta [st_ret];
    try (intros H S; inversion H; subst; discriminate).
  change (cart_delete (failing_log rt)) with (cart_delete rt).
  apply (logged_write_without_log rt _ (fun _ => _) (fun _ => _)
           (fun _ => LineRemoved) (fun _ => LineRemoved)).
  intros r d1 E3. apply cart_delete_inv in E3.
  destruct E3 as [->|[_ ->]]; auto.
Qed.

(** X11.  The cart routes write the cart and the activity log one after
    the other, outside any transaction: when the store refuses the log
    entry of a request that would otherwise have been served, the caller
    is answered 500 "Server error" and yet the lines of the cart are
    those of the served request.  Only the log entry is missing. *)
Theorem cart_write_survives_a_refused_log (env : environment) (rt : runtime)
    (userId : Z) (r : cart_request) (d d' : cart_db) (a : cart_answer) :
  cart_route env rt userId r d = (a, d') ->
  saved a = true ->
  cart_route env (failing_log rt) userId r d
  = (CartFailure 500 "Server error", set_cart_lines (cart_lines d') d).
Proof.
  destruct r as [variant_id quantity|id quantity|id]; simpl.
  - apply cart_add_without_log.
  - apply cart_set_without_log.
  - apply cart_remove_without_log.
Qed.

Lemma cart_write_survives_a_refused_log_witness :
  let d' := snd (cart_route (Sample.env 7 Sample.no_failure)
                   (Demo.rt Demo.never) 42 (DeleteCart "10") Demo.cart) in
  cart_route (Sample.env 7 Sample.no_failure)
    (failing_log (Demo.rt Demo.never)) 42 (DeleteCart "10") Demo.cart
  = (CartFailure 500 "Server error", set_cart_lines (cart_lines d') Demo.cart).
Proof.
  apply (cart_write_survives_a_refused_log (Sample.env 7 Sample.no_failure)
           (Demo.rt Demo.never) 42 (DeleteCart "10") Demo.cart _ LineRemoved).
  - vm_compute. reflexivity.
  - reflexivity.
Defined.

(** The removal is answered 500 and the line is gone all the same. *)
Example removal_without_log :
  cart_route (Sample.env 7 Sample.no_failure) (Demo.rt Demo.log_fails) 42
    (DeleteCart "10") Demo.cart
  = (CartFailure 500 "Server error",
     set_cart_lines [Demo.cart_line 11 43 1 1] Demo.cart).
Proof. vm_compute. reflexivity. Qed.

(** ** Integers as numbers *)

Lemma Qred_inject_Z (z : Z) : Qred (inject_Z z) = inject_Z z.
Proof.
  unfold Qred, inject_Z.
  pose proof (Z.ggcd_gcd z 1) as G.
  pose proof (Z.ggcd_correct_divisors z 1) as D.
  destruct (Z.ggcd z 1) as (g & q1 & q2). simpl in *.
  rewrite Z.gcd_1_r in G. subst g. destruct D as [D1 D2].
  replace q1 with z by lia. replace q2 with 1 by lia. reflexivity.
Qed.

Lemma round_ties_even_integer (x : Q) (n : Z) :
  (x == inject_Z n)%Q -> round_ties_even x = n.
Proof.
  intros H. unfold round_ties_even.
  assert (F : Qfloor x = n) by (rewrite H; apply Qfloor_Z).
  rewrite F.
  assert (L : Qcompare (x - inject_Z n) (1 # 2) = Lt).
  { apply Qlt_alt. rewrite H.
    setoid_replace (inject_Z n - inject_Z n)%Q with 0%Q by ring.
    reflexivity. }
  rewrite L. reflexivity.
Qed.

Lemma binary64_integer (z : Z) :
  Z.abs z < 2 ^ 53 -> binary64 (inject_Z z) = Finite (inject_Z z).
Proof.
  intros B. unfold binary64. rewrite Qred_inject_Z. unfold round_binary64.
  destruct (Z.eq_dec z 0) as [Z0|NZ]; [subst z; reflexivity|].
  assert (NE : Qeq_bool (inject_Z z) 0 = false).
  { apply not_true_is_false. intros E. apply Qeq_bool_iff in E.
    apply NZ. unfold Qeq in E. simpl in E. lia. }
  rewrite NE. cbv zeta.
  assert (A : Qabs (inject_Z z) = inject_Z (Z.abs z)) by reflexivity.
  rewrite A.
  assert (P : 0 < Z.abs z) by lia.
  pose proof (Z.log2_spec _ P) as [L1 L2].
  pose proof (Z.log2_nonneg (Z.abs z)) as L0.
  assert (L53 : Z.log2 (Z.abs z) < 53).
  { apply Z.log2_lt_pow2; [exact P|exact B]. }
  assert (FL : floor_log2 (inject_Z (Z.abs z)) = Z.log2 (Z.abs z)).
  { unfold floor_log2. simpl Qnum. simpl Qden. cbv zeta.
    change (Z.log2 1) with 0. rewrite Z.sub_0_r.
    assert (T : Qle_bool (2 ^ Z.log2 (Z.abs z)) (inject_Z (Z.abs z)) = true).
    { apply Qle_bool_iff. rewrite Qpower_2_nonneg by exact L0.
      rewrite <- Zle_Qle. exact L1. }
    rewrite T. reflexivity. }
  rewrite FL.
  set (l := Z.log2 (Z.abs z)) in *.
  rewrite Z.max_l by lia.
  set (e := l - 52).
  assert (E : (inject_Z (Z.abs z) / 2 ^ e == inject_Z (Z.abs z * 2 ^ (- e)))%Q).
  { rewrite inject_Z_mult. unfold Qdiv. apply Qmult_comp; [reflexivity|].
    rewrite <- Qpower_2_nonneg by (unfold e; lia).
    rewrite Qpower_opp. reflexivity. }
  rewrite (round_ties_even_integer _ _ E).
  assert (V : (inject_Z (Z.abs z * 2 ^ (- e)) * 2 ^ e == inject_Z (Z.abs z))%Q).
  { rewrite inject_Z_mult. rewrite <- Qpower_2_nonneg by (unfold e; lia).
    rewrite <- Qmult_assoc. rewrite <- Qpower_plus by discriminate.
    replace (- e + e) with 0 by lia. simpl. ring. }
  assert (O : Qle_bool (2 ^ 1024)
                (inject_Z (Z.abs z * 2 ^ (- e)) * 2 ^ e) = false).
  { apply not_true_is_false. intros T. apply Qle_bool_iff in T.
    rewrite V in T. rewrite Qpower_2_nonneg in T by lia.
    rewrite <- Zle_Qle in T.
    assert (2 ^ 53 < 2 ^ 1024) by (apply Z.pow_lt_mono_r; lia). lia. }
  rewrite O. f_equal.
  assert (F : forall q, (q == inject_Z z)%Q -> Qred q = inject_Z z).
  { intros q Hq. rewrite <- (Qred_inject_Z z). apply Qred_complete. exact Hq. }
  apply F.
  destruct (Qle_bool 0 (inject_Z z)) eqn:S.
  - rewrite V. apply Qle_bool_iff in S. change 0%Q with (inject_Z 0) in S.
    rewrite <- Zle_Qle in S. rewrite Z.abs_eq by exact S. reflexivity.
  - rewrite V. assert (N : z < 0).
    { destruct (Z_lt_le_dec z 0) as [N|N]; [exact N|].
      exfalso. rewrite Zle_Qle in N. apply Qle_bool_iff in N.
      change (inject_Z 0) with 0%Q in N. congruence. }
    rewrite Z.abs_neq by lia. rewrite inject_Z_opp. ring.
Qed.

Lemma as_int_of_int (z : Z) :
  - 2 ^ 31 <= z < 2 ^ 31 -> as_int (JNum (of_int z)) = Some z.
Proof.
  intros R. unfold as_int, of_int. cbv zeta.
  rewrite Qtrunc_inject_Z.
  destruct (Z.leb_spec (- 2 ^ 31) z); [|lia].
  destruct (Z.ltb_spec z (2 ^ 31)); [|lia]. reflexivity.
Qed.

Lemma num_add_of_int (a b : Z) :
  Z.abs (a + b) < 2 ^ 53 -> num_add (of_int a) (of_int b) = of_int (a + b).
Proof.
  intros R. unfold num_add, of_int.
  rewrite (binary64_compat _ (inject_Z (a + b))).
  - apply binary64_integer. exact R.
  - rewrite inject_Z_plus. reflexivity.
Qed.

Lemma js_lt_of_int (env : environment) (a b : Z) :
  js_lt env (of_int a) (JNum (of_int b)) = (a <? b).
Proof.
  unfold js_lt, ToNumber, num_lt, of_int.
  destruct (Z.ltb_spec a b) as [L|L].
  - apply negb_true_iff. apply not_true_is_false. intros T.
    apply Qle_bool_iff in T. rewrite <- Zle_Qle in T. lia.
  - apply negb_false_iff. apply Qle_bool_iff. rewrite <- Zle_Qle. exact L.
Qed.

Lemma find_by_id (ls : list CartLine.t) (l : CartLine.t) :
  NoDup (map CartLine.id ls) -> In l ls ->
  find (fun x => CartLine.id x =? CartLine.id l) ls = Some l.
Proof.
  intros N Hin.
  destruct (find (fun x => CartLine.id x =? CartLine.id l) ls) as [x|] eqn:F.
  - apply find_some in F. destruct F as [Hx E]. apply Z.eqb_eq in E.
    f_equal. exact (same_id_same_line _ _ _ N Hx Hin E).
  - exfalso. pose proof (find_none _ _ F l Hin) as E. simpl in E.
    rewrite Z.eqb_refl in E. discriminate.
Qed.

Lemma find_variant_id (vs : list Variant.t) (i : Z) (v : Variant.t) :
  find (fun x => Variant.id x =? i) vs = Some v -> Variant.id v = i.
Proof.
  intros F. apply find_some in F. destruct F as [_ E]. apply Z.eqb_eq. exact E.
Qed.

Lemma call_runs {S : Type} (rt : runtime) (q : query) (s : S) :
  query_fails rt q = false -> call rt q s = (Ok tt, s).
Proof. intros H. unfold call. rewrite H. reflexivity. Qed.

(** X12.  Adding to a line that exists adds the quantities, and the stock
    is compared with the added quantity only: the line ends at the old
    quantity plus the added one, however that sum compares with the
    stock. *)
Theorem cart_add_accumulates (env : environment) (rt : runtime) (userId : Z)
    (variant_id quantity : value) (variantId k : Z) (v : Variant.t)
    (e : CartLine.t) (d : cart_db) :
  (forall q, query_fails rt q = false) ->
  NoDup (map CartLine.id (cart_lines d)) ->
  as_int variant_id = Some variantId ->
  find (fun x => Variant.id x =? variantId) (cart_variants d) = Some v ->
  find (fun l => owned_by userId l && holds_variant variantId l) (cart_lines d)
  = Some e ->
  default_quantity quantity = JNum (of_int k) ->
  k <= Variant.stock_qty v ->
  - 2 ^ 31 <= CartItem.quantity (CartLine.item e) + k < 2 ^ 31 ->
  let total := CartItem.quantity (CartLine.item e) + k in
  exists d',
    cart_add env rt userId variant_id quantity d
    = (LineSaved 201 (set_quantity total e), d')
    /\ cart_lines d'
       = map (fun x => if CartLine.id x =? CartLine.id e
                       then set_quantity total x else x) (cart_lines d)
    /\ In (set_quantity total e) (cart_lines d').
Proof.
  intros Q N Hid Hv He Hq Hk R total.
  assert (Hin : In e (cart_lines d)) by (apply find_some in He; tauto).
  assert (I : as_int (js_plus env (CartItem.quantity (CartLine.item e))
                        (JNum (of_int k))) = Some total).
  { unfold js_plus, ToNumber. rewrite num_add_of_int.
    - apply as_int_of_int. exact R.
    - assert (2 ^ 31 < 2 ^ 53) by (apply Z.pow_lt_mono_r; lia). lia. }
  eexists. split; [|split].
  - unfold cart_add, st_catch. cbv zeta. rewrite Hq.
    unfold variants_findUnique. rewrite Hid. rewrite !st_bind_run.
    rewrite (call_runs rt _ _ (Q _)). cbv beta iota. rewrite Hv.
    rewrite (find_variant_id _ _ _ Hv).
    rewrite js_lt_of_int.
    destruct (Z.ltb_spec (Variant.stock_qty v) k) as [L|_]; [lia|].
    unfold cart_findFirst. rewrite !st_bind_run.
    rewrite (call_runs rt _ _ (Q _)). cbv beta iota. rewrite He.
    unfold cart_update. rewrite I.
    unfold js_plus. rewrite !st_bind_run.
    rewrite (call_runs rt _ _ (Q _)). cbv beta iota.
    rewrite (find_by_id _ _ N Hin).
    unfold log_activity. rewrite !st_bind_run.
    rewrite (call_runs rt _ _ (Q _)). cbv beta iota. reflexivity.
  - reflexivity.
  - simpl. apply in_map_iff. exists e. rewrite Z.eqb_refl. auto.
Qed.

Lemma cart_add_accumulates_witness :
  let total := CartItem.quantity (CartLine.item (Demo.cart_line 10 42 1 4)) + 4 in
  exists d',
    cart_add (Sample.env 7 Sample.no_failure) (Demo.rt Demo.never) 42
      (JNum (of_int 1)) (JNum (of_int 4)) Demo.cart
    = (LineSaved 201 (set_quantity total (Demo.cart_line 10 42 1 4)), d')
    /\ cart_lines d'
       = map (fun x => if CartLine.id x =? CartLine.id (Demo.cart_line 10 42 1 4)
                       then set_quantity total x else x) (cart_lines Demo.cart)
    /\ In (set_quantity total (Demo.cart_line 10 42 1 4)) (cart_lines d').
Proof.
  apply (cart_add_accumulates (Sample.env 7 Sample.no_failure)
           (Demo.rt Demo.never) 42 (JNum (of_int 1)) (JNum (of_int 4)) 1 4
           (Sample.variant 1 1000 5) (Demo.cart_line 10 42 1 4) Demo.cart).
  - reflexivity.
  - apply demo_cart_ids_unique with (fails := Demo.never).
  - vm_compute. reflexivity.
  - reflexivity.
  - reflexivity.
  - reflexivity.
  - simpl. lia.
  - simpl. lia.
Defined.

(** Four units were in the cart and four are added: the line holds eight,
    of a variant with five in stock. *)
Example cart_line_beyond_stock :
  let d' := snd (cart_add (Sample.env 7 Sample.no_failure)
                   (Demo.rt Demo.never) 42 (JNum (of_int 1)) (JNum (of_int 4))
                   Demo.cart) in
  cart_lines d' = [Demo.cart_line 10 42 1 8; Demo.cart_line 11 43 1 1]
  /\ map Variant.stock_qty (cart_variants d') = [5; 5].
Proof. vm_compute. auto. Qed.

(** X13.  [PUT /:id] bounds the quantity from above only: any [Int] not
    above the stock of the line's variant is written to the line, zero
    and the negative ones included, and the line stays in the cart. *)
Theorem cart_set_has_no_lower_bound (env : environment) (rt : runtime)
    (userId : Z) (id : string) (i variantId q : Z) (l : CartLine.t)
    (v : Variant.t) (d : cart_db) :
  (forall x, query_fails rt x = false) ->
  NoDup (map CartLine.id (cart_lines d)) ->
  as_int (JNum (parseInt rt id)) = Some i ->
  find (fun x => (CartLine.id x =? i) && owned_by userId x) (cart_lines d)
  = Some l ->
  CartItem.variant_id (CartLine.item l) = Some variantId ->
  find (fun x => Variant.id x =? variantId) (cart_variants d) = Some v ->
  q <= Variant.stock_qty v ->
  - 2 ^ 31 <= q < 2 ^ 31 ->
  exists d',
    cart_set env rt userId id (JNum (of_int q)) d
    = (LineSaved 200 (set_quantity q l), d')
    /\ cart_lines d'
       = map (fun x => if CartLine.id x =? i then set_quantity q x else x)
           (cart_lines d)
    /\ In (set_quantity q l) (cart_lines d')
    /\ List.length (cart_lines d') = List.length (cart_lines d).
Proof.
  intros Q N Hi Hl Hvid Hv Hq R.
  destruct (find_own_line _ _ _ _ Hl) as (Hin & Eid & _).
  eexists. split; [|split; [|split]].
  - unfold cart_set, st_catch. cbv zeta.
    unfold own_line. rewrite Hi. unfold cart_findFirst. rewrite !st_bind_run.
    rewrite (call_runs rt _ _ (Q _)). cbv beta iota. rewrite Hl.
    rewrite st_bind_run. unfold included_variant. rewrite Hvid, Hv.
    rewrite js_lt_of_int.
    destruct (Z.ltb_spec (Variant.stock_qty v) q) as [L|_]; [lia|].
    unfold cart_update. rewrite (as_int_of_int _ R). unfold of_int.
    rewrite !st_bind_run.
    rewrite (call_runs rt _ _ (Q _)). cbv beta iota.
    rewrite (find_by_id _ _ N Hin).
    unfold log_activity. rewrite !st_bind_run.
    rewrite (call_runs rt _ _ (Q _)). cbv beta iota. reflexivity.
  - simpl. rewrite Eid. reflexivity.
  - simpl. apply in_map_iff. exists l. rewrite Z.eqb_refl. auto.
  - simpl. apply length_map.
Qed.

Lemma cart_set_has_no_lower_bound_witness :
  exists d',
    cart_set (Sample.env 7 Sample.no_failure) (Demo.rt Demo.never) 42 "10"
      (JNum (of_int (- 3))) Demo.cart
    = (LineSaved 200 (set_quantity (- 3) (Demo.cart_line 10 42 1 4)), d')
    /\ cart_lines d'
       = map (fun x => if CartLine.id x =? 10 then set_quantity (- 3) x else x)
           (cart_lines Demo.cart)
    /\ In (set_quantity (- 3) (Demo.cart_line 10 42 1 4)) (cart_lines d')
    /\ List.length (cart_lines d') = List.length (cart_lines Demo.cart).
Proof.
  apply (cart_set_has_no_lower_bound (Sample.env 7 Sample.no_failure)
           (Demo.rt Demo.never) 42 "10" 10 1 (- 3) (Demo.cart_line 10 42 1 4)
           (Sample.variant 1 1000 5) Demo.cart).
  - reflexivity.
  - apply demo_cart_ids_unique with (fails := Demo.never).
  - vm_compute. reflexivity.
  - reflexivity.
  - reflexivity.
  - reflexivity.
  - simpl. lia.
  - lia.
Defined.

(** X14.  A line of somebody else cannot be changed or removed: a [PUT]
    or [DELETE] on an id that is no line of the caller is answered 404,
    as for an id that does not exist, and nothing is written. *)
Theorem foreign_cart_line_is_not_found (env : environment) (rt : runtime)
    (userId : Z) (id : string) (i : Z) (quantity : value) (d : cart_db) :
  as_int (JNum (parseInt rt id)) = Some i ->
  query_fails rt CartFindFirst = false ->
  (forall l, In l (cart_lines d) -> CartLine.id l = i ->
             owned_by userId l = false) ->
  cart_set env rt userId id quantity d
  = (CartFailure 404 "Cart item not found", d)
  /\ cart_remove rt userId id d = (CartFailure 404 "Cart item not found", d).
Proof.
  intros Hi Q F.
  assert (O : own_line rt userId (parseInt rt id) d = (Ok None, d)).
  { unfold own_line. rewrite Hi. unfold cart_findFirst. rewrite st_bind_run.
    rewrite (call_runs rt _ _ Q). cbv beta iota.
    destruct (find _ (cart_lines d)) as [l|] eqn:E; [|reflexivity].
    exfalso. apply find_own_line in E. destruct E as (Hin & Eid & Ho).
    rewrite (F l Hin Eid) in Ho. discriminate. }
  unfold cart_set, cart_remove, st_catch. cbv zeta.
  rewrite !st_bind_run, O. auto.
Qed.

Lemma foreign_cart_line_is_not_found_witness :
  cart_set (Sample.env 7 Sample.no_failure) (Demo.rt Demo.never) 42 "11"
    (JNum (of_int 0)) Demo.cart
  = (CartFailure 404 "Cart item not found", Demo.cart)
  /\ cart_remove (Demo.rt Demo.never) 42 "11" Demo.cart
     = (CartFailure 404 "Cart item not found", Demo.cart).
Proof.
  apply (foreign_cart_line_is_not_found (Sample.env 7 Sample.no_failure)
           (Demo.rt Demo.never) 42 "11" 11 (JNum (of_int 0)) Demo.cart).
  - vm_compute. reflexivity.
  - reflexivity.
  - simpl. intros l [E|[E|[]]] I; subst l; simpl in I; [lia|reflexivity].
Defined.

(** ** Stock accounting of a created order *)

Lemma decrement_stock_0 (v : Variant.t) : decrement_stock 0 v = v.
Proof. destruct v. unfold decrement_stock. simpl. rewrite Z.sub_0_r. reflexivity. Qed.

Lemma decrement_stock_twice (a b : Z) (v : Variant.t) :
  decrement_stock b (decrement_stock a v) = decrement_stock (a + b) v.
Proof. unfold decrement_stock. simpl. f_equal. lia. Qed.

Lemma decremented_by_lines (lines : list OrderItem.t) (ds : list (Z * Z)) :
  Forall2 (fun l zq => OrderItem.variant_id l = Some (fst zq)
                       /\ OrderItem.quantity l = snd zq) lines ds ->
  forall vs,
    decremented ds vs
    = map (fun v => decrement_stock (ordered_quantity lines (Variant.id v)) v)
        vs.
Proof.
  induction 1 as [|l [z q] lines ds [Hz Hq] _ IH]; intros vs; simpl.
  - rewrite <- (map_id vs) at 1. apply map_ext. intros v.
    symmetry. apply decrement_stock_0.
  - rewrite IH, map_map. apply map_ext. intros v.
    rewrite decrement_where_id, Hz. simpl in Hq. simpl fst. rewrite Hq.
    unfold decrement_where. rewrite (Z.eqb_sym z).
    destruct (Variant.id v =? z); [|reflexivity].
    apply decrement_stock_twice.
Qed.

Lemma snapshots_decrements (d : db) (order : Order.t) (its : list order_item)
    (lines : list OrderItem.t) :
  Forall2 (snapshot_of d order) its lines ->
  forall zs qs,
    as_ints (map variant_id its) = Some zs ->
    as_ints (map quantity its) = Some qs ->
    Forall2 (fun l zq => OrderItem.variant_id l = Some (fst zq)
                         /\ OrderItem.quantity l = snd zq)
      lines (combine zs qs).
Proof.
  induction 1 as [|item l its lines S _ IH]; intros zs qs; simpl.
  - intros Hz _. inversion Hz. constructor.
  - destruct (as_int (variant_id item)) as [z|] eqn:V; [|discriminate].
    destruct (as_ints (map variant_id its)) as [zs'|]; [|discriminate].
    destruct (as_int (quantity item)) as [q|] eqn:Q; [|discriminate].
    destruct (as_ints (map quantity its)) as [qs'|]; [|discriminate].
    intros Hz Hq. inversion Hz. inversion Hq. subst. simpl.
    constructor; [|apply IH; reflexivity].
    destruct S as (v & Hr & _ & Hv & _ & _ & _ & _ & _ & Hk).
    destruct (find_variant_some _ _ _ _ Hr V) as [_ E]. simpl.
    rewrite Hv, E. split; [reflexivity|congruence].
Qed.

(** X15.  A created order takes from the stock exactly what its lines
    record: after the call every variant is the variant of before with
    its stock lowered by the quantities of the lines that name it, and
    nothing else of the table has changed. *)
Theorem created_order_takes_its_lines_from_stock (env : environment)
    (userId : Z) (body : request_body) (w w' : world) (order : Order.t)
    (lines : list OrderItem.t) (totalAmount : number) :
  placeOrder env userId body w = (OrderCreated order lines totalAmount, w') ->
  product_variants (store w')
  = map (fun v => decrement_stock (ordered_quantity lines (Variant.id v)) v)
      (product_variants (store w)).
Proof.
  intros H. apply placeOrder_created_inv in H.
  destruct H as (its & zs & qs & ois & P).
  pose proof (created_lines_are_snapshots _ _ _ _ _ _ _ _ _ _ _ _ P) as S.
  rewrite (placed_store _ _ _ _ _ _ _ _ _ _ _ _ P). simpl.
  apply decremented_by_lines.
  exact (snapshots_decrements _ _ _ _ S _ _
           (placed_ids _ _ _ _ _ _ _ _ _ _ _ _ P)
           (placed_quantities _ _ _ _ _ _ _ _ _ _ _ _ P)).
Qed.

Lemma created_order_takes_its_lines_from_stock_witness :
  product_variants
    (store (snd (placeOrder (Sample.env 7 Sample.no_failure) 42
                   Sample.two_tees Sample.shop)))
  = map (fun v => decrement_stock
                    (ordered_quantity Sample.tee_lines (Variant.id v)) v)
      (product_variants (store Sample.shop)).
Proof.
  apply (created_order_takes_its_lines_from_stock
           (Sample.env 7 Sample.no_failure) 42 Sample.two_tees Sample.shop _
           Sample.tee_order Sample.tee_lines (Finite 20)).
  vm_compute. reflexivity.
Defined.

(** ** The cart listing and the order made of it *)

Lemma cart_total_thrown (cart : list (CartLine.t * option Variant.t)) :
  fold_left
    (fun sum row =>
       match sum, snd row with
       | Some s, Some v =>
           Some (num_add s
                   (num_mul (of_int (CartItem.quantity (CartLine.item (fst row))))
                            (decimal_to_number (Variant.price v))))
       | _, _ => None
       end)
    cart None = None.
Proof. induction cart as [|row cart IH]; simpl; auto. Qed.

Lemma cart_total_variants (cart : list (CartLine.t * option Variant.t)) :
  forall acc total,
    fold_left
      (fun sum row =>
         match sum, snd row with
         | Some s, Some v =>
             Some (num_add s
                     (num_mul (of_int (CartItem.quantity
                                         (CartLine.item (fst row))))
                              (decimal_to_number (Variant.price v))))
         | _, _ => None
         end)
      cart (Some acc) = Some total ->
    Forall (fun row => exists v, snd row = Some v) cart.
Proof.
  induction cart as [|[l o] cart IH]; intros acc total; simpl; [constructor|].
  destruct o as [v|].
  - intros H. constructor; [exists v; reflexivity|exact (IH _ _ H)].
  - rewrite cart_total_thrown. discriminate.
Qed.

(** X16.  [GET /api/cart] lists the caller's lines and no other, each with
    its variant: whatever order the store sorts them in, the listed lines
    are the rows of [cart_items] with the caller's [user_id], [count] is
    their number, and every one of them comes with the variant its
    [variant_id] names.  A line without variant is never listed: it makes
    the whole listing fail. *)
Theorem cart_get_lists_own_lines (rt : runtime) (userId : Z) (d : cart_db)
    (count : nat) (total : number)
    (data : list (CartLine.t * option Variant.t)) :
  (forall l, Permutation (by_added_at_desc rt l) l) ->
  cart_get rt userId d = CartListed count total data ->
  count = List.length data
  /\ Permutation (map fst data) (filter (owned_by userId) (cart_lines d))
  /\ cart_total data = Some total
  /\ Forall (fun row =>
               exists v,
                 snd row = Some v /\ In v (cart_variants d)
                 /\ CartItem.variant_id (CartLine.item (fst row))
                    = Some (Variant.id v)) data.
Proof.
  intros P. unfold cart_get. cbv zeta.
  destruct (query_fails rt CartFindMany); [discriminate|].
  destruct (cart_total _) as [t|] eqn:T; [|discriminate].
  intros H. inversion H. subst count t data. clear H.
  split; [reflexivity|]. split; [|split; [exact T|]].
  - rewrite map_map. simpl. rewrite map_id. apply P.
  - apply cart_total_variants in T. rewrite Forall_forall in *.
    intros row Hrow. destruct (T row Hrow) as (v & Hv). exists v.
    apply in_map_iff in Hrow. destruct Hrow as (l & <- & _).
    simpl in *. split; [exact Hv|]. unfold cart_line_variant in Hv.
    destruct (CartItem.variant_id (CartLine.item l)) as [i|]; [|discriminate].
    apply find_some in Hv. destruct Hv as [Hin E]. apply Z.eqb_eq in E.
    subst i. auto.
Qed.

Lemma cart_get_lists_own_lines_witness :
  let data := [(Demo.cart_line 10 42 1 4, Some (Sample.variant 1 1000 5))] in
  1%nat = List.length data
  /\ Permutation (map fst data) (filter (owned_by 42) (cart_lines Demo.cart))
  /\ cart_total data = Some (Finite 40)
  /\ Forall (fun row =>
               exists v,
                 snd row = Some v /\ In v (cart_variants Demo.cart)
                 /\ CartItem.variant_id (CartLine.item (fst row))
                    = Some (Variant.id v)) data.
Proof.
  apply (cart_get_lists_own_lines (Demo.rt Demo.never) 42 Demo.cart).
  - intros l. apply Permutation_sym, Permutation_rev.
  - vm_compute. reflexivity.
Defined.

(** A line whose variant is [null] turns the listing into a 500. *)
Example cart_listing_with_a_dangling_line :
  cart_get (Demo.rt Demo.never) 42
    (set_cart_lines
       [Demo.cart_line 10 42 1 4;
        {| CartLine.id := 12;
           CartLine.item := {| CartItem.user_id := Some 42;
                               CartItem.variant_id := None;
                               CartItem.quantity := 1 |} |}]
       Demo.cart)
  = CartServerError.
Proof. vm_compute. reflexivity. Qed.

Lemma num_mul_comm (a b : number) : num_mul a b = num_mul b a.
Proof.
  destruct a as [x| | |], b as [y| | |]; simpl; try reflexivity.
  apply binary64_compat. apply Qmult_comm.
Qed.

Lemma strict_eq_int_of_int (a b : Z) :
  strict_eq_int a (JNum (of_int b)) = (a =? b).
Proof.
  unfold strict_eq_int, of_int. destruct (Z.eqb_spec a b) as [E|N].
  - subst. apply Qeq_bool_iff. reflexivity.
  - apply not_true_is_false. intros T. apply Qeq_bool_iff in T.
    apply N. apply inject_Z_injective. exact T.
Qed.

Lemma as_int_of_int_inv (a k : Z) : as_int (JNum (of_int a)) = Some k -> k = a.
Proof.
  intros H. apply as_int_inv in H. destruct H as (q & E & Hq & _).
  inversion E. subst q k. apply Qtrunc_inject_Z.
Qed.

Lemma find_same {A : Type} (f g : A -> bool) (l : list A) :
  (forall x, f x = g x) -> find f l = find g l.
Proof.
  intros H. induction l as [|x l IH]; simpl; [reflexivity|].
  rewrite H, IH. reflexivity.
Qed.

Lemma checkout_item_resolved (d : db) (c : cart_db) (l : CartLine.t)
    (o : option Variant.t) (v : Variant.t) :
  cart_variants c = product_variants d ->
  o = cart_line_variant c l ->
  resolved d (checkout_item (l, o)) = Some v ->
  o = Some v.
Proof.
  intros V -> R. unfold resolved, find_variant, checkout_item in R.
  unfold cart_line_variant. simpl in R.
  destruct (CartItem.variant_id (CartLine.item l)) as [i|].
  - rewrite V, <- R. apply find_same. intros x.
    symmetry. apply strict_eq_int_of_int.
  - exfalso. rewrite (find_same _ (fun _ => false)) in R by reflexivity.
    clear V. induction (product_variants d) as [|x xs IH]; simpl in R;
      [discriminate|exact (IH R)].
Qed.

Lemma checkout_total (d : db) (c : cart_db) (order : Order.t) :
  cart_variants c = product_variants d ->
  forall (data : list (CartLine.t * option Variant.t))
         (lines : list OrderItem.t),
    Forall (fun row => snd row = cart_line_variant c (fst row)) data ->
    Forall2 (snapshot_of d order) (map checkout_item data) lines ->
    forall acc total,
      fold_left
        (fun sum row =>
           match sum, snd row with
           | Some s, Some v =>
               Some (num_add s
                       (num_mul (of_int (CartItem.quantity
                                           (CartLine.item (fst row))))
                                (decimal_to_number (Variant.price v))))
           | _, _ => None
           end)
        data (Some acc) = Some total ->
      fold_left
        (fun acc l =>
           num_add acc (num_mul (decimal_to_number (OrderItem.unit_price l))
                                (of_int (OrderItem.quantity l))))
        lines acc = total.
Proof.
  intros V. induction data as [|[l o] data IH]; intros lines F S acc total;
    inversion S as [|? l' ? lines' S1 S2]; subst; simpl.
  - intros H. inversion H. reflexivity.
  - inversion F as [|? ? F1 F2]. subst. simpl in F1.
    destruct S1 as (v & Hr & _ & _ & _ & _ & _ & _ & Hp & Hq).
    rewrite (checkout_item_resolved d c l o v V F1 Hr).
    simpl in Hq. apply as_int_of_int_inv in Hq. rewrite Hp, Hq.
    rewrite (num_mul_comm (decimal_to_number (Variant.price v))).
    apply IH; assumption.
Qed.

(** X17.  The total of the cart listing is the total of the order made of
    it: when the listed lines are ordered as listed, against the same
    variants, the [totalAmount] of the created order is the [total] the
    cart route answered with. *)
Theorem cart_total_is_the_order_total (env : environment) (rt : runtime)
    (userId : Z) (c : cart_db) (count : nat) (total : number)
    (data : list (CartLine.t * option Variant.t)) (payment : value)
    (w w' : world) (order : Order.t) (lines : list OrderItem.t)
    (totalAmount : number) :
  cart_get rt userId c = CartListed count total data ->
  cart_variants c = product_variants (store w) ->
  placeOrder env userId (checkout data payment) w
  = (OrderCreated order lines totalAmount, w') ->
  totalAmount = total /\ double_total lines = total.
Proof.
  intros G V H.
  destruct (created_total _ _ _ _ _ _ _ _ H) as (its' & Hi' & _ & Ht & _).
  apply placeOrder_created_inv in H. destruct H as (its & zs & qs & ois & P).
  pose proof (created_lines_are_snapshots _ _ _ _ _ _ _ _ _ _ _ _ P) as S.
  pose proof (placed_items _ _ _ _ _ _ _ _ _ _ _ _ P) as I.
  rewrite I in Hi'. inversion Hi'. subst its'. clear Hi'.
  simpl in I. inversion I. subst its. clear I P.
  rewrite Ht, (requested_total_whole env _ _ _ _ S).
  2:{ apply Forall_forall. intros x Hx. apply in_map_iff in Hx.
      destruct Hx as (row & <- & _). eexists. eexists.
      split; [reflexivity|]. simpl. reflexivity. }
  clear Ht.
  cut (double_total lines = total); [auto|]. unfold double_total.
  unfold cart_get in G. cbv zeta in G.
  destruct (query_fails rt CartFindMany); [discriminate|].
  destruct (cart_total _) as [t|] eqn:T; [|discriminate].
  inversion G. subst count t data. clear G.
  refine (checkout_total (store w) c order V _ lines _ S (of_int 0) total T).
  apply Forall_forall. intros row Hrow. apply in_map_iff in Hrow.
  destruct Hrow as (l & <- & _). reflexivity.
Qed.

Lemma cart_total_is_the_order_total_witness :
  Finite 40 = Finite 40
  /\ double_total
       [{| OrderItem.order_id := 7;
           OrderItem.variant_id := Some 1;
           OrderItem.product_name := "Tee";
           OrderItem.size := Some "M";
           OrderItem.color := Some "Black";
           OrderItem.edition := None;
           OrderItem.unit_price := 1000;
           OrderItem.quantity := 4 |}]
     = Finite 40.
Proof.
  apply (cart_total_is_the_order_total (Sample.env 7 Sample.no_failure)
           (Demo.rt Demo.never) 42 Demo.cart 1 (Finite 40)
           [(Demo.cart_line 10 42 1 4, Some (Sample.variant 1 1000 5))]
           JUndefined Sample.shop
           (snd (placeOrder (Sample.env 7 Sample.no_failure) 42
                   (checkout [(Demo.cart_line 10 42 1 4,
                               Some (Sample.variant 1 1000 5))] JUndefined)
                   Sample.shop))
           {| Order.id := 7; Order.user_id := 42; Order.total_amount := 4000;
              Order.payment_method := "Credit Card"; Order.is_paid := true;
              Order.status := "processing" |}
           [{| OrderItem.order_id := 7;
               OrderItem.variant_id := Some 1;
               OrderItem.product_name := "Tee";
               OrderItem.size := Some "M";
               OrderItem.color := Some "Black";
               OrderItem.edition := None;
               OrderItem.unit_price := 1000;
               OrderItem.quantity := 4 |}]).
  - vm_compute. reflexivity.
  - reflexivity.
  - vm_compute. reflexivity.
Defined.
